(** * Prospecting Manager (app.py): a shallow embedding and its properties

    The first part is the model, in the order of [app.py]:

    - [PyStr]       the [str] methods the program calls;
    - [Frame]       cells, rows and data frames as pandas hands them over;
    - [Float64]     the float64 operations behind the rates and the casts;
    - [Normalizer]  [_standardize_columns];
    - [Clock]       timestamps, their calendar fields and [strftime];
    - [Template]    [str.format] and [_render_template];
    - [Invite]      [_ics_event_bytes] and the bulk calendar document;
    - [Analytics]   [rate_table], [_touch_datetime] and the weekday table;

    followed by a reference runtime ([Reference]) and the tables and
    records of the examples ([Examples]), and then by the code of the page
    around these functions:

    - [Emails]      the example templates and the personalized-emails export;
    - [Overview]    the first table of a session, the totals and the hour table;
    - [Editing]     the filters and the merge of the editor's content;

    with more vocabulary ([Terms]) and more examples ([Cases]).  The second
    part holds the properties, module by module.

    Behaviour that lives in pandas, zoneinfo or the interpreter and not in
    [app.py] (reading a number or a date out of text, printing a float,
    the time-zone database, the part of the format mini-language beyond
    [{name}], what depends on the dtype of a column or on the version of
    pandas) is an operation of a type class, [Pandas] or [Python], so
    that every statement holds for any implementation of it.

    Scope of the model.  Strings are sequences of bytes, UTF-8 for text
    outside ASCII; case mapping and white space are the ASCII ones.
    Column labels are text: a table with a header that is a number or a
    date, on which [c.lower()] raises, is not a table of the model.  A
    cell holds text, an integer, a float, a timestamp or one of the three
    missing values; an integer is an int64 and the bounds of a pandas
    timestamp do not show.  The rates and the cast of a float to an
    integer follow float64 arithmetic on finite values. *)

From Stdlib Require Import String Ascii List ZArith Lia Bool Arith QArith_base.
From Stdlib Require Import QArith Lqa SpecFloat.
From Stdlib Require Import DecimalString.
From Stdlib Require Import Sorting.Sorted Sorting.Permutation Structures.OrderedTypeEx.
Import ListNotations.

#[local] Open Scope string_scope.
#[local] Open Scope list_scope.

(* ------------------------------------------------------------------ *)
(** ** Python [str] methods *)

Module PyStr.

Definition is_upper (c : ascii) : bool :=
  let n := nat_of_ascii c in (65 <=? n)%nat && (n <=? 90)%nat.

Definition is_lower (c : ascii) : bool :=
  let n := nat_of_ascii c in (97 <=? n)%nat && (n <=? 122)%nat.

Definition lower_char (c : ascii) : ascii :=
  if is_upper c then ascii_of_nat (nat_of_ascii c + 32) else c.

Definition upper_char (c : ascii) : ascii :=
  if is_lower c then ascii_of_nat (nat_of_ascii c - 32) else c.

(** [s.lower()] *)
Fixpoint lower (s : string) : string :=
  match s with
  | EmptyString => EmptyString
  | String c s' => String (lower_char c) (lower s')
  end.

(** [s.capitalize()]: first character upper-cased, the rest lower-cased. *)
Definition capitalize (s : string) : string :=
  match s with
  | EmptyString => EmptyString
  | String c s' => String (upper_char c) (lower s')
  end.

(** [s.startswith(p)] *)
Fixpoint startswith (p s : string) : bool :=
  match p, s with
  | EmptyString, _ => true
  | String a p', String b s' => Ascii.eqb a b && startswith p' s'
  | String _ _, EmptyString => false
  end.

(** [old in s] *)
Fixpoint contains (old s : string) : bool :=
  startswith old s ||
  match s with
  | EmptyString => false
  | String _ s' => contains old s'
  end.

(** [s.replace(old, new)] for a non-empty [old]: occurrences are replaced
    from left to right and do not overlap.  [skip] counts the characters
    of a match that are still to be dropped. *)
Fixpoint replace_from (old new : string) (skip : nat) (s : string) : string :=
  match s with
  | EmptyString => EmptyString
  | String c s' =>
      match skip with
      | S k => replace_from old new k s'
      | O =>
          if startswith old s
          then new ++ replace_from old new (String.length old - 1) s'
          else String c (replace_from old new 0 s')
      end
  end.

Definition replace (old new s : string) : string := replace_from old new 0 s.

(** [sep.join(parts)] *)
Fixpoint join (sep : string) (parts : list string) : string :=
  match parts with
  | [] => EmptyString
  | [p] => p
  | p :: rest => p ++ sep ++ join sep rest
  end.

(** The ASCII white space, which [str.strip()] removes. *)
Definition is_space (c : ascii) : bool :=
  let n := nat_of_ascii c in
  ((9 <=? n)%nat && (n <=? 13)%nat) || ((28 <=? n)%nat && (n <=? 32)%nat).

Fixpoint lstrip (s : string) : string :=
  match s with
  | EmptyString => EmptyString
  | String c s' => if is_space c then lstrip s' else s
  end.

Fixpoint rstrip (s : string) : string :=
  match s with
  | EmptyString => EmptyString
  | String c s' =>
      match rstrip s' with
      | EmptyString => if is_space c then EmptyString else String c EmptyString
      | r => String c r
      end
  end.

(** [s.strip()] *)
Definition strip (s : string) : string := rstrip (lstrip s).

(** [s.lstrip('0')] *)
Fixpoint lstrip_zero (s : string) : string :=
  match s with
  | EmptyString => EmptyString
  | String c s' => if Ascii.eqb c "0" then lstrip_zero s' else s
  end.

(** [s.split(sep)[0]]: the text before the first occurrence of [sep], the
    whole of [s] when there is none. *)
Fixpoint before (sep s : string) : string :=
  match s with
  | EmptyString => EmptyString
  | String c s' => if startswith sep s then EmptyString else String c (before sep s')
  end.

(** [s[n:]] *)
Fixpoint drop (n : nat) (s : string) : string :=
  match n, s with
  | O, _ => s
  | S n', String _ s' => drop n' s'
  | S _, EmptyString => EmptyString
  end.

(** The text after the first occurrence of [sep]; [None] when [sep] does
    not occur, that is when [s.split(sep)] has a single element. *)
Fixpoint after (sep s : string) : option string :=
  if startswith sep s then Some (drop (String.length sep) s)
  else match s with
       | EmptyString => None
       | String _ s' => after sep s'
       end.

(** [s.split(sep)[1]] when [len(s.split(sep)) > 1]. *)
Definition second_piece (sep s : string) : option string :=
  option_map (before sep) (after sep s).

(** [c] occurs in [s]. *)
Fixpoint has_char (c : ascii) (s : string) : bool :=
  match s with
  | EmptyString => false
  | String a s' => Ascii.eqb a c || has_char c s'
  end.

End PyStr.

(* ------------------------------------------------------------------ *)
(** ** Cells, rows and data frames *)

Module Frame.

(** A pandas [Timestamp].  [ts_value] counts nanoseconds since
    1970-01-01T00:00:00: wall-clock time for a naive timestamp, the UTC
    instant for one that carries a zone.  [ts_offset] is [None] for a naive
    timestamp ([tzinfo is None]) and otherwise the zone's offset from UTC at
    that instant, in seconds east of Greenwich. *)
Record Timestamp : Type := mkTimestamp {
  ts_value : Z;
  ts_offset : option Z
}.

(** A float64 value: finite values are rationals. *)
Inductive pyfloat : Type :=
| FNaN
| FInf (negative : bool)
| FFin (q : Q).

(** What a cell of an imported or edited table can hold.  [CNone], [CNaT]
    and [CFloat FNaN] are the three missing values [pd.isna] recognises
    ([None], [pd.NaT], [nan]).  An integer is an int64, as in the columns
    of whole numbers pandas reads from a worksheet: the model says nothing
    of a Python integer beyond that range. *)
Inductive cell : Type :=
| CStr (s : string)
| CInt (z : Z)
| CFloat (f : pyfloat)
| CNone
| CNaT
| CTime (t : Timestamp).

(** [pd.isna(x)] *)
Definition isna (c : cell) : bool :=
  match c with
  | CNone | CNaT | CFloat FNaN => true
  | _ => false
  end.

(** A value of a datetime64 column: a timestamp or [NaT]. *)
Definition is_date (c : cell) : bool :=
  match c with
  | CTime _ | CNaT => true
  | _ => false
  end.

(** A [DataFrame]: the length of its index and its columns in order.
    Labels are text and may repeat, as pandas allows. *)
Record DataFrame : Type := mkFrame {
  nrows : nat;
  columns : list (string * list cell)
}.

(** [df.columns] *)
Definition labels (df : DataFrame) : list string := map fst (columns df).

(** Every column is as long as the index. *)
Definition well_formed (df : DataFrame) : Prop :=
  Forall (fun lc => length (snd lc) = nrows df) (columns df).

(** [col in df.columns] *)
Definition has_column (col : string) (df : DataFrame) : bool :=
  existsb (String.eqb col) (labels df).

(** The columns [df[col]] selects: one for a label that is unique, several
    for a repeated label. *)
Definition select (col : string) (df : DataFrame) : list (list cell) :=
  map snd (filter (fun lc => String.eqb (fst lc) col) (columns df)).

(** [df[col] = value] for a scalar [value] and a label that is not yet a
    column: the new column is appended. *)
Definition add_column (col : string) (value : cell) (df : DataFrame) : DataFrame :=
  mkFrame (nrows df) (columns df ++ [(col, repeat value (nrows df))]).

(** [df[col] = series] for a label that is a column already. *)
Definition set_column (col : string) (series : list cell) (df : DataFrame) : DataFrame :=
  mkFrame (nrows df)
          (map (fun lc => if String.eqb (fst lc) col then (fst lc, series) else lc)
               (columns df)).

(** [df.rename(columns=f)] *)
Definition rename (f : string -> string) (df : DataFrame) : DataFrame :=
  mkFrame (nrows df) (map (fun lc => (f (fst lc), snd lc)) (columns df)).

(** [df[[c for c in order if c in df.columns]]] *)
Definition reorder (order : list string) (df : DataFrame) : DataFrame :=
  mkFrame (nrows df)
          (flat_map (fun c => filter (fun lc => String.eqb (fst lc) c) (columns df))
                    order).

(** A row as [iterrows] and [df.loc[i]] give it: the labels with the row's
    values. *)
Definition row : Type := list (string * cell).

Definition row_at (df : DataFrame) (i : nat) : row :=
  map (fun lc => (fst lc, nth i (snd lc) CNone)) (columns df).

Definition rows (df : DataFrame) : list row :=
  map (row_at df) (seq 0 (nrows df)).

(** [row.get(key, default)] *)
Fixpoint row_get (key : string) (default : cell) (r : row) : cell :=
  match r with
  | [] => default
  | (k, v) :: r' => if String.eqb k key then v else row_get key default r'
  end.

(** A Python [dict] with string keys and values, in insertion order. *)
Definition dict : Type := list (string * string).

Fixpoint dict_get (k : string) (d : dict) : option string :=
  match d with
  | [] => None
  | (k', v) :: d' => if String.eqb k' k then Some v else dict_get k d'
  end.

(** [d[k] = v] *)
Fixpoint dict_set (k v : string) (d : dict) : dict :=
  match d with
  | [] => [(k, v)]
  | (k', v') :: d' => if String.eqb k' k then (k, v) :: d' else (k', v') :: dict_set k v d'
  end.

(** The columns of [df] that carry the label [col], with their labels. *)
Definition pick (col : string) (cols : list (string * list cell)) :=
  filter (fun lc => String.eqb (fst lc) col) cols.

End Frame.

(* ------------------------------------------------------------------ *)
(** ** Float64 arithmetic *)

(** The arithmetic of numpy's float64 on the values the rates take: a
    finite double is the rational it stands for, and every operation
    returns the double nearest to the exact result, a tie going to the
    even significand.  The exponent is not bounded: the counts of a table
    and their quotients are far from the overflow and underflow of a
    double. *)
Module Float64.

(** The nearest integer to [num / den], a tie going to the even one. *)
Definition round_half_even (num den : Z) : Z :=
  let q := (num / den)%Z in
  let r := (num mod den)%Z in
  if (2 * r <? den)%Z then q
  else if (den <? 2 * r)%Z then (q + 1)%Z
  else if Z.even q then q else (q + 1)%Z.

(** [floor (log2 (num / den))] for positive [num] and [den]. *)
Definition ilog2 (num den : Z) : Z :=
  let c := (Z.log2 num - Z.log2 den)%Z in
  if (0 <=? c)%Z
  then if (den * 2 ^ c <=? num)%Z then c else (c - 1)%Z
  else if (den <=? num * 2 ^ (- c))%Z then c else (c - 1)%Z.

(** The double nearest to [num / den], both positive: the quotient is
    rounded to a multiple of [2 ^ e], where [e] leaves 53 bits to the
    significand. *)
Definition nearest_pos (num den : Z) : Q :=
  let e := (ilog2 num den - 52)%Z in
  if (0 <=? e)%Z
  then inject_Z (round_half_even num (den * 2 ^ e) * 2 ^ e)
  else Qmake (round_half_even (num * 2 ^ (- e)) den) (Z.to_pos (2 ^ (- e))).

(** The double nearest to a rational. *)
Definition nearest (q : Q) : Q :=
  match Qnum q with
  | Z0 => 0%Q
  | Zpos _ => nearest_pos (Qnum q) (Zpos (Qden q))
  | Zneg _ => Qopp (nearest_pos (- Qnum q) (Zpos (Qden q)))
  end.

(** An int64 converted to float64, [x / y] and [x * y]. *)
Definition of_Z (z : Z) : Q := nearest (inject_Z z).
Definition div (x y : Q) : Q := nearest (x / y).
Definition mul (x y : Q) : Q := nearest (x * y).

(** [np.rint] *)
Definition rint (x : Q) : Z := round_half_even (Qnum x) (Zpos (Qden x)).

(** [(yes / attempted * 100).round(1)] on two counts, in tenths: numpy
    rounds to one decimal as [rint(x * 10) / 10], and the result is the
    double nearest to that many tenths. *)
Definition rate_tenths (yes attempted : nat) : Z :=
  rint (mul (mul (div (of_Z (Z.of_nat yes)) (of_Z (Z.of_nat attempted))) (inject_Z 100))
            (inject_Z 10)).

(** The unit round-off of a double, [2 ^ -53]. *)
Definition u : Q := 1 # 9007199254740992.

End Float64.

(** The same rate on the binary64 format of the IEEE 754 specification in
    Rocq's library ([SpecFloat]), for comparison. *)
Module Binary64.

Definition of_Z (z : Z) : spec_float := binary_normalize 53 1024 z 0 false.

Definition to_Q (f : spec_float) : Q :=
  match f with
  | S754_finite s m e =>
      let v := if (0 <=? e)%Z then inject_Z (Zpos m * 2 ^ e)
               else Qmake (Zpos m) (Z.to_pos (2 ^ (- e))) in
      if s then Qopp v else v
  | _ => 0%Q
  end.

Definition rate_tenths (yes attempted : nat) : Z :=
  Float64.rint
    (to_Q (SFmul 53 1024
             (SFmul 53 1024
                (SFdiv 53 1024 (of_Z (Z.of_nat yes)) (of_Z (Z.of_nat attempted)))
                (of_Z 100))
             (of_Z 10))).

End Binary64.

(* ------------------------------------------------------------------ *)
(** ** What pandas supplies *)

(** The pandas conversions the program calls.

    [to_datetime col] is [pd.to_datetime(col, errors='coerce')] on one
    column; [None] stands for a raised exception.  Its laws are what the
    program relies on: the result is a column of timestamps and [NaT], as
    long as the argument, in which a missing value has become [NaT] and a
    timestamp is unchanged; a column that was converted is returned as it
    is, and so is a column of [NaT].

    [parse_number s] is what [pd.to_numeric] reads out of the text [s];
    [None] when [s] is not a number.  [parse_timestamp s] is
    [pd.to_datetime(s)] on one piece of text: [None] when it raises,
    [Some None] when it returns [NaT].

    [dates_to_int col] is [pd.to_numeric(col, errors='coerce').fillna(0)
    .astype(int)] on a column of timestamps and [NaT].  The cells do not
    tell what it returns: a column of the dtype datetime64 is read as its
    counts since the epoch, in the unit of the column, with the smallest
    int64 for [NaT]; a column of the dtype object that holds the same
    values is read as [nan] and filled with 0.  In both cases the result
    is a column of integers.

    [str_keeps_missing] tells what [astype(str)] does to a missing value:
    up to pandas 2 it becomes the text that [str] gives ([nan], [None],
    [NaT]); from pandas 3 on the result is a string column in which the
    value is still missing, and the [.str] methods return a missing
    value for it. *)
Class Pandas : Type := {
  to_datetime : list Frame.cell -> option (list Frame.cell);
  parse_number : string -> option Frame.cell;
  parse_timestamp : string -> option (option Frame.Timestamp);
  dates_to_int : list Frame.cell -> list Frame.cell;
  str_keeps_missing : bool;
  to_datetime_pointwise :
    forall col col', to_datetime col = Some col' ->
      Forall2 (fun c c' =>
                 (Frame.isna c = true -> c' = Frame.CNaT) /\
                 (forall t, c = Frame.CTime t -> c' = Frame.CTime t) /\
                 (c' = Frame.CNaT \/ exists t, c' = Frame.CTime t))
              col col';
  to_datetime_idem :
    forall col col', to_datetime col = Some col' -> to_datetime col' = Some col';
  to_datetime_nat :
    forall n, to_datetime (repeat Frame.CNaT n) = Some (repeat Frame.CNaT n);
  parse_number_kind :
    forall s c, parse_number s = Some c ->
      (exists z, c = Frame.CInt z) \/
      (exists f, c = Frame.CFloat f /\ f <> Frame.FNaN);
  dates_to_int_integers :
    forall col, forallb Frame.is_date col = true ->
      Forall2 (fun _ c' => exists z, c' = Frame.CInt z) col (dates_to_int col)
}.

(* ------------------------------------------------------------------ *)
(** ** Schema normalizer: [_standardize_columns] *)

Module Normalizer.
Import Frame.

Definition REQUIRED_COLUMNS : list string := ["Name"; "Phone"; "Email"].
Definition OPTIONAL_COLUMNS : list string := ["Company"; "Title"; "State"].
Definition APP_COLUMNS : list string :=
  REQUIRED_COLUMNS ++ OPTIONAL_COLUMNS ++
  ["Status"; "MeetingDateTime"; "CallbackDateTime"; "LastCallDateTime";
   "Attempts"; "Notes"].

(** The lower-case names the first loop of [_standardize_columns] visits. *)
Definition recognized : list string :=
  ["name"; "phone"; "email"; "company"; "title"; "state"; "status";
   "meetingdatetime"; "callbackdatetime"; "lastcalldatetime"; "attempts";
   "notes"].

Definition datetime_names : list string :=
  ["meetingdatetime"; "callbackdatetime"; "lastcalldatetime"].

(** [s in l] *)
Definition mem (s : string) (l : list string) : bool := existsb (String.eqb s) l.

(** The right-hand sides of [rename_map[src] = ...]. *)
Definition canonical (col : string) : string :=
  if mem col datetime_names
  then PyStr.replace "datetime" "DateTime" (PyStr.capitalize col)
  else if String.eqb col "email" then "Email"
  else PyStr.capitalize col.

(** [cols_lower = {c.lower(): c for c in df.columns}] *)
Definition cols_lower (labs : list string) : dict :=
  fold_left (fun d c => dict_set (PyStr.lower c) c d) labs [].

(** The loop that fills [rename_map]. *)
Definition rename_map (labs : list string) : dict :=
  let cl := cols_lower labs in
  fold_left
    (fun rm col =>
       match dict_get col cl with
       | Some src => dict_set src (canonical col) rm
       | None => rm
       end)
    recognized [].

(** The function [df.rename(columns=rename_map)] applies to a label. *)
Definition rename_label (labs : list string) (c : string) : string :=
  match dict_get c (rename_map labs) with
  | Some c' => c'
  | None => c
  end.

(** [if col not in df.columns: df[col] = value] *)
Definition ensure (col : string) (value : cell) (df : DataFrame) : DataFrame :=
  if has_column col df then df else add_column col value df.

(** The block under [# Ensure required/optional/app columns exist]. *)
Definition ensure_all (df : DataFrame) : DataFrame :=
  let df := fold_left (fun d col => ensure col (CStr "") d)
                      (REQUIRED_COLUMNS ++ OPTIONAL_COLUMNS) df in
  let df := ensure "Status" (CStr "") df in
  let df := ensure "MeetingDateTime" CNaT df in
  let df := ensure "CallbackDateTime" CNaT df in
  let df := ensure "LastCallDateTime" CNaT df in
  let df := ensure "Attempts" (CInt 0) df in
  ensure "Notes" (CStr "") df.

(** [try: df[col] = conv(df[col]) / except Exception: pass].  With a
    repeated label [df[col]] is a frame, on which both pandas conversions
    raise; the exception is swallowed and the frame stays as it was. *)
Definition coerce_column (conv : list cell -> option (list cell))
           (col : string) (df : DataFrame) : DataFrame :=
  match select col df with
  | [series] =>
      match conv series with
      | Some series' => set_column col series' df
      | None => df
      end
  | _ => df
  end.

(** *** Vocabulary of the properties *)

(** [c] is the label [cols_lower] keeps for its lower-cased name. *)
Definition kept (labs : list string) (c : string) : bool :=
  match dict_get (PyStr.lower c) (cols_lower labs) with
  | Some src => String.eqb src c
  | None => false
  end.

(** The value [_standardize_columns] fills a missing column with. *)
Definition default_value (K : string) : cell :=
  if mem K ["MeetingDateTime"; "CallbackDateTime"; "LastCallDateTime"] then CNaT
  else if String.eqb K "Attempts" then CInt 0
  else CStr "".

(** A conversion under [try ... except: pass]: the column stays as it was
    when the conversion raises. *)
Definition or_keep (conv : list cell -> option (list cell)) (s : list cell) : list cell :=
  match conv s with
  | Some s' => s'
  | None => s
  end.

(** The columns [_standardize_columns] synthesizes, with their values, in
    the order in which it looks for them. *)
Definition defaults : list (string * cell) :=
  [("Name", CStr ""); ("Phone", CStr ""); ("Email", CStr "");
   ("Company", CStr ""); ("Title", CStr ""); ("State", CStr "");
   ("Status", CStr ""); ("MeetingDateTime", CNaT); ("CallbackDateTime", CNaT);
   ("LastCallDateTime", CNaT); ("Attempts", CInt 0); ("Notes", CStr "")].

(** The strings of a list differ from one another. *)
Fixpoint distinct (l : list string) : bool :=
  match l with
  | [] => true
  | x :: l' => negb (existsb (String.eqb x) l') && distinct l'
  end.

(** *** The type coercions and the function itself *)

Section WithPandas.
Context {pandas : Pandas}.

(** [pd.to_numeric(x, errors='coerce')] on one value of a column that is
    not of a datetime64 dtype: numbers stay, text is parsed, everything
    else becomes [nan]. *)
Definition to_numeric_cell (c : cell) : cell :=
  match c with
  | CInt z => CInt z
  | CFloat f => CFloat f
  | CStr s =>
      match parse_number s with
      | Some n => n
      | None => CFloat FNaN
      end
  | CNone | CNaT | CTime _ => CFloat FNaN
  end.

Definition is_int (c : cell) : bool :=
  match c with
  | CInt _ => true
  | _ => false
  end.

(** A number as a value of a float64 column. *)
Definition to_float (c : cell) : cell :=
  match c with
  | CInt z => CFloat (FFin (Float64.of_Z z))
  | _ => c
  end.

(** [pd.to_numeric(col, errors='coerce')] on such a column: the result is
    of the dtype int64 when every value reads as an integer, and of the
    dtype float64 otherwise, with the integers converted. *)
Definition to_numeric (col : list cell) : list cell :=
  let readings := map to_numeric_cell col in
  if forallb is_int readings then readings else map to_float readings.

(** [.fillna(0)] *)
Definition fillna0 (c : cell) : cell := if isna c then CInt 0 else c.

Definition INT64_MIN : Z := (- 2 ^ 63)%Z.

Definition int64 (z : Z) : bool := (INT64_MIN <=? z)%Z && (z <? 2 ^ 63)%Z.

(** The cast of a finite float64 to int64: the value is truncated toward
    zero; when the result is no int64 the cast does not raise and stores
    the smallest int64 (numpy on x86-64). *)
Definition float_to_int64 (q : Q) : Z :=
  let z := Z.quot (Qnum q) (Zpos (Qden q)) in
  if int64 z then z else INT64_MIN.

(** [.astype(int)] on one value: an integer stays, a finite float is
    cast, an infinite one raises. *)
Definition astype_int_cell (c : cell) : option cell :=
  match c with
  | CInt z => Some (CInt z)
  | CFloat (FFin q) => Some (CInt (float_to_int64 q))
  | _ => None
  end.

(** [f] on every element; [None] as soon as one application fails. *)
Fixpoint traverse {A B : Type} (f : A -> option B) (l : list A) : option (list B) :=
  match l with
  | [] => Some []
  | a :: l' =>
      match f a, traverse f l' with
      | Some b, Some bs => Some (b :: bs)
      | _, _ => None
      end
  end.

(** A column that can be of a datetime64 dtype: it has a row and holds
    timestamps and [NaT] only. *)
Definition date_column (col : list cell) : bool :=
  match col with
  | [] => false
  | _ => forallb is_date col
  end.

(** [pd.to_numeric(col, errors='coerce').fillna(0).astype(int)] *)
Definition attempts_to_int (col : list cell) : option (list cell) :=
  if date_column col then Some (dates_to_int col)
  else traverse (fun c => astype_int_cell (fillna0 c)) (to_numeric col).

(** The block under [# Coerce dtypes]. *)
Definition coerce_dtypes (df : DataFrame) : DataFrame :=
  let df := fold_left (fun d dtcol => coerce_column to_datetime dtcol d)
                      ["MeetingDateTime"; "CallbackDateTime"; "LastCallDateTime"] df in
  coerce_column attempts_to_int "Attempts" df.

Definition _standardize_columns (df : DataFrame) : DataFrame :=
  let df := rename (rename_label (labels df)) df in
  let df := ensure_all df in
  let df := coerce_dtypes df in
  reorder APP_COLUMNS df.

(** *** What the result holds, for the properties *)

(** The conversion the coercion step applies to the column [K]. *)
Definition coercion (K : string) (s : list cell) : list cell :=
  if mem K ["MeetingDateTime"; "CallbackDateTime"; "LastCallDateTime"]
  then or_keep to_datetime s
  else if String.eqb K "Attempts" then or_keep attempts_to_int s
  else s.

(** The input column the output column [K] is filled from: the column whose
    lower-cased label is [K] lower-cased, except that [LastCallDateTime]
    is filled from no column at all. *)
Definition source (T : DataFrame) (K : string) : option (list cell) :=
  if String.eqb K "LastCallDateTime" then None
  else option_map snd
         (find (fun lc => String.eqb (PyStr.lower (fst lc)) (PyStr.lower K))
               (columns T)).

(** The column [K] of the normalized table. *)
Definition expected_column (T : DataFrame) (K : string) : list cell :=
  match source T K with
  | Some s => coercion K s
  | None => repeat (default_value K) (nrows T)
  end.

(** A cell whose numeric reading is infinite: the one case in which
    [astype(int)] raises. *)
Definition reads_infinite (c : cell) : bool :=
  match to_numeric_cell c with
  | CFloat (FInf _) => true
  | _ => false
  end.

(** The column the [Attempts] of the result are computed from: the input
    column named [attempts] in any casing, or the synthesized zeros. *)
Definition attempts_source (T : DataFrame) : list cell :=
  match source T "Attempts" with
  | Some s => s
  | None => repeat (CInt 0) (nrows T)
  end.

End WithPandas.

(** Export followed by re-import ([_to_excel_bytes], then [pd.read_excel]).
    The serialization is pandas' and openpyxl's; the table that is read back
    is taken to be the table that was written. *)
Definition export_import (df : DataFrame) : DataFrame := df.

(** [attempts(R)] *)
Definition attempts (r : row) : cell := row_get "Attempts" CNone r.

End Normalizer.

(* ------------------------------------------------------------------ *)
(** ** Exceptions *)

Module Py.

Inductive exn : Type :=
| KeyError
| IndexError
| ValueError
| AttributeError
| TypeError
| ZoneInfoNotFoundError.

(** The outcome of a call: a value, or an exception that propagates to
    the caller. *)
Inductive result (A : Type) : Type :=
| Ok (a : A)
| Raised (e : exn).
Arguments Ok {A} a.
Arguments Raised {A} e.

Definition bind {A B : Type} (r : result A) (k : A -> result B) : result B :=
  match r with
  | Ok a => k a
  | Raised e => Raised e
  end.

(** [try: r / except Exception: fallback] *)
Definition try_except {A : Type} (r : result A) (fallback : A) : A :=
  match r with
  | Ok a => a
  | Raised _ => fallback
  end.

End Py.

Notation "x <- r ;; k" := (Py.bind r (fun x => k))
  (at level 61, r at next level, right associativity).

(* ------------------------------------------------------------------ *)
(** ** Timestamps: calendar fields and [strftime] *)

Module Clock.
Import Frame.

Definition NS_PER_SECOND : Z := 1000000000.

(** The wall-clock reading of a timestamp, in nanoseconds. *)
Definition wall_ns (t : Timestamp) : Z :=
  match ts_offset t with
  | None => ts_value t
  | Some off => ts_value t + off * NS_PER_SECOND
  end.

(** Year, month and day of the day that lies [days] days after
    1970-01-01 in the proleptic Gregorian calendar. *)
Definition civil_from_days (days : Z) : Z * Z * Z :=
  let z := (days + 719468)%Z in
  let era := (z / 146097)%Z in
  let doe := (z - era * 146097)%Z in
  let yoe := ((doe - doe / 1460 + doe / 36524 - doe / 146096) / 365)%Z in
  let doy := (doe - (365 * yoe + yoe / 4 - yoe / 100))%Z in
  let mp := ((5 * doy + 2) / 153)%Z in
  let d := (doy - (153 * mp + 2) / 5 + 1)%Z in
  let m := (if mp <? 10 then mp + 3 else mp - 9)%Z in
  let y := (yoe + era * 400 + (if m <=? 2 then 1 else 0))%Z in
  (y, m, d).

(** The number of days from 1970-01-01 to the given date. *)
Definition days_from_civil (y m d : Z) : Z :=
  let y' := (if m <=? 2 then y - 1 else y)%Z in
  let era := (y' / 400)%Z in
  let yoe := (y' - era * 400)%Z in
  let doy := ((153 * (if 2 <? m then m - 3 else m + 9) + 2) / 5 + d - 1)%Z in
  let doe := (yoe * 365 + yoe / 4 - yoe / 100 + doy)%Z in
  (era * 146097 + doe - 719468)%Z.

(** The naive timestamp [pd.Timestamp(y, m, d, h, mi, s)]. *)
Definition naive (y m d h mi s : Z) : Timestamp :=
  mkTimestamp ((((days_from_civil y m d * 24 + h) * 60 + mi) * 60 + s) * NS_PER_SECOND)%Z None.

(** The calendar fields of an instant. *)
Record fields : Type := mkFields {
  year : Z; month : Z; day : Z;
  hour : Z; minute : Z; second : Z;
  nanosecond : Z;
  weekday : Z        (* 0 is Monday *)
}.

Definition fields_of_ns (ns : Z) : fields :=
  let secs := (ns / NS_PER_SECOND)%Z in
  let days := (secs / 86400)%Z in
  let sod := (secs mod 86400)%Z in
  let '(y, m, d) := civil_from_days days in
  mkFields y m d (sod / 3600) ((sod mod 3600) / 60) (sod mod 60)
           (ns mod NS_PER_SECOND) ((days + 3) mod 7).

(** The decimal numeral of a natural number. *)
Definition digits (z : Z) : string := NilZero.string_of_uint (N.to_uint (Z.to_N z)).

Fixpoint zeros (n : nat) : string :=
  match n with
  | O => EmptyString
  | S n' => String "0" (zeros n')
  end.

(** The numeral of [z] with zeros on the left up to [width] digits. *)
Definition pad (width : nat) (z : Z) : string :=
  let s := digits (Z.abs z) in
  (if (z <? 0)%Z then "-" else "") ++ zeros (width - String.length s) ++ s.

(** [strftime('%Y%m%dT%H%M%SZ')] *)
Definition ics_stamp (ns : Z) : string :=
  let f := fields_of_ns ns in
  pad 4 (year f) ++ pad 2 (month f) ++ pad 2 (day f) ++ "T" ++
  pad 2 (hour f) ++ pad 2 (minute f) ++ pad 2 (second f) ++ "Z".

Definition month_names : list string :=
  ["January"; "February"; "March"; "April"; "May"; "June"; "July";
   "August"; "September"; "October"; "November"; "December"].

Definition weekday_order : list string :=
  ["Monday"; "Tuesday"; "Wednesday"; "Thursday"; "Friday"; "Saturday"; "Sunday"].

(** [strftime('%B %d, %Y')] *)
Definition long_date (t : Timestamp) : string :=
  let f := fields_of_ns (wall_ns t) in
  nth (Z.to_nat (month f - 1)) month_names "" ++ " " ++ pad 2 (day f) ++ ", " ++
  pad 4 (year f).

(** [strftime('%I:%M %p')] *)
Definition clock12 (t : Timestamp) : string :=
  let f := fields_of_ns (wall_ns t) in
  let h12 := (if (hour f mod 12 =? 0)%Z then 12 else hour f mod 12)%Z in
  pad 2 h12 ++ ":" ++ pad 2 (minute f) ++ " " ++
  (if (hour f <? 12)%Z then "AM" else "PM").

(** [ts.day_name()] *)
Definition day_name (t : Timestamp) : string :=
  nth (Z.to_nat (weekday (fields_of_ns (wall_ns t)))) weekday_order "".

(** [str(ts)]: ISO date and time separated by a space, the fraction of a
    second when there is one (six digits, nine when the nanoseconds need
    them), and the offset of a timestamp that carries a zone. *)
Definition str_timestamp (t : Timestamp) : string :=
  let f := fields_of_ns (wall_ns t) in
  pad 4 (year f) ++ "-" ++ pad 2 (month f) ++ "-" ++ pad 2 (day f) ++ " " ++
  pad 2 (hour f) ++ ":" ++ pad 2 (minute f) ++ ":" ++ pad 2 (second f) ++
  (if (nanosecond f =? 0)%Z then ""
   else if (nanosecond f mod 1000 =? 0)%Z then "." ++ pad 6 (nanosecond f / 1000)
   else "." ++ pad 9 (nanosecond f)) ++
  match ts_offset t with
  | None => ""
  | Some off =>
      (if (off <? 0)%Z then "-" else "+") ++
      pad 2 (Z.abs off / 3600) ++ ":" ++ pad 2 ((Z.abs off mod 3600) / 60)
  end.

End Clock.

(* ------------------------------------------------------------------ *)
(** ** What the interpreter and its library supply *)

(** [float_repr q] is [str(x)] for the finite float [x = q].

    [format_beyond tmpl kwargs] is [str.format] on [tmpl] and the keyword
    arguments [kwargs], for a template with a replacement field that is
    more than a plain name: one with a conversion ([!r]), a format
    specification ([:>10]), an attribute or an index ([{name.x}],
    [{name[0]}]) or a nested field.

    [zone_info key] is [ZoneInfo(key)]: [None] when the key cannot be
    resolved, and otherwise the zone, as the function that gives the
    offset from UTC (seconds east) in force at a wall-clock time (seconds
    since the epoch). *)
Class Python : Type := {
  float_repr : Q -> string;
  format_beyond : string -> list (string * Frame.cell) -> Py.result string;
  zone_info : string -> option (Z -> Z)
}.

(* ------------------------------------------------------------------ *)
(** ** A reference implementation of the runtime, for the examples *)

Module Reference.
Import Frame.

(** Reads an unsigned decimal numeral. *)
Fixpoint digits_value (acc : Z) (s : string) : option Z :=
  match s with
  | EmptyString => Some acc
  | String c s' =>
      let n := nat_of_ascii c in
      if (48 <=? n)%nat && (n <=? 57)%nat
      then digits_value (10 * acc + Z.of_nat (n - 48)) s'
      else None
  end.

(** Reads a decimal integer with an optional minus sign. *)
Definition parse_int (s : string) : option cell :=
  match s with
  | EmptyString => None
  | String "-" (String c s') => option_map (fun z => CInt (- z)) (digits_value 0 (String c s'))
  | _ => option_map CInt (digits_value 0 s)
  end.

(** Timestamps stay; an integer counts nanoseconds since the epoch; any
    other value is coerced to [NaT]. *)
Definition to_datetime_cell (c : cell) : cell :=
  match c with
  | CTime t => CTime t
  | CInt z => CTime (mkTimestamp z None)
  | _ => CNaT
  end.

Definition to_datetime_all (col : list cell) : option (list cell) :=
  Some (map to_datetime_cell col).

(** A column of the dtype datetime64[ns] read as numbers: nanoseconds
    since the epoch, and the smallest int64 for [NaT]. *)
Definition epoch_counts (col : list cell) : list cell :=
  map (fun c => match c with
                | CTime t => CInt (ts_value t)
                | _ => CInt (- 2 ^ 63)
                end) col.

(** Time zones of the program's [COMMON_TIMEZONES], with the rule the
    United States have followed since 2007: daylight saving time from
    02:00 on the second Sunday of March to 02:00 on the first Sunday of
    November.  An ambiguous wall-clock time is read as its first
    occurrence, as [fold=0] does. *)
Definition us_dst (wall_seconds : Z) : bool :=
  let f := Clock.fields_of_ns (wall_seconds * Clock.NS_PER_SECOND) in
  let m := Clock.month f in
  let sunday := (Clock.weekday f =? 6)%Z in
  let last_sunday := (Clock.day f - (Clock.weekday f + 1) mod 7)%Z in
  if (m =? 3)%Z then
    if sunday && (8 <=? Clock.day f)%Z && (Clock.day f <=? 14)%Z
    then (2 <=? Clock.hour f)%Z
    else (8 <=? last_sunday)%Z
  else if (m =? 11)%Z then
    if sunday && (Clock.day f <=? 7)%Z
    then (Clock.hour f <? 2)%Z
    else (last_sunday <? 1)%Z
  else (3 <? m)%Z && (m <? 11)%Z.

Definition us_zone (standard_hours : Z) (wall_seconds : Z) : Z :=
  ((standard_hours + (if us_dst wall_seconds then 1 else 0)) * 3600)%Z.

Definition zone_table (key : string) : option (Z -> Z) :=
  if String.eqb key "UTC" then Some (fun _ => 0%Z)
  else if String.eqb key "America/New_York" then Some (us_zone (-5))
  else if String.eqb key "America/Chicago" then Some (us_zone (-6))
  else if String.eqb key "America/Denver" then Some (us_zone (-7))
  else if String.eqb key "America/Los_Angeles" then Some (us_zone (-8))
  else if String.eqb key "America/Anchorage" then Some (us_zone (-9))
  else if String.eqb key "America/Phoenix" then Some (fun _ => (-7 * 3600)%Z)
  else if String.eqb key "America/Honolulu" then Some (fun _ => (-10 * 3600)%Z)
  else None.

(** A float with an integral value is printed as Python prints it, any
    other as a quotient. *)
Definition print_float (q : Q) : string :=
  (if (Zpos (Qden q) =? 1)%Z
   then NilZero.string_of_int (Z.to_int (Qnum q)) ++ ".0"
   else NilZero.string_of_int (Z.to_int (Qnum q)) ++ "/" ++
        NilZero.string_of_int (Z.to_int (Zpos (Qden q))))%string.

End Reference.

(* ------------------------------------------------------------------ *)
(** ** Template renderer: [str.format] and [_render_template] *)

Module Template.
Import Frame Py.

(** What scanning a template gives: the substituted text, an exception,
    or the finding that the template has a replacement field that is more
    than a plain name. *)
Inductive outcome : Type :=
| Done (s : string)
| Failed (e : exn)
| Beyond.

Definition emit (s : string) (o : outcome) : outcome :=
  match o with
  | Done r => Done (s ++ r)
  | other => other
  end.

Inductive state : Type :=
| Text
| Field (name : string).

Fixpoint lookup (key : string) (kw : list (string * string)) : option string :=
  match kw with
  | [] => None
  | (k, v) :: kw' => if String.eqb k key then Some v else lookup key kw'
  end.

Fixpoint all_digits (s : string) : bool :=
  match s with
  | EmptyString => true
  | String c s' =>
      let n := nat_of_ascii c in
      (48 <=? n)%nat && (n <=? 57)%nat && all_digits s'
  end.

(** A character that ends the plain part of a field name. *)
Definition special (c : ascii) : bool :=
  existsb (Ascii.eqb c) ["{"; "["; "."; "!"; ":"]%char.

(** One pass over the template, left to right, as [str.format] makes it:
    [{{] and [}}] are literal braces, a lone [}] and an unclosed [{] are
    [ValueError]s, an empty or numeric field asks for a positional
    argument, of which there is none ([IndexError]), and any other plain
    name is looked up among the keyword arguments ([KeyError] when it is
    missing).  Nothing after the first failure is looked at. *)
Fixpoint scan (kw : list (string * string)) (st : state) (tmpl : string) : outcome :=
  match tmpl with
  | EmptyString =>
      match st with
      | Text => Done EmptyString
      | Field _ => Failed ValueError
      end
  | String c rest =>
      match st with
      | Text =>
          if Ascii.eqb c "{" then
            match rest with
            | String "{" rest' => emit "{" (scan kw Text rest')
            | _ => scan kw (Field EmptyString) rest
            end
          else if Ascii.eqb c "}" then
            match rest with
            | String "}" rest' => emit "}" (scan kw Text rest')
            | _ => Failed ValueError
            end
          else emit (String c EmptyString) (scan kw Text rest)
      | Field name =>
          if Ascii.eqb c "}" then
            if all_digits name then Failed IndexError
            else match lookup name kw with
                 | Some v => emit v (scan kw Text rest)
                 | None => Failed KeyError
                 end
          else if special c then Beyond
          else scan kw (Field (name ++ String c EmptyString)) rest
      end
  end.

Section WithRuntime.
Context {pandas : Pandas} {python : Python}.

(** [str(x)] *)
Definition str_cell (c : cell) : string :=
  match c with
  | CStr s => s
  | CInt z => NilZero.string_of_int (Z.to_int z)
  | CFloat FNaN => "nan"
  | CFloat (FInf false) => "inf"
  | CFloat (FInf true) => "-inf"
  | CFloat (FFin q) => float_repr q
  | CNone => "None"
  | CNaT => "NaT"
  | CTime t => Clock.str_timestamp t
  end.

(** [tmpl.format(...)] with the keyword arguments [kwargs]: a plain field
    is replaced by [str] of its value. *)
Definition format (tmpl : string) (kwargs : list (string * cell)) : result string :=
  match scan (map (fun kv => (fst kv, str_cell (snd kv))) kwargs) Text tmpl with
  | Done s => Ok s
  | Failed e => Raised e
  | Beyond => format_beyond tmpl kwargs
  end.

(** The truth value of a cell, as [x or ""] tests it. *)
Definition truthy (c : cell) : bool :=
  match c with
  | CStr s => negb (String.eqb s "")
  | CInt z => negb (z =? 0)%Z
  | CFloat (FFin q) => negb (Qnum q =? 0)%Z
  | CFloat _ => true
  | CNone => false
  | CNaT | CTime _ => true
  end.

(** [_first_name]: [.strip()] exists on text only. *)
Definition _first_name (full_name : cell) : result string :=
  match (if truthy full_name then full_name else CStr "") with
  | CStr s =>
      let full_name := PyStr.strip s in
      Ok (if String.eqb full_name "" then "" else PyStr.before " " full_name)
  | _ => Raised AttributeError
  end.

(** The common shape of [_fmt_date] and [_fmt_time]; [strf] is the call of
    [strftime] and what follows it. *)
Definition fmt_with (strf : Timestamp -> string) (dt : cell) : result string :=
  if isna dt then Ok ""
  else match dt with
       | CStr s =>
           if String.eqb s "" then Ok ""
           else match parse_timestamp s with
                | None => Ok s
                | Some (Some t) => Ok (strf t)
                | Some None => Raised ValueError
                end
       | CTime t => Ok (strf t)
       | _ => Raised AttributeError
       end.

Definition _fmt_date (dt : cell) : result string := fmt_with Clock.long_date dt.

Definition _fmt_time (dt : cell) : result string :=
  fmt_with (fun t => PyStr.lstrip_zero (Clock.clock12 t)) dt.

Definition _render_template (r : row) (subject_tmpl body_tmpl : string)
  : result (string * string) :=
  let name := row_get "Name" (CStr "") r in
  let meeting_dt := row_get "MeetingDateTime" CNone r in
  first_name <- _first_name name ;;
  let company := row_get "Company" (CStr "") r in
  let meeting_datetime := if isna meeting_dt then "" else str_cell meeting_dt in
  meeting_date <- _fmt_date meeting_dt ;;
  meeting_time <- _fmt_time meeting_dt ;;
  let mapping :=
    [("name", name); ("first_name", CStr first_name); ("company", company);
     ("meeting_datetime", CStr meeting_datetime);
     ("meeting_date", CStr meeting_date); ("meeting_time", CStr meeting_time)] in
  let subject := try_except (format subject_tmpl mapping) subject_tmpl in
  let body := try_except (format body_tmpl mapping) body_tmpl in
  Ok (subject, body).

End WithRuntime.

(** The bindings [_render_template] substitutes for a record whose name
    is the text [n] and which has no meeting. *)
Definition bindings_without_meeting (n first : string) (company : cell)
  : list (string * cell) :=
  [("name", CStr n); ("first_name", CStr first); ("company", company);
   ("meeting_datetime", CStr ""); ("meeting_date", CStr "");
   ("meeting_time", CStr "")].

End Template.

(* ------------------------------------------------------------------ *)
(** ** Calendar invite encoder: [_ics_event_bytes] and the bulk document *)

Module Invite.
Import Frame Py.

Definition CRLF : string := String (ascii_of_nat 13) (String (ascii_of_nat 10) EmptyString).
Definition LF : string := String (ascii_of_nat 10) EmptyString.

Definition calendar_header : list string :=
  ["BEGIN:VCALENDAR"; "VERSION:2.0"; "PRODID:-//Prospecting Manager//EN";
   "CALSCALE:GREGORIAN"; "METHOD:PUBLISH"].

(** The settings of the sidebar that go into an invite. *)
Record settings : Type := mkSettings {
  tzname : string;
  duration_min : Z;
  organizer_name : string;
  organizer_email : string;
  location : string;
  desc_template : string
}.

(** The markers the bulk loop splits an event document at. *)
Definition markers : list string := ["BEGIN:VEVENT"; "END:VEVENT"; "END:VCALENDAR"].

(** The VEVENT lines of an event document: what is left of [lines] without
    the calendar header and the closing [END:VCALENDAR]. *)
Definition event_body (lines : list string) : list string :=
  skipn (length calendar_header) (removelast lines).

(** The calendar that holds the given events: one header, the events'
    lines in order, one footer. *)
Definition compose_calendar (bodies : list (list string)) : string :=
  (PyStr.join CRLF (calendar_header ++ List.concat bodies ++ ["END:VCALENDAR"])%list
   ++ CRLF)%string.

(** The text of an event between its [BEGIN:VEVENT] and its
    [END:VEVENT]. *)
Definition inner_text (body : list string) : string :=
  (CRLF ++ PyStr.join CRLF (removelast (tl body)) ++ CRLF)%string.

(** None of the three markers occurs inside the event. *)
Definition marker_free (body : list string) : bool :=
  forallb (fun m => negb (PyStr.contains m (inner_text body))) markers.

Section WithRuntime.
Context {pandas : Pandas} {python : Python}.

(** Start of the event as a UTC instant: a naive timestamp is wall-clock
    time in the zone [tzname], a timestamp with a zone is taken as it is. *)
Definition start_utc (tzname : string) (t : Timestamp) : result Z :=
  match ts_offset t with
  | None =>
      match zone_info tzname with
      | Some zone =>
          Ok (ts_value t - zone (ts_value t / Clock.NS_PER_SECOND) * Clock.NS_PER_SECOND)%Z
      | None => Raised ZoneInfoNotFoundError
      end
  | Some _ => Ok (ts_value t)
  end.

(** The list [lines] of [_ics_event_bytes]; [None] is the early
    [return b""].  [uid] is the fresh [uuid.uuid4()] and [now] the reading
    of [datetime.utcnow()], both in the form they are printed. *)
Definition ics_lines (r : row) (cfg : settings) (uid : string) (now : Z)
  : result (option (list string)) :=
  let name := PyStr.strip (Template.str_cell (row_get "Name" (CStr "") r)) in
  let company := PyStr.strip (Template.str_cell (row_get "Company" (CStr "") r)) in
  let notes := PyStr.strip (Template.str_cell (row_get "Notes" (CStr "") r)) in
  let meeting_dt := row_get "MeetingDateTime" CNaT r in
  if isna meeting_dt then Ok None
  else match meeting_dt with
       | CTime t =>
           start <- start_utc (tzname cfg) t ;;
           let finish := (start + duration_min cfg * 60 * Clock.NS_PER_SECOND)%Z in
           let summary :=
             (if String.eqb company "" then "Meeting – " ++ name
              else "Meeting – " ++ name ++ " (" ++ company ++ ")")%string in
           description <-
             Template.format (desc_template cfg)
               [("name", CStr name); ("company", CStr company); ("notes", CStr notes)] ;;
           let lines :=
             calendar_header ++
             ["BEGIN:VEVENT";
              "UID:" ++ uid ++ "@prospecting-app";
              "DTSTAMP:" ++ Clock.ics_stamp now;
              "DTSTART:" ++ Clock.ics_stamp start;
              "DTEND:" ++ Clock.ics_stamp finish;
              "SUMMARY:" ++ summary;
              "DESCRIPTION:" ++ PyStr.replace LF "\n" description;
              "LOCATION:" ++ location cfg;
              "ORGANIZER;CN=" ++ organizer_name cfg ++ ":mailto:" ++ organizer_email cfg]%string in
           let email := PyStr.strip (Template.str_cell (row_get "Email" (CStr "") r)) in
           let lines :=
             if String.eqb email "" then lines
             else lines ++
                  [("ATTENDEE;CN=" ++ name ++ ";ROLE=REQ-PARTICIPANT:mailto:" ++ email)%string] in
           Ok (Some (lines ++ ["END:VEVENT"; "END:VCALENDAR"]))
       | _ => Raised AttributeError
       end.

(** [_ics_event_bytes]: the lines joined by CRLF with a closing CRLF, the
    empty byte string when there is no meeting timestamp. *)
Definition _ics_event_bytes (r : row) (cfg : settings) (uid : string) (now : Z)
  : result string :=
  lines <- ics_lines r cfg uid now ;;
  Ok match lines with
     | Some ls => (PyStr.join CRLF ls ++ CRLF)%string
     | None => EmptyString
     end.

(** The rows of [yes_df]. *)
Definition yes_mask (r : row) : bool :=
  String.eqb (PyStr.lower (Template.str_cell (row_get "Status" CNone r))) "yes" &&
  negb (isna (row_get "MeetingDateTime" CNaT r)).

(** [yes_df], the records the invites are generated for. *)
Definition yes_df (records : list row) : list row := filter yes_mask records.

(** The loop that fills [events]; the [i]-th record gets the identifier
    [uid_of i] and is stamped at [now_of i]. *)
Fixpoint collect_events (records : list row) (cfg : settings)
         (uid_of : nat -> string) (now_of : nat -> Z) (i : nat)
  : result (list string) :=
  match records with
  | [] => Ok []
  | r :: rest =>
      ics_bytes <- _ics_event_bytes r cfg (uid_of i) (now_of i) ;;
      events <- collect_events rest cfg uid_of now_of (S i) ;;
      Ok (if String.eqb ics_bytes "" then events else ics_bytes :: events)
  end.

(** The block the bulk loop cuts out of one event document:
    ["BEGIN:VEVENT" + inner[1].split("END:VCALENDAR")[0].split("END:VEVENT")[0] + "END:VEVENT"];
    [None] when [len(inner) <= 1]. *)
Definition vevent_block (e : string) : option string :=
  match PyStr.second_piece "BEGIN:VEVENT" e with
  | Some inner1 =>
      Some ("BEGIN:VEVENT" ++
            PyStr.before "END:VEVENT" (PyStr.before "END:VCALENDAR" inner1) ++
            "END:VEVENT")%string
  | None => None
  end.

Fixpoint blocks_of (events : list string) : list string :=
  match events with
  | [] => []
  | e :: rest =>
      match vevent_block e with
      | Some b => b :: blocks_of rest
      | None => blocks_of rest
      end
  end.

(** The bulk download: [None] when no event was produced and no document
    is offered. *)
Definition bulk_bytes (records : list row) (cfg : settings)
           (uid_of : nat -> string) (now_of : nat -> Z) : result (option string) :=
  events <- collect_events records cfg uid_of now_of 0 ;;
  Ok match events with
     | [] => None
     | _ => Some (PyStr.join CRLF (calendar_header ++ blocks_of events ++ ["END:VCALENDAR"])
                  ++ CRLF)%string
     end.

(** [row.get("MeetingDateTime", pd.NaT)] *)
Definition meeting (r : row) : cell := row_get "MeetingDateTime" CNaT r.

(** The description of the event: the template of the settings with the
    record's name, company and notes. *)
Definition description_of (r : row) (cfg : settings) : result string :=
  Template.format (desc_template cfg)
    [("name", CStr (PyStr.strip (Template.str_cell (row_get "Name" (CStr "") r))));
     ("company", CStr (PyStr.strip (Template.str_cell (row_get "Company" (CStr "") r))));
     ("notes", CStr (PyStr.strip (Template.str_cell (row_get "Notes" (CStr "") r))))].

(** The events of a collection of records as structured objects: the lines
    of the VEVENT of every record that has a meeting timestamp. *)
Fixpoint collect_bodies (records : list row) (cfg : settings)
         (uid_of : nat -> string) (now_of : nat -> Z) (i : nat)
  : result (list (list string)) :=
  match records with
  | [] => Ok []
  | r :: rest =>
      lines <- ics_lines r cfg (uid_of i) (now_of i) ;;
      bodies <- collect_bodies rest cfg uid_of now_of (S i) ;;
      Ok match lines with
         | Some ls => event_body ls :: bodies
         | None => bodies
         end
  end.

(** Bulk encoding as the composition of the event list: what the claim
    says the bulk document is. *)
Definition bulk_structured (records : list row) (cfg : settings)
           (uid_of : nat -> string) (now_of : nat -> Z) : result (option string) :=
  bodies <- collect_bodies records cfg uid_of now_of 0 ;;
  Ok (Some (compose_calendar bodies)).

End WithRuntime.

End Invite.

(* ------------------------------------------------------------------ *)
(** ** Analytics aggregator *)

Module Analytics.
Import Frame Py.

(** A row of [dfA]: a record with its two derived columns. *)
Record arow : Type := mkARow {
  cells : row;
  Attempted : bool;
  IsYes : bool
}.

(** One row of a grouped table before the rate is added: the group's key
    and the three aggregates. *)
Record group : Type := mkGroup {
  key : string;
  n : nat;
  attempted : nat;
  yes : nat
}.

(** One row of a rate table.  [yes_rate] is the rate in tenths of a per
    cent: 333 stands for the double nearest to 33.3.  Two rates compare as
    their tenths do. *)
Record rate_row : Type := mkRateRow {
  of_group : group;
  yes_rate : Z
}.

(** The distinct keys in ascending order, as [groupby] lists them. *)
Fixpoint insert_key (k : string) (keys : list string) : list string :=
  match keys with
  | [] => [k]
  | x :: keys' =>
      if String.eqb k x then keys
      else if String.ltb k x then k :: keys
      else x :: insert_key k keys'
  end.

Definition sorted_keys (l : list string) : list string :=
  fold_right insert_key [] l.

(** [groupby(key)]: every key with the rows that have it. *)
Definition group_by {A : Type} (key_of : A -> string) (rows : list A)
  : list (string * list A) :=
  map (fun k => (k, filter (fun r => String.eqb (key_of r) k) rows))
      (sorted_keys (map key_of rows)).

Definition count {A : Type} (p : A -> bool) (l : list A) : nat :=
  length (filter p l).

(** [.agg(n=size, attempted=sum of Attempted, yes=sum of IsYes)] *)
Definition summarize {A : Type} (att is_yes : A -> bool) (kg : string * list A) : group :=
  mkGroup (fst kg) (length (snd kg)) (count att (snd kg)) (count is_yes (snd kg)).

(** [grp["yes_rate"] = (grp["yes"] / grp["attempted"] * 100).round(1)] *)
Definition with_rate (g : group) : rate_row :=
  mkRateRow g (Float64.rate_tenths (yes g) (attempted g)).

(** [a] is not placed after [b] by
    [sort_values(["yes_rate", "attempted"], ascending=[False, False])]. *)
Definition precedes (a b : rate_row) : bool :=
  (yes_rate b <? yes_rate a)%Z ||
  ((yes_rate a =? yes_rate b)%Z &&
   (attempted (of_group b) <=? attempted (of_group a))%nat).

(** The sort is stable: rows that agree on both columns keep their
    order. *)
Fixpoint insert_row (a : rate_row) (l : list rate_row) : list rate_row :=
  match l with
  | [] => [a]
  | b :: l' => if precedes a b then a :: l else b :: insert_row a l'
  end.

Definition sort_rows (l : list rate_row) : list rate_row :=
  fold_right insert_row [] l.

(** The part the three grouped tables share: aggregate, keep the groups
    with an attempt, add the rate. *)
Definition rated_groups {A : Type} (key_of : A -> string) (att is_yes : A -> bool)
           (rows : list A) : list rate_row :=
  map with_rate
      (filter (fun g => (0 <? attempted g)%nat)
              (map (summarize att is_yes) (group_by key_of rows))).

(** [_touch_datetime] *)
Fixpoint first_present (cols : list string) (r : row) : cell :=
  match cols with
  | [] => CNaT
  | c :: cols' =>
      let dt := row_get c CNaT r in
      if negb (isna dt) then dt else first_present cols' r
  end.

Definition _touch_datetime (r : row) : cell :=
  first_present ["LastCallDateTime"; "CallbackDateTime"; "MeetingDateTime"] r.

(** [.dropna(subset=["TouchDT"])] on the rows paired with their [TouchDT]. *)
Fixpoint dropna (l : list (arow * cell)) : list (arow * Timestamp) :=
  match l with
  | [] => []
  | (a, CTime t) :: l' => (a, t) :: dropna l'
  | _ :: l' => dropna l'
  end.

(** [df.reindex(order).dropna(how='all')] on a table indexed by its keys:
    the rows whose key is listed, in the order of the list. *)
Definition reindex (order : list string) (tbl : list rate_row) : list rate_row :=
  flat_map
    (fun label =>
       match find (fun x => String.eqb (key (of_group x)) label) tbl with
       | Some x => [x]
       | None => []
       end)
    order.

(** [a] ranks before [b]: a higher rate, or the same rate and at least as
    many attempts. *)
Definition ranks_before (a b : rate_row) : Prop :=
  (yes_rate b < yes_rate a)%Z \/
  (yes_rate a = yes_rate b /\ (attempted (of_group b) <= attempted (of_group a))%nat).

(** The aggregates of the group with key [k]. *)
Definition group_of {A : Type} (key_of : A -> string) (att is_yes : A -> bool)
           (rows : list A) (k : string) : group :=
  summarize att is_yes (k, filter (fun r => String.eqb (key_of r) k) rows).

Section WithRuntime.
Context {pandas : Pandas} {python : Python}.

(** [dfA["Attempts"].fillna(0) > 0] on one cell; text and timestamps do
    not compare with a number. *)
Definition attempts_positive (c : cell) : result bool :=
  match (if isna c then CInt 0 else c) with
  | CInt z => Ok (0 <? z)%Z
  | CFloat (FFin q) => Ok (0 <? Qnum q)%Z
  | CFloat (FInf negative) => Ok (negb negative)
  | _ => Raised TypeError
  end.

(** [series.astype(str)] on one value: its text, or no text for a missing
    value that [astype(str)] keeps missing. *)
Definition astype_str (c : cell) : option string :=
  if isna c && str_keeps_missing then None else Some (Template.str_cell c).

(** [.str.len() > 0] and [.str.lower().eq("yes")] on one value: a missing
    value gives [False]. *)
Definition not_empty (status : option string) : bool :=
  match status with
  | Some s => (0 <? String.length s)%nat
  | None => false
  end.

Definition lower_is_yes (status : option string) : bool :=
  match status with
  | Some s => String.eqb (PyStr.lower s) "yes"
  | None => false
  end.

(** The two derived columns of [dfA]. *)
Definition derive (r : row) : result arow :=
  positive <- attempts_positive (row_get "Attempts" CNone r) ;;
  let status := astype_str (row_get "Status" CNone r) in
  Ok (mkARow r (positive || not_empty status) (lower_is_yes status)).

Fixpoint build_dfA (records : list row) : result (list arow) :=
  match records with
  | [] => Ok []
  | r :: rest =>
      a <- derive r ;;
      dfA <- build_dfA rest ;;
      Ok (a :: dfA)
  end.

(** [tmp[group_col].fillna("").replace({None: ""})], read as text. *)
Definition group_key (group_col : string) (a : arow) : string :=
  let c := row_get group_col CNone (cells a) in
  if isna c then "" else Template.str_cell c.

(** [rate_table(group_col, top_n)] *)
Definition rate_table (dfA : list arow) (group_col : string) (top_n : nat)
  : list rate_row :=
  firstn top_n (sort_rows (rated_groups (group_key group_col) Attempted IsYes dfA)).

(** The default of [top_n]. *)
Definition rate_table_default (dfA : list arow) (group_col : string) : list rate_row :=
  rate_table dfA group_col 15.

(** [dfA_valid]: the rows with a touch timestamp, after
    [pd.to_datetime(touch_dt, errors='coerce')]. *)
Definition dfA_valid (dfA : list arow) : result (list (arow * Timestamp)) :=
  match to_datetime (map (fun a => _touch_datetime (cells a)) dfA) with
  | Some touch => Ok (dropna (combine dfA touch))
  | None => Raised ValueError
  end.

(** The weekday table [wk_grp] as it is charted; [None] when [dfA_valid]
    is empty and the page shows a hint instead. *)
Definition weekday_table (dfA : list arow) : result (option (list rate_row)) :=
  valid <- dfA_valid dfA ;;
  Ok match valid with
     | [] => None
     | _ =>
         Some (reindex Clock.weekday_order
                 (rated_groups (fun v => Clock.day_name (snd v))
                               (fun v => Attempted (fst v))
                               (fun v => IsYes (fst v))
                               valid))
     end.

End WithRuntime.

End Analytics.

(* ------------------------------------------------------------------ *)
(** ** Tables, records and settings for the examples *)

Module Examples.
Import Frame Invite Analytics.

Definition table_attempts : DataFrame :=
  mkFrame 3 [("Name", [CStr "Ana"; CStr "Bo"; CStr "Cy"]);
             ("ATTEMPTS", [CInt (-3); CStr "n/a"; CFloat (FFin (5 # 2))])].

Definition table_last_call : DataFrame :=
  mkFrame 1 [("Name", [CStr "Ana"]);
             ("LastCallDateTime", [CTime (mkTimestamp 1741098600000000000 None)])].

Definition table_two_last_call : DataFrame :=
  mkFrame 1 [("LastCallDateTime", [CTime (mkTimestamp 1741098600000000000 None)]);
             ("lastcalldatetime", [CNone])].

Definition ana : row :=
  [("Name", CStr "Ana Lopez"); ("Company", CStr "Acme");
   ("Email", CStr "ana@acme.com"); ("Status", CStr "Yes");
   ("MeetingDateTime", CTime (Clock.naive 2025 3 4 14 30 0));
   ("Notes", CStr "")].

(** The same meeting as a timestamp that carries its zone: 19:30 UTC,
    five hours behind. *)
Definition ana_with_zone : row :=
  [("Name", CStr "Ana Lopez"); ("Company", CStr "Acme");
   ("Email", CStr "ana@acme.com"); ("Status", CStr "Yes");
   ("MeetingDateTime",
    CTime (mkTimestamp (ts_value (Clock.naive 2025 3 4 19 30 0)) (Some (-18000)%Z)));
   ("Notes", CStr "")].

Definition default_description : string :=
  ("Meeting with {name} ({company})." ++ LF ++ LF ++ "Notes: {notes}" ++ LF)%string.

Definition sidebar (tz template : string) : settings :=
  mkSettings tz 30 "Your Name" "you@example.com" "Phone" template.

(** A record whose notes contain one of the markers. *)
Definition ana_with_marker : row :=
  [("Name", CStr "Ana Lopez"); ("Company", CStr "Acme");
   ("Email", CStr "ana@acme.com"); ("Status", CStr "Yes");
   ("MeetingDateTime", CTime (Clock.naive 2025 3 4 14 30 0));
   ("Notes", CStr "reschedule if END:VEVENT shows up")].

(** A record without a meeting. *)
Definition bo : row :=
  [("Name", CStr "Bo"); ("Email", CStr "bo@example.com"); ("Status", CStr "Yes");
   ("MeetingDateTime", CNaT)].

Definition new_york : settings := sidebar "America/New_York" default_description.

Definition call (company status : string) (attempts : Z) (last_call : cell) : row :=
  [("Company", CStr company); ("Status", CStr status); ("Attempts", CInt attempts);
   ("LastCallDateTime", last_call); ("CallbackDateTime", CNaT);
   ("MeetingDateTime", CNaT)].

(** Three attempted records of one company, one of them a yes. *)
Definition one_of_three : list arow :=
  [mkARow (call "Acme" "Yes" 1 (CTime (Clock.naive 2025 3 4 14 30 0))) true true;
   mkARow (call "Acme" "No" 2 (CTime (Clock.naive 2025 3 7 9 0 0))) true false;
   mkARow (call "Acme" "Voicemail" 1 CNaT) true false].

(** An imported sheet whose second row has an empty Name cell. *)
Definition table_blank_name : DataFrame :=
  mkFrame 2 [("Name", [CStr "Ana Lopez"; CFloat FNaN]);
             ("Email", [CStr "ana@acme.com"; CStr "bo@example.com"])].

End Examples.

(* ------------------------------------------------------------------ *)
(** ** The email templates and the personalized-emails export *)

Module Emails.
Import Frame Py.

Definition NL : string := String (ascii_of_nat 10) EmptyString.

Definition _example_template_subject : string := "Quick intro – {name}".

Definition _example_template_body : string :=
  ("Hi {first_name}," ++ NL ++ NL ++
   "Great speaking with you. Confirming our meeting on {meeting_date} at {meeting_time}." ++
   NL ++ NL ++
   "If that time changes, just reply to this email." ++ NL ++ NL ++
   "Best," ++ NL ++ "Your Name")%string.

(** One element of [records], the rows of [personalized_emails.csv]. *)
Record email_record : Type := mkEmail {
  Name : cell;
  Email : string;
  Subject : string;
  Body : string
}.

Section WithRuntime.
Context {pandas : Pandas} {python : Python}.

(** [str(r.get("Email", "")).strip()] *)
Definition address (r : row) : string :=
  PyStr.strip (Template.str_cell (row_get "Email" (CStr "") r)).

(** The loop under [Generate personalized emails CSV]: a row without an
    address is skipped before anything is rendered. *)
Fixpoint personalized_emails (records : list row) (subject_tmpl body_tmpl : string)
  : result (list email_record) :=
  match records with
  | [] => Ok []
  | r :: rest =>
      let email := address r in
      if String.eqb email "" then personalized_emails rest subject_tmpl body_tmpl
      else
        rendered <- Template._render_template r subject_tmpl body_tmpl ;;
        records <- personalized_emails rest subject_tmpl body_tmpl ;;
        Ok (mkEmail (row_get "Name" (CStr "") r) email (fst rendered) (snd rendered)
            :: records)
  end.

End WithRuntime.

End Emails.

(* ------------------------------------------------------------------ *)
(** ** The start of a session and the figures above the rate tables *)

Module Overview.
Import Frame Analytics.

(** [pd.DataFrame(columns=REQUIRED_COLUMNS + OPTIONAL_COLUMNS)], the table
    a session starts from. *)
Definition initial_frame : DataFrame :=
  mkFrame 0 (map (fun c => (c, []))
                 (Normalizer.REQUIRED_COLUMNS ++ Normalizer.OPTIONAL_COLUMNS)).

(** [int(dfA["Attempted"].sum())] and [int(dfA["IsYes"].sum())] *)
Definition total_attempted (dfA : list arow) : nat := count Attempted dfA.
Definition total_yes (dfA : list arow) : nat := count IsYes dfA.

(** [dfA_valid["TouchDT"].dt.hour] *)
Definition hour_of (t : Timestamp) : Z :=
  Clock.hour (Clock.fields_of_ns (Clock.wall_ns t)).

(** The distinct hours in ascending order, as [groupby("Hour")] lists
    them. *)
Fixpoint insert_hour (h : Z) (hours : list Z) : list Z :=
  match hours with
  | [] => [h]
  | x :: hours' =>
      if (h =? x)%Z then hours
      else if (h <? x)%Z then h :: hours
      else x :: insert_hour h hours'
  end.

Definition sorted_hours (l : list Z) : list Z := fold_right insert_hour [] l.

(** One row of [hour_grp]; [hour_rate] is in tenths of a per cent. *)
Record hour_row : Type := mkHourRow {
  Hour : Z;
  hour_attempted : nat;
  hour_yes : nat;
  hour_rate : Z
}.

(** The aggregates of the rows touched in the hour [h]. *)
Definition hour_group (valid : list (arow * Timestamp)) (h : Z) : hour_row :=
  let members := filter (fun v => (hour_of (snd v) =? h)%Z) valid in
  let attempted := count (fun v => Attempted (fst v)) members in
  let yes := count (fun v => IsYes (fst v)) members in
  mkHourRow h attempted yes (Float64.rate_tenths yes attempted).

(** [hour_grp] as it is charted. *)
Definition hour_table (valid : list (arow * Timestamp)) : list hour_row :=
  filter (fun g => (0 <? hour_attempted g)%nat)
         (map (hour_group valid) (sorted_hours (map (fun v => hour_of (snd v)) valid))).

End Overview.

(* ------------------------------------------------------------------ *)
(** ** The filters and the table editor *)

Module Editing.
Import Frame Py.

(** [series.isin(selected)] on one cell, for a selection of texts. *)
Definition isin (selected : list string) (c : cell) : bool :=
  match c with
  | CStr s => existsb (String.eqb s) selected
  | _ => false
  end.

(** The selections of the three filters.  The options of the status
    filter are text; the model covers selections of text for the other
    two as well. *)
Record filters : Type := mkFilters {
  status_filter : list string;
  state_filter : list string;
  company_filter : list string
}.

(** The rows of [df] at the positions [index]. *)
Definition take_rows (index : list nat) (df : DataFrame) : DataFrame :=
  mkFrame (length index)
          (map (fun lc => (fst lc, map (fun i => nth i (snd lc) CNone) index)) (columns df)).

(** [df.empty]: no rows or no columns. *)
Definition empty (df : DataFrame) : bool :=
  (nrows df =? 0)%nat || (length (columns df) =? 0)%nat.

(** [l[i] = v] for a position of the list. *)
Fixpoint set_nth {A : Type} (i : nat) (v : A) (l : list A) : list A :=
  match l, i with
  | [], _ => []
  | _ :: l', O => v :: l'
  | x :: l', S i' => x :: set_nth i' v l'
  end.

(** One column of [df.loc[index, ...] = values]: the cells at the
    positions [index] are overwritten with [values], in order. *)
Definition put_cells (index : list nat) (values series : list cell) : list cell :=
  fold_left (fun s iv => set_nth (fst iv) (snd iv) s) (combine index values) series.

(** [df.loc[mask, :] = edited.values]: the assignment goes by position,
    column by column. *)
Definition put_rows (index : list nat) (edited df : DataFrame) : DataFrame :=
  mkFrame (nrows df)
          (map (fun ce => (fst (fst ce), put_cells index (snd (snd ce)) (snd (fst ce))))
               (combine (columns df) (columns edited))).

(** The texts of a column whose values are text or missing. *)
Fixpoint texts (series : list cell) : option (list string) :=
  match series with
  | [] => Some []
  | CStr s :: rest => option_map (cons s) (texts rest)
  | c :: rest => if isna c then texts rest else None
  end.

(** [str(s).strip()] is not empty. *)
Definition not_blank (s : string) : bool := negb (String.eqb (PyStr.strip s) "").

Section WithPandas.
Context {pandas : Pandas}.

(** [sorted([s for s in series.dropna().unique() if str(s).strip()])] on
    a column that holds a value which is neither text nor missing: Python
    orders numbers and raises [TypeError] on values of two kinds. *)
Variable sorted_values : list cell -> result (list cell).

(** [df_view[df_view[col].isin(selected)]] for a label that is repeated:
    the selection is then made with a frame of booleans. *)
Variable filter_repeated : string -> list string -> DataFrame -> list nat -> result (list nat).

(** What the assignment does when the shape of [edited.values] is not
    the shape of the rows it is assigned to (the user added or deleted
    rows in the editor): pandas broadcasts or raises. *)
Variable assign_mismatched : DataFrame -> list nat -> DataFrame -> result DataFrame.

(** The options of the state and company filters,
    [sorted([s for s in df[col].dropna().unique() if str(s).strip()])]:
    the label has to be there, and to be there once, since a frame has
    no [unique]. *)
Definition filter_options (col : string) (df : DataFrame) : result (list cell) :=
  match select col df with
  | [] => Raised KeyError
  | [series] =>
      match texts series with
      | Some ts => Ok (map CStr (Analytics.sorted_keys (filter not_blank ts)))
      | None => sorted_values series
      end
  | _ => Raised AttributeError
  end.

(** [if selected: df_view = df_view[df_view[col].isin(selected)]] on the
    index of the view. *)
Definition filter_rows (col : string) (selected : list string) (df : DataFrame)
           (index : list nat) : result (list nat) :=
  match selected with
  | [] => Ok index
  | _ =>
      match select col df with
      | [] => Raised KeyError
      | [series] => Ok (filter (fun i => isin selected (nth i series CNone)) index)
      | _ => filter_repeated col selected df index
      end
  end.

(** The block under [with st.expander("Filters")]: the index of
    [df_view], the index of the table being the default one. *)
Definition page_view (session : DataFrame) (f : filters) : result (list nat) :=
  state_options <- filter_options "State" session ;;
  company_options <- filter_options "Company" session ;;
  index <- filter_rows "Status" (status_filter f) session (seq 0 (nrows session)) ;;
  index <- filter_rows "State" (state_filter f) session index ;;
  filter_rows "Company" (company_filter f) session index.

(** The block under [# Merge edits back]: [session] is
    [st.session_state.df], [view] is [df_view], [index] its index and
    [edited] what the editor returned. *)
Definition merge_edits (session : DataFrame) (index : list nat) (view edited : DataFrame)
  : result DataFrame :=
  if negb (empty view) then
    if (nrows edited =? length index)%nat &&
       (length (columns edited) =? length (columns session))%nat
    then Ok (put_rows index edited session)
    else assign_mismatched session index edited
  else Ok (Normalizer._standardize_columns edited).

(** One run of the page from the filters to the merge, the user having
    chosen the filters [f] and done [edit] in the editor. *)
Definition edit_table (session : DataFrame) (f : filters) (edit : DataFrame -> DataFrame)
  : result DataFrame :=
  index <- page_view session f ;;
  let view := take_rows index session in
  merge_edits session index view (edit view).

End WithPandas.

(** *** The rows that pass the filters *)

(** One of the three filters on a record: an empty selection filters
    nothing. *)
Definition passes (col : string) (selected : list string) (r : row) : bool :=
  match selected with
  | [] => true
  | _ => isin selected (row_get col CNone r)
  end.

Definition in_view (f : filters) (r : row) : bool :=
  passes "Status" (status_filter f) r &&
  passes "State" (state_filter f) r &&
  passes "Company" (company_filter f) r.

(** The positions of the records that pass the filters. *)
Definition view_index (f : filters) (df : DataFrame) : list nat :=
  filter (fun i => in_view f (row_at df i)) (seq 0 (nrows df)).

(** The table holds the label [col] once, with text or missing values. *)
Definition text_column (col : string) (df : DataFrame) : bool :=
  match select col df with
  | [series] => match texts series with Some _ => true | None => false end
  | _ => false
  end.

(** A table the filters can be computed on: the state and the company
    are columns of text and the status is one column. *)
Definition filterable (df : DataFrame) : bool :=
  text_column "State" df && text_column "Company" df &&
  (length (select "Status" df) =? 1)%nat.

Section Increment.

(** [astype(int)] on a cell that does not hold an integer: the
    conversion, or the exception, is pandas'. *)
Variable astype_int : cell -> result Z.

(** What the statement does on a table in which the label [Attempts] is
    repeated. *)
Variable increment_repeated : DataFrame -> list nat -> result DataFrame.




End Increment.



End Editing.

(* ------------------------------------------------------------------ *)
(** ** More vocabulary and more examples *)

Module Terms.
Import Frame Py.

(** The application columns that hold text. *)
Definition text_columns : list string :=
  ["Name"; "Phone"; "Email"; "Company"; "Title"; "State"; "Status"; "Notes"].

(** As far as [str.format] reads [tmpl] with the names bound, its
    replacement fields are plain names. *)
Definition plain_fields (names : list string) (tmpl : string) : bool :=
  match Template.scan (map (fun k => (k, EmptyString)) names) Template.Text tmpl with
  | Template.Beyond => false
  | _ => true
  end.

(** Two outcomes of the same kind: both a text, both the same exception,
    or both the finding that the template is beyond plain names. *)
Definition same_kind (a b : Template.outcome) : Prop :=
  match a, b with
  | Template.Done _, Template.Done _ => True
  | Template.Failed e, Template.Failed e' => e = e'
  | Template.Beyond, Template.Beyond => True
  | _, _ => False
  end.

(** The order of the group keys. *)
Definition ascending (a b : string) : Prop := String.ltb a b = true.

End Terms.

Module Cases.
Import Frame Invite Analytics.

(** A sheet with upper-case and lower-case headers, an untrimmed name, an
    empty name cell and a meeting given as text. *)
Definition table_sheet : DataFrame :=
  mkFrame 2 [("NAME", [CStr " Ana Lopez "; CFloat FNaN]);
             ("meetingdatetime", [CTime (Clock.naive 2025 3 4 14 30 0); CStr "next week"])].

(** Two spellings of the name column. *)
Definition table_two_names : DataFrame :=
  mkFrame 1 [("name", [CStr "first"]); ("NAME", [CStr "second"])].

(** A record whose meeting is text. *)
Definition cy : row :=
  [("Name", CStr "Cy"); ("Email", CStr "cy@example.com"); ("Status", CStr "Yes");
   ("MeetingDateTime", CStr "tomorrow")].

(** A record without a name and without an address, and one without a
    name that has an address. *)
Definition nameless : row :=
  [("Name", CFloat FNaN); ("Email", CStr "  "); ("MeetingDateTime", CNaT)].

Definition nameless_with_address : row :=
  [("Name", CFloat FNaN); ("Email", CStr "dee@example.com"); ("MeetingDateTime", CNaT)].

(** A record whose status and email are missing. *)
Definition blank_status : row :=
  [("Name", CStr "Eve"); ("Email", CFloat FNaN); ("Status", CFloat FNaN);
   ("Attempts", CInt 0); ("MeetingDateTime", CTime (Clock.naive 2025 3 4 14 30 0))].

(** A table of two prospects and two choices of the status filter: one
    that the first prospect passes and one that nobody passes. *)
Definition prospects : DataFrame :=
  mkFrame 2 [("Name", [CStr "Ana"; CStr "Bo"]); ("Company", [CStr "Acme"; CStr "Bolt"]);
             ("State", [CStr "TX"; CStr ""]); ("Status", [CStr "Yes"; CStr ""]);
             ("Attempts", [CInt 1; CInt 4])].

Definition only_yes : Editing.filters := Editing.mkFilters ["Yes"] [] [].
Definition only_no : Editing.filters := Editing.mkFilters ["No"] [] [].

(** The attempted records of two companies: 23 of the 80 of [A] and 21 of
    the 73 of [B] are a yes. *)
Definition close_rates : list arow :=
  repeat (mkARow [("Company", CStr "A")] true true) 23 ++
  repeat (mkARow [("Company", CStr "A")] true false) 57 ++
  repeat (mkARow [("Company", CStr "B")] true true) 21 ++
  repeat (mkARow [("Company", CStr "B")] true false) 52.

(** Three records of two companies; the last was never attempted. *)
Definition calls : list row :=
  [Examples.call "Acme" "Yes" 1 CNaT; Examples.call "Acme" "No" 2 CNaT;
   Examples.call "Bolt" "" 0 CNaT].

End Cases.

(* ================================================================== *)
(** * Properties *)

(* ------------------------------------------------------------------ *)
(** ** The reference runtime satisfies the laws *)

Module Sample.
Import Frame Reference.

Lemma to_datetime_cell_idem c : to_datetime_cell (to_datetime_cell c) = to_datetime_cell c.
Proof. destruct c; reflexivity. Qed.

Lemma to_datetime_all_pointwise col col' :
  to_datetime_all col = Some col' ->
  Forall2 (fun c c' =>
             (isna c = true -> c' = CNaT) /\
             (forall t, c = CTime t -> c' = CTime t) /\
             (c' = CNaT \/ exists t, c' = CTime t))
          col col'.
Proof.
  unfold to_datetime_all. intros [= <-].
  induction col as [|c col IH]; constructor; [|exact IH].
  destruct c as [s | z | [| neg | q] | | | t]; simpl;
    repeat split; try discriminate; eauto; congruence.
Qed.

Lemma to_datetime_all_idem col col' :
  to_datetime_all col = Some col' -> to_datetime_all col' = Some col'.
Proof.
  unfold to_datetime_all. intros [= <-]. f_equal.
  rewrite map_map. apply map_ext. intros; apply to_datetime_cell_idem.
Qed.

Lemma to_datetime_all_nat n :
  to_datetime_all (repeat CNaT n) = Some (repeat CNaT n).
Proof. unfold to_datetime_all. f_equal. induction n; simpl; congruence. Qed.

Lemma parse_int_kind s c :
  parse_int s = Some c ->
  (exists z, c = CInt z) \/ (exists f, c = CFloat f /\ f <> FNaN).
Proof.
  unfold parse_int. intros H. left.
  destruct s as [|a s]; [discriminate|].
  assert (H' : exists o, option_map (fun z => CInt z) o = Some c
                         \/ option_map (fun z => CInt (- z)) o = Some c).
  { destruct a as [[] [] [] [] [] [] [] []]; try (eexists; left; exact H).
    destruct s as [|b s]; [discriminate|]. eexists; right; exact H. }
  destruct H' as (o & [H'|H']); destruct o; simpl in H'; try discriminate;
    injection H' as <-; eauto.
Qed.

Lemma epoch_counts_integers col :
  forallb is_date col = true ->
  Forall2 (fun _ c' => exists z, c' = CInt z) col (epoch_counts col).
Proof.
  intros _. induction col as [|c col IH]; constructor; [|exact IH].
  destruct c; simpl; eauto.
Qed.

(** The reference conversions are those of pandas 2 on columns of the
    dtype datetime64[ns]. *)
#[export] Instance pandas : Pandas := {|
  to_datetime := to_datetime_all;
  parse_number := parse_int;
  parse_timestamp := fun _ => None;
  dates_to_int := epoch_counts;
  str_keeps_missing := false;
  to_datetime_pointwise := to_datetime_all_pointwise;
  to_datetime_idem := to_datetime_all_idem;
  to_datetime_nat := to_datetime_all_nat;
  parse_number_kind := parse_int_kind;
  dates_to_int_integers := epoch_counts_integers
|}.

(** The same conversions with the [astype(str)] of pandas 3. *)
Definition pandas_3 : Pandas := {|
  to_datetime := to_datetime_all;
  parse_number := parse_int;
  parse_timestamp := fun _ => None;
  dates_to_int := epoch_counts;
  str_keeps_missing := true;
  to_datetime_pointwise := to_datetime_all_pointwise;
  to_datetime_idem := to_datetime_all_idem;
  to_datetime_nat := to_datetime_all_nat;
  parse_number_kind := parse_int_kind;
  dates_to_int_integers := epoch_counts_integers
|}.

(** The reference interpreter knows no replacement field beyond a plain
    name and reports one as a [ValueError]. *)
#[export] Instance python : Python := {|
  float_repr := print_float;
  format_beyond := fun _ _ => Py.Raised Py.ValueError;
  zone_info := zone_table
|}.

End Sample.

(* ------------------------------------------------------------------ *)
(** ** Float64 arithmetic *)

Module Float64Facts.
Import Float64.

(** The rounded quotient is within one half of the exact one. *)
Lemma round_half_even_spec num den :
  (0 < den)%Z -> (2 * Z.abs (round_half_even num den * den - num) <= den)%Z.
Proof.
  intros Hden. unfold round_half_even.
  pose proof (Z.div_mod num den ltac:(lia)) as Hdm.
  pose proof (Z.mod_pos_bound num den Hden) as Hr.
  destruct (2 * (num mod den) <? den)%Z eqn:E1; [apply Z.ltb_lt in E1; nia|].
  apply Z.ltb_ge in E1.
  destruct (den <? 2 * (num mod den))%Z eqn:E2; [apply Z.ltb_lt in E2; nia|].
  apply Z.ltb_ge in E2.
  destruct (Z.even (num / den)); nia.
Qed.

(** [2 ^ ilog2] is not above the quotient. *)
Lemma ilog2_lower num den :
  (0 < num)%Z -> (0 < den)%Z ->
  let L := ilog2 num den in
  ((0 <= L)%Z -> (den * 2 ^ L <= num)%Z) /\
  ((L < 0)%Z -> (den <= num * 2 ^ (- L))%Z).
Proof.
  intros Hn Hd. unfold ilog2.
  pose proof (Z.log2_spec num Hn) as [Hn1 Hn2].
  pose proof (Z.log2_spec den Hd) as [Hd1 Hd2].
  pose proof (Z.log2_nonneg num) as Hln. pose proof (Z.log2_nonneg den) as Hld.
  set (ln := Z.log2 num) in *. set (ld := Z.log2 den) in *.
  destruct (Z.leb_spec 0 (ln - ld)) as [Hc|Hc].
  - destruct (Z.leb_spec (den * 2 ^ (ln - ld)) num) as [Ht|Ht]; cbv zeta.
    + split; [auto|lia].
    + split; intros HL.
      * assert (Hp : (2 ^ ln = 2 ^ (ld + 1) * 2 ^ (ln - ld - 1))%Z)
          by (rewrite <- Z.pow_add_r by lia; f_equal; lia).
        assert (0 < 2 ^ (ln - ld - 1))%Z by (apply Z.pow_pos_nonneg; lia).
        nia.
      * assert (ln - ld = 0)%Z by lia.
        replace (- (ln - ld - 1))%Z with 1%Z by lia.
        replace ln with ld in * by lia.
        rewrite Z.pow_succ_r in Hd2 by lia. change (2 ^ 1)%Z with 2%Z. lia.
  - destruct (Z.leb_spec den (num * 2 ^ (- (ln - ld)))) as [Ht|Ht]; cbv zeta.
    + split; [lia|auto].
    + split; [lia|]. intros _.
      replace (- (ln - ld - 1))%Z with (ld + 1 - ln)%Z by lia.
      assert (Hp : (2 ^ (ld + 1) = 2 ^ ln * 2 ^ (ld + 1 - ln))%Z)
        by (rewrite <- Z.pow_add_r by lia; f_equal; lia).
      assert (0 < 2 ^ (ld + 1 - ln))%Z by (apply Z.pow_pos_nonneg; lia).
      nia.
Qed.

(** A fraction [m / P] that is within [2 ^ -53] of [n / d], relatively. *)
Lemma within (m n : Z) (P d : positive) :
  (9007199254740992 * Z.abs (m * Zpos d - n * Zpos P) <= n * Zpos P)%Z ->
  (n # d) * (1 - u) <= m # P /\ m # P <= (n # d) * (1 + u).
Proof.
  intros H. unfold u, Qle, Qmult, Qminus, Qplus, Qopp. cbn [Qnum Qden].
  rewrite !Pos2Z.inj_mul.
  split; nia.
Qed.

Lemma nearest_pos_bounds (n : Z) (d : positive) :
  (0 < n)%Z ->
  (n # d) * (1 - u) <= nearest_pos n (Zpos d) /\
  nearest_pos n (Zpos d) <= (n # d) * (1 + u).
Proof.
  intros Hn. unfold nearest_pos.
  destruct (ilog2_lower n (Zpos d) Hn ltac:(lia)) as [Hhi Hlo].
  set (L := ilog2 n (Zpos d)) in *.
  destruct (Z.leb_spec 0 (L - 52)) as [He|He].
  - assert (Hpos : (0 < 2 ^ (L - 52))%Z) by (apply Z.pow_pos_nonneg; lia).
    pose proof (round_half_even_spec n (Zpos d * 2 ^ (L - 52)) ltac:(nia)) as Hr.
    specialize (Hhi ltac:(lia)).
    replace L with ((L - 52) + 52)%Z in Hhi at 1 by lia.
    rewrite Z.pow_add_r in Hhi by lia.
    change (2 ^ 52)%Z with 4503599627370496%Z in Hhi.
    apply (within _ n 1 d). nia.
  - assert (Hpos : (0 < 2 ^ (- (L - 52)))%Z) by (apply Z.pow_pos_nonneg; lia).
    pose proof (round_half_even_spec (n * 2 ^ (- (L - 52))) (Zpos d) ltac:(lia)) as Hr.
    assert (Hd : (4503599627370496 * Zpos d <= n * 2 ^ (- (L - 52)))%Z).
    { destruct (Z.leb_spec 0 L) as [HL|HL].
      - specialize (Hhi HL).
        assert (E : (4503599627370496 = 2 ^ L * 2 ^ (- (L - 52)))%Z).
        { rewrite <- Z.pow_add_r by lia.
          replace (L + - (L - 52))%Z with 52%Z by lia. reflexivity. }
        assert (0 < 2 ^ L)%Z by (apply Z.pow_pos_nonneg; lia).
        rewrite E. nia.
      - specialize (Hlo HL).
        replace (- (L - 52))%Z with (- L + 52)%Z by lia.
        rewrite Z.pow_add_r by lia. change (2 ^ 52)%Z with 4503599627370496%Z. nia. }
    apply within. rewrite Z2Pos.id by exact Hpos. nia.
Qed.

Lemma nearest_zero (q : Q) : Qnum q = 0%Z -> nearest q = 0.
Proof. intros E. unfold nearest. now rewrite E. Qed.

(** Rounding to the nearest double moves a positive value by no more than
    the unit round-off, relatively. *)
Lemma nearest_bounds (q : Q) :
  0 < q -> q * (1 - u) <= nearest q /\ nearest q <= q * (1 + u).
Proof.
  destruct q as [n d]. unfold Qlt. cbn [Qnum Qden]. intros H.
  destruct n as [|p|p]; try lia.
  unfold nearest. cbn [Qnum Qden]. apply nearest_pos_bounds. lia.
Qed.

Lemma nearest_pos_step (x : Q) :
  0 < x -> 0 < nearest x /\ x * (1 - u) <= nearest x /\ nearest x <= x * (1 + u).
Proof.
  intros Hx. destruct (nearest_bounds x Hx) as [Hlo Hhi].
  split; [|split; assumption].
  unfold u in *.
  assert (0 < x * (1 - (1 # 9007199254740992)))
    by (apply Qmult_lt_0_compat; [assumption|reflexivity]).
  lra.
Qed.

Lemma rint_bounds (x : Q) :
  inject_Z (rint x) - (1 # 2) <= x /\ x <= inject_Z (rint x) + (1 # 2).
Proof.
  destruct x as [n d]. unfold rint. cbn [Qnum Qden].
  pose proof (round_half_even_spec n (Zpos d) ltac:(lia)) as H.
  unfold Qle, Qminus, Qplus, Qopp, inject_Z. cbn [Qnum Qden]. split; lia.
Qed.

Lemma rate_tenths_zero a : rate_tenths 0 a = 0%Z.
Proof.
  unfold rate_tenths, div, mul.
  assert (E : nearest (of_Z (Z.of_nat 0) / of_Z (Z.of_nat a)) = 0).
  { apply nearest_zero. reflexivity. }
  rewrite E. reflexivity.
Qed.

(** The five roundings of a rate, one after the other. *)
Lemma rate_chain (ya aa : Q) :
  0 < ya -> 0 < aa ->
  let k := inject_Z (rint (nearest (nearest (nearest (nearest ya / nearest aa) * 100) * 10))) in
  k * aa <= 1000 * ya + aa * (1 # 2) + ya * (1 # 1099511627776) /\
  1000 * ya - aa * (1 # 2) - ya * (1 # 1099511627776) <= k * aa.
Proof.
  intros Hya Haa.
  destruct (nearest_pos_step ya Hya) as (HY0 & HY1 & HY2).
  destruct (nearest_pos_step aa Haa) as (HA0 & HA1 & HA2).
  set (Y := nearest ya) in *. set (A := nearest aa) in *. clearbody Y A.
  assert (Hd0 : 0 < Y / A) by (apply Qlt_shift_div_l; lra).
  assert (HdA : Y / A * A == Y) by (field; lra).
  set (d := Y / A) in *. clearbody d.
  destruct (nearest_pos_step d Hd0) as (Hq0 & Hq1 & Hq2).
  set (q := nearest d) in *. clearbody q.
  assert (Hq100 : 0 < q * 100) by lra.
  destruct (nearest_pos_step _ Hq100) as (Hp0 & Hp1 & Hp2).
  set (p := nearest (q * 100)) in *. clearbody p.
  assert (Hp10 : 0 < p * 10) by lra.
  destruct (nearest_pos_step _ Hp10) as (Ht0 & Ht1 & Ht2).
  set (t := nearest (p * 10)) in *. clearbody t.
  destruct (rint_bounds t) as [Hk1 Hk2].
  set (kk := inject_Z (rint t)) in *. clearbody kk. cbv zeta.
  unfold u in *.
  assert (HD1 : (d * aa) * (1 - (1 # 9007199254740992)) <= d * A).
  { rewrite <- Qmult_assoc. apply Qmult_le_l; [exact Hd0|exact HA1]. }
  assert (HD2 : d * A <= (d * aa) * (1 + (1 # 9007199254740992))).
  { rewrite <- Qmult_assoc. apply Qmult_le_l; [exact Hd0|exact HA2]. }
  rewrite HdA in HD1, HD2.
  assert (Hup : kk <= 1000 * (1 + (1 # 9007199254740992)) * (1 + (1 # 9007199254740992))
                      * (1 + (1 # 9007199254740992)) * d + (1 # 2)) by lra.
  assert (Hdn : 1000 * (1 - (1 # 9007199254740992)) * (1 - (1 # 9007199254740992))
                * (1 - (1 # 9007199254740992)) * d - (1 # 2) <= kk) by lra.
  apply (Qmult_le_compat_r _ _ aa) in Hup; [|lra].
  apply (Qmult_le_compat_r _ _ aa) in Hdn; [|lra].
  assert (E1 : (1000 * (1 + (1 # 9007199254740992)) * (1 + (1 # 9007199254740992))
                * (1 + (1 # 9007199254740992)) * d + (1 # 2)) * aa ==
               1000 * (1 + (1 # 9007199254740992)) * (1 + (1 # 9007199254740992))
               * (1 + (1 # 9007199254740992)) * (d * aa) + (1 # 2) * aa) by ring.
  assert (E2 : (1000 * (1 - (1 # 9007199254740992)) * (1 - (1 # 9007199254740992))
                * (1 - (1 # 9007199254740992)) * d - (1 # 2)) * aa ==
               1000 * (1 - (1 # 9007199254740992)) * (1 - (1 # 9007199254740992))
               * (1 - (1 # 9007199254740992)) * (d * aa) - (1 # 2) * aa) by ring.
  rewrite E1 in Hup. rewrite E2 in Hdn.
  set (K := kk * aa) in *. set (D := d * aa) in *.
  clearbody K D. clear - Hup Hdn HD1 HD2 HY1 HY2 Hya Haa.
  split; lra.
Qed.

Lemma rate_tenths_close (y a : nat) :
  (0 < a)%nat ->
  let k := inject_Z (rate_tenths y a) in
  let ya := inject_Z (Z.of_nat y) in
  let aa := inject_Z (Z.of_nat a) in
  k * aa <= 1000 * ya + aa * (1 # 2) + ya * (1 # 1099511627776) /\
  1000 * ya - aa * (1 # 2) - ya * (1 # 1099511627776) <= k * aa.
Proof.
  intros Ha k ya aa.
  assert (Haa : 0 < aa).
  { unfold aa. change 0 with (inject_Z 0). rewrite <- Zlt_Qlt. lia. }
  destruct y as [|y'].
  - unfold k. rewrite rate_tenths_zero. unfold ya. cbn [Z.of_nat].
    change (inject_Z 0) with 0. clear k ya. clearbody aa. split; lra.
  - assert (Hya : 0 < ya).
    { unfold ya. change 0 with (inject_Z 0). rewrite <- Zlt_Qlt. lia. }
    exact (rate_chain ya aa Hya Haa).
Qed.

(** The rate in tenths is within one half of [1000 * y / a], but for the
    error of the float64 operations, which is below [y / a * 2 ^ -39]. *)
Lemma rate_tenths_error (y a : nat) :
  (0 < a)%nat ->
  (549755813888 * (2 * Z.abs (rate_tenths y a * Z.of_nat a - 1000 * Z.of_nat y) - Z.of_nat a)
   <= Z.of_nat y)%Z.
Proof.
  intros Ha. destruct (rate_tenths_close y a Ha) as [H1 H2].
  cbv zeta in H1, H2. revert H1 H2.
  generalize (rate_tenths y a). intros k.
  unfold Qle, Qminus, Qplus, Qmult, Qopp, inject_Z. cbn [Qnum Qden].
  intros H1 H2. lia.
Qed.

(** With fewer than [2 ^ 39] yes answers the float64 operations do not
    show: the rate is within half a tenth of the exact quotient. *)
Lemma rate_tenths_half (y a : nat) :
  (0 < a)%nat -> (Z.of_nat y < 549755813888)%Z ->
  (2 * Z.abs (rate_tenths y a * Z.of_nat a - 1000 * Z.of_nat y) <= Z.of_nat a)%Z.
Proof. intros Ha Hy. pose proof (rate_tenths_error y a Ha). lia. Qed.

(** 23 in 80 is shown as 28.7: the exact rate, 28.75, would be rounded to
    28.8, but the product of the doubles is 28.749999999999996; one in
    three is shown as 33.3. *)
Lemma rate_tenths_examples : rate_tenths 23 80 = 287%Z /\ rate_tenths 1 3 = 333%Z.
Proof. split; vm_compute; reflexivity. Qed.

Lemma rate_tenths_range (y a : nat) :
  (0 < a)%nat -> (y <= a)%nat -> (0 <= rate_tenths y a <= 1000)%Z.
Proof.
  intros Ha Hy. pose proof (rate_tenths_error y a Ha) as H.
  nia.
Qed.

(** The rates of all counts up to forty are those of the binary64 format
    of the library's IEEE 754 specification. *)
Lemma rate_tenths_binary64 :
  forallb
    (fun a => forallb (fun y => (rate_tenths y a =? Binary64.rate_tenths y a)%Z)
                      (seq 0 (a + 2)))
    (seq 1 40) = true.
Proof. vm_compute. reflexivity. Qed.

End Float64Facts.

(* ------------------------------------------------------------------ *)
(** ** Facts about frames and dicts *)

Module FrameFacts.
Import Frame.

Lemma select_pick col df : select col df = map snd (pick col (columns df)).
Proof. reflexivity. Qed.

Lemma dict_get_set_same k v d : dict_get k (dict_set k v d) = Some v.
Proof.
  induction d as [|[k' v'] d IH]; simpl.
  - now rewrite String.eqb_refl.
  - destruct (String.eqb k' k) eqn:E; simpl.
    + now rewrite String.eqb_refl.
    + now rewrite E.
Qed.

Lemma dict_get_set_other k k' v d :
  k <> k' -> dict_get k' (dict_set k v d) = dict_get k' d.
Proof.
  intros Hne. induction d as [|[k0 v0] d IH]; simpl.
  - destruct (String.eqb k k') eqn:E; [apply String.eqb_eq in E; contradiction|reflexivity].
  - destruct (String.eqb k0 k) eqn:E; simpl.
    + apply String.eqb_eq in E. subst k0.
      destruct (String.eqb k k') eqn:E'; [apply String.eqb_eq in E'; contradiction|reflexivity].
    + destruct (String.eqb k0 k'); [reflexivity|exact IH].
Qed.

Lemma dict_get_set k k' v d :
  dict_get k' (dict_set k v d) = if String.eqb k k' then Some v else dict_get k' d.
Proof.
  destruct (String.eqb k k') eqn:E.
  - apply String.eqb_eq in E. subst. apply dict_get_set_same.
  - apply String.eqb_neq in E. now apply dict_get_set_other.
Qed.

Lemma find_app_split {A} (f : A -> bool) l1 l2 :
  find f (l1 ++ l2) = match find f l1 with Some x => Some x | None => find f l2 end.
Proof. induction l1 as [|a l1 IH]; simpl; [reflexivity|]. destruct (f a); auto. Qed.

Lemma pick_app col l1 l2 : pick col (l1 ++ l2) = pick col l1 ++ pick col l2.
Proof. apply filter_app. Qed.

Lemma pick_pick c k cols :
  pick k (pick c cols) = if String.eqb c k then pick k cols else [].
Proof.
  unfold pick. induction cols as [|[l s] cols IH]; simpl.
  - now destruct (String.eqb c k).
  - destruct (String.eqb l c) eqn:E1; simpl.
    + apply String.eqb_eq in E1. subst l.
      destruct (String.eqb c k) eqn:E2; simpl; rewrite IH; reflexivity.
    + rewrite IH. destruct (String.eqb c k) eqn:E2; [|reflexivity].
      apply String.eqb_eq in E2. subst k. now rewrite E1.
Qed.

Lemma pick_flat_map k order cols :
  pick k (flat_map (fun c => pick c cols) order) =
  flat_map (fun c => if String.eqb c k then pick k cols else []) order.
Proof.
  induction order as [|c order IH]; simpl; [reflexivity|].
  now rewrite pick_app, pick_pick, IH.
Qed.

Lemma flat_map_miss k (order : list string) (cols : list (string * list cell)) :
  ~ In k order ->
  flat_map (fun c => if String.eqb c k then pick k cols else []) order = [].
Proof.
  induction order as [|c order IH]; simpl; [reflexivity|].
  intros H. destruct (String.eqb c k) eqn:E.
  - apply String.eqb_eq in E. subst. exfalso. auto.
  - apply IH. auto.
Qed.

(** Reordering keeps the columns of every label it lists. *)
Lemma pick_reorder k order df :
  NoDup order -> In k order ->
  pick k (columns (reorder order df)) = pick k (columns df).
Proof.
  unfold reorder; simpl. fold (pick k). intros Hnd Hin.
  change (pick k (flat_map (fun c => pick c (columns df)) order) = pick k (columns df)).
  rewrite pick_flat_map.
  induction Hnd as [|c order Hc Hnd IH]; [destruct Hin|]. simpl.
  destruct Hin as [->|Hin].
  - rewrite String.eqb_refl, flat_map_miss by assumption. apply app_nil_r.
  - destruct (String.eqb c k) eqn:E.
    + apply String.eqb_eq in E. subst. contradiction.
    + simpl. auto.
Qed.

Lemma flat_map_ext_on {A B} (f g : A -> list B) l :
  (forall a, In a l -> f a = g a) -> flat_map f l = flat_map g l.
Proof.
  induction l as [|a l IH]; simpl; intros H; [reflexivity|].
  rewrite H, IH; auto.
Qed.

Lemma reorder_idem order df :
  NoDup order -> reorder order (reorder order df) = reorder order df.
Proof.
  intros Hnd. unfold reorder at 1 3. f_equal.
  apply flat_map_ext_on. intros c Hc. now apply (pick_reorder c order df).
Qed.

Lemma labels_reorder order df l :
  In l (labels (reorder order df)) -> In l order.
Proof.
  unfold labels, reorder; simpl. rewrite in_map_iff.
  intros ([l' s] & <- & H). apply in_flat_map in H as (c & Hc & H).
  apply filter_In in H as [_ H]. simpl in *. apply String.eqb_eq in H. now subst.
Qed.

Lemma has_column_pick col df :
  has_column col df = match pick col (columns df) with [] => false | _ => true end.
Proof.
  unfold has_column, labels, pick. induction (columns df) as [|[l s] cols IH]; simpl.
  - reflexivity.
  - rewrite (String.eqb_sym col l). destruct (String.eqb l col); simpl; auto.
Qed.

Lemma pick_rename f k cols :
  pick k (map (fun lc : string * list cell => (f (fst lc), snd lc)) cols) =
  map (fun lc => (f (fst lc), snd lc))
      (filter (fun lc => String.eqb (f (fst lc)) k) cols).
Proof.
  unfold pick. induction cols as [|[l s] cols IH]; simpl; [reflexivity|].
  destruct (String.eqb (f l) k); simpl; now rewrite IH.
Qed.

Lemma pick_set_column k col series df :
  pick k (columns (set_column col series df)) =
  if String.eqb col k
  then map (fun lc => (fst lc, series)) (pick k (columns df))
  else pick k (columns df).
Proof.
  unfold set_column, pick; simpl.
  induction (columns df) as [|[l s] cols IH]; simpl.
  - now destruct (String.eqb col k).
  - destruct (String.eqb l col) eqn:E1; simpl.
    + apply String.eqb_eq in E1. subst l.
      destruct (String.eqb col k) eqn:E2; simpl; now rewrite IH.
    + destruct (String.eqb l k) eqn:E2; simpl; rewrite IH.
      * destruct (String.eqb col k) eqn:E3; [|reflexivity].
        apply String.eqb_eq in E2, E3. subst.
        rewrite String.eqb_refl in E1. discriminate.
      * reflexivity.
Qed.

Lemma pick_add_column k col v df :
  pick k (columns (add_column col v df)) =
  pick k (columns df) ++ (if String.eqb col k then [(col, repeat v (nrows df))] else []).
Proof. unfold add_column; simpl. rewrite pick_app. reflexivity. Qed.

(** Writing back the series a uniquely labelled column already holds
    changes nothing. *)
Lemma set_column_same col series df :
  select col df = [series] -> set_column col series df = df.
Proof.
  destruct df as [n cols]. unfold select, set_column; simpl. intros H. f_equal.
  assert (Hall : forall lc, In lc cols -> String.eqb (fst lc) col = true -> snd lc = series).
  { intros lc Hin E.
    assert (Hs : In (snd lc) (map snd (filter (fun lc => String.eqb (fst lc) col) cols))).
    { apply in_map, filter_In. auto. }
    rewrite H in Hs. destruct Hs as [Hs|[]]. auto. }
  clear H. induction cols as [|[l s] cols IH]; simpl; [reflexivity|].
  rewrite IH by (intros; apply Hall; simpl; auto).
  destruct (String.eqb l col) eqn:E; [|reflexivity].
  simpl. f_equal. f_equal. symmetry. apply (Hall (l, s)); simpl; auto.
Qed.

End FrameFacts.

(* ------------------------------------------------------------------ *)
(** ** The schema normalizer *)

Module NormalizerFacts.
Import Frame Normalizer FrameFacts.

(** *** The rename step *)

Lemma cols_lower_fold labs d0 k :
  dict_get k (fold_left (fun d c => dict_set (PyStr.lower c) c d) labs d0) =
  match find (fun c => String.eqb (PyStr.lower c) k) (rev labs) with
  | Some c => Some c
  | None => dict_get k d0
  end.
Proof.
  revert d0. induction labs as [|c labs IH]; intros d0; simpl; [reflexivity|].
  rewrite IH, find_app_split.
  destruct (find _ (rev labs)); [reflexivity|].
  simpl. rewrite dict_get_set.
  destruct (String.eqb (PyStr.lower c) k); reflexivity.
Qed.

(** [cols_lower] keeps, for each lower-cased name, the last label that has
    it. *)
Lemma cols_lower_get labs k :
  dict_get k (cols_lower labs) =
  find (fun c => String.eqb (PyStr.lower c) k) (rev labs).
Proof. unfold cols_lower. rewrite cols_lower_fold. now destruct find. Qed.

Lemma cols_lower_sound labs k src :
  dict_get k (cols_lower labs) = Some src -> PyStr.lower src = k /\ In src labs.
Proof.
  rewrite cols_lower_get. intros H. apply find_some in H as [Hin E].
  apply in_rev in Hin. apply String.eqb_eq in E. auto.
Qed.

Lemma rename_map_fold labs ks rm0 c :
  dict_get c
    (fold_left
       (fun rm col =>
          match dict_get col (cols_lower labs) with
          | Some src => dict_set src (canonical col) rm
          | None => rm
          end) ks rm0) =
  if mem (PyStr.lower c) ks && kept labs c
  then Some (canonical (PyStr.lower c))
  else dict_get c rm0.
Proof.
  revert rm0. induction ks as [|k ks IH]; intros rm0; simpl; [reflexivity|].
  rewrite IH. unfold mem in *. simpl.
  destruct (existsb (String.eqb (PyStr.lower c)) ks && kept labs c) eqn:Hks.
  - apply andb_true_iff in Hks as [-> ->]. now rewrite orb_true_r.
  - unfold kept in *.
    destruct (String.eqb (PyStr.lower c) k) eqn:Ek.
    + apply String.eqb_eq in Ek. subst k. simpl.
      destruct (dict_get (PyStr.lower c) (cols_lower labs)) as [src|] eqn:Hsrc.
      * rewrite dict_get_set. destruct (String.eqb src c); reflexivity.
      * reflexivity.
    + simpl. rewrite Hks.
      destruct (dict_get k (cols_lower labs)) as [src|] eqn:Hsrc; [|reflexivity].
      rewrite dict_get_set. destruct (String.eqb src c) eqn:Esrc; [|reflexivity].
      apply String.eqb_eq in Esrc. subst src.
      apply cols_lower_sound in Hsrc as [Hl _]. subst k.
      rewrite String.eqb_refl in Ek. discriminate.
Qed.

(** What [df.rename(columns=rename_map)] does to a label. *)
Lemma rename_label_spec labs c :
  rename_label labs c =
  if mem (PyStr.lower c) recognized && kept labs c
  then canonical (PyStr.lower c) else c.
Proof.
  unfold rename_label, rename_map. rewrite rename_map_fold.
  now destruct (mem (PyStr.lower c) recognized && kept labs c).
Qed.

Lemma NoDup_map_inj {A B} (f : A -> B) l x y :
  NoDup (map f l) -> In x l -> In y l -> f x = f y -> x = y.
Proof.
  induction l as [|a l IH]; simpl; [tauto|].
  intros Hnd Hx Hy E. inversion Hnd as [|? ? Hna Hnd']; subst.
  destruct Hx as [->|Hx], Hy as [->|Hy]; auto.
  - exfalso. apply Hna. rewrite E. now apply in_map.
  - exfalso. apply Hna. rewrite <- E. now apply in_map.
Qed.

(** With labels that differ after lower-casing, every label is kept. *)
Lemma kept_distinct labs c :
  NoDup (map PyStr.lower labs) -> In c labs -> kept labs c = true.
Proof.
  intros Hnd Hin. unfold kept. rewrite cols_lower_get.
  destruct (find _ (rev labs)) as [src|] eqn:Hf.
  - apply find_some in Hf as [Hsrc E]. apply in_rev in Hsrc.
    apply String.eqb_eq in E. apply String.eqb_eq.
    eapply NoDup_map_inj; eauto.
  - exfalso. eapply find_none in Hf; [|apply in_rev; rewrite rev_involutive; exact Hin].
    simpl in Hf. rewrite String.eqb_refl in Hf. discriminate.
Qed.

Lemma mem_In s l : mem s l = true <-> In s l.
Proof.
  unfold mem. rewrite existsb_exists. split.
  - intros (x & Hx & E). apply String.eqb_eq in E. now subst.
  - intros H. exists s. split; [assumption|apply String.eqb_refl].
Qed.

(** The label the rename step gives the column that the output column [K]
    should be filled from.  For every output column but one it is [K]
    itself: [LastCallDateTime] is renamed to [LastcallDateTime], which is
    no output column. *)
Lemma canonical_lower_app K :
  In K APP_COLUMNS ->
  canonical (PyStr.lower K) =
  if String.eqb K "LastCallDateTime" then "LastcallDateTime" else K.
Proof.
  intros H. repeat (destruct H as [<-|H]; [reflexivity|]). destruct H.
Qed.

Lemma lower_app_recognized K : In K APP_COLUMNS -> In (PyStr.lower K) recognized.
Proof.
  intros H. repeat (destruct H as [<-|H]; [simpl; tauto|]). destruct H.
Qed.

Lemma canonical_eqb_app k K :
  In k recognized -> In K APP_COLUMNS ->
  String.eqb (canonical k) K =
  negb (String.eqb K "LastCallDateTime") && String.eqb k (PyStr.lower K).
Proof.
  intros Hk HK.
  repeat (destruct Hk as [<-|Hk];
          [repeat (destruct HK as [<-|HK]; [reflexivity|]); destruct HK|]).
  destruct Hk.
Qed.

Lemma rename_label_eqb labs l K :
  NoDup (map PyStr.lower labs) -> In l labs -> In K APP_COLUMNS ->
  String.eqb (rename_label labs l) K =
  negb (String.eqb K "LastCallDateTime") &&
  String.eqb (PyStr.lower l) (PyStr.lower K).
Proof.
  intros Hnd Hl HK. rewrite rename_label_spec, kept_distinct, andb_true_r by assumption.
  destruct (mem (PyStr.lower l) recognized) eqn:Hm.
  - apply mem_In in Hm. now apply canonical_eqb_app.
  - assert (Hne : String.eqb (PyStr.lower l) (PyStr.lower K) = false).
    { apply String.eqb_neq. intros E. apply lower_app_recognized in HK.
      rewrite <- E in HK. apply mem_In in HK. congruence. }
    rewrite Hne, andb_false_r. apply String.eqb_neq. intros ->.
    rewrite String.eqb_refl in Hne. discriminate.
Qed.

(** *** Defaults and coercions, label by label *)

Lemma nrows_ensure c v df : nrows (ensure c v df) = nrows df.
Proof. unfold ensure. now destruct (has_column c df). Qed.

Lemma pick_ensure K c v df :
  pick K (columns (ensure c v df)) =
  if String.eqb c K
  then match pick K (columns df) with
       | [] => [(c, repeat v (nrows df))]
       | l => l
       end
  else pick K (columns df).
Proof.
  unfold ensure. rewrite has_column_pick.
  destruct (String.eqb c K) eqn:E.
  - apply String.eqb_eq in E. subst c.
    destruct (pick K (columns df)) eqn:Hp; [|exact Hp].
    now rewrite pick_add_column, Hp, String.eqb_refl.
  - destruct (pick c (columns df)); [|reflexivity].
    rewrite pick_add_column, E. apply app_nil_r.
Qed.

Lemma ensure_all_fold df :
  ensure_all df = fold_left (fun d cv => ensure (fst cv) (snd cv) d) defaults df.
Proof. reflexivity. Qed.

Lemma nrows_ensure_fold cvs df :
  nrows (fold_left (fun d cv => ensure (fst cv) (snd cv) d) cvs df) = nrows df.
Proof.
  revert df. induction cvs as [|cv cvs IH]; intros df; simpl; [reflexivity|].
  now rewrite IH, nrows_ensure.
Qed.

Lemma pick_ensure_fold K cvs df :
  pick K (columns (fold_left (fun d cv => ensure (fst cv) (snd cv) d) cvs df)) =
  match pick K (columns df) with
  | [] => match find (fun cv => String.eqb (fst cv) K) cvs with
          | Some cv => [(fst cv, repeat (snd cv) (nrows df))]
          | None => []
          end
  | l => l
  end.
Proof.
  revert df. induction cvs as [|[c v] cvs IH]; intros df; simpl.
  - now destruct (pick K (columns df)).
  - rewrite IH, pick_ensure, nrows_ensure. simpl.
    destruct (String.eqb c K); destruct (pick K (columns df)); reflexivity.
Qed.

Lemma nrows_ensure_all df : nrows (ensure_all df) = nrows df.
Proof. rewrite ensure_all_fold. apply nrows_ensure_fold. Qed.

Lemma pick_ensure_all K df :
  In K APP_COLUMNS ->
  pick K (columns (ensure_all df)) =
  match pick K (columns df) with
  | [] => [(K, repeat (default_value K) (nrows df))]
  | l => l
  end.
Proof.
  intros H. rewrite ensure_all_fold, pick_ensure_fold.
  destruct (pick K (columns df)); [|reflexivity].
  repeat (destruct H as [<-|H]; [reflexivity|]). destruct H.
Qed.

Lemma nrows_coerce_column conv c df : nrows (coerce_column conv c df) = nrows df.
Proof.
  unfold coerce_column. destruct (select c df) as [|s [|]]; try reflexivity.
  now destruct (conv s).
Qed.

Lemma pick_coerce_column K conv c df :
  pick K (columns (coerce_column conv c df)) =
  if String.eqb c K
  then match pick K (columns df) with
       | [(l, s)] => [(l, or_keep conv s)]
       | x => x
       end
  else pick K (columns df).
Proof.
  unfold coerce_column. rewrite select_pick.
  destruct (String.eqb c K) eqn:E.
  - apply String.eqb_eq in E. subst c.
    destruct (pick K (columns df)) as [|[l s] [|]] eqn:Hp; simpl; try exact Hp.
    unfold or_keep. destruct (conv s) as [s'|]; [|exact Hp].
    now rewrite pick_set_column, String.eqb_refl, Hp.
  - destruct (pick c (columns df)) as [|[l s] [|]]; simpl; try reflexivity.
    destruct (conv s) as [s'|]; [|reflexivity].
    now rewrite pick_set_column, E.
Qed.

Section WithPandas.
Context {pandas : Pandas}.

Lemma nrows_coerce_dtypes df : nrows (coerce_dtypes df) = nrows df.
Proof.
  unfold coerce_dtypes. cbn [fold_left]. now rewrite !nrows_coerce_column.
Qed.

Lemma pick_coerce_dtypes K df :
  In K APP_COLUMNS ->
  pick K (columns (coerce_dtypes df)) =
  match pick K (columns df) with
  | [(l, s)] => [(l, coercion K s)]
  | x => x
  end.
Proof.
  intros H. unfold coerce_dtypes. cbn [fold_left].
  rewrite !pick_coerce_column.
  destruct (pick K (columns df)) as [|[l s] [|]];
    repeat (destruct H as [<-|H]; [reflexivity|]); destruct H.
Qed.

End WithPandas.

(** *** The result of [_standardize_columns], column by column *)

Lemma filter_unique {A} (f : A -> string) (l : list A) (k : string) :
  NoDup (map f l) ->
  filter (fun x => String.eqb (f x) k) l =
  match find (fun x => String.eqb (f x) k) l with
  | Some x => [x]
  | None => []
  end.
Proof.
  induction l as [|a l IH]; simpl; [reflexivity|].
  intros Hnd. inversion Hnd as [|? ? Hna Hnd']; subst.
  destruct (String.eqb (f a) k) eqn:E.
  - f_equal. apply String.eqb_eq in E.
    rewrite IH by assumption.
    destruct (find _ l) as [x|] eqn:Hf; [|reflexivity].
    apply find_some in Hf as [Hin Ex]. apply String.eqb_eq in Ex.
    exfalso. apply Hna. rewrite E, <- Ex. now apply in_map.
  - auto.
Qed.

Lemma filter_none {A} (f : A -> bool) l :
  (forall x, In x l -> f x = false) -> filter f l = [].
Proof.
  induction l as [|a l IH]; simpl; intros H; [reflexivity|].
  rewrite (H a) by auto. auto.
Qed.

Lemma flat_map_single {A B} (f : A -> B) l :
  flat_map (fun a => [f a]) l = map f l.
Proof. induction l; simpl; congruence. Qed.

Section WithPandas.
Context {pandas : Pandas}.

Lemma traverse_repeat {A B} (f : A -> option B) a b n :
  f a = Some b -> traverse f (repeat a n) = Some (repeat b n).
Proof. intros H. induction n; simpl; [reflexivity|]. now rewrite H, IHn. Qed.

Lemma date_column_of_integers col : forallb is_int col = true -> date_column col = false.
Proof. destruct col as [|[] col]; simpl; intros H; try discriminate; reflexivity. Qed.

Lemma to_numeric_of_integers col : forallb is_int col = true -> to_numeric col = col.
Proof.
  intros H. unfold to_numeric.
  assert (E : map to_numeric_cell col = col).
  { induction col as [|c col IH]; [reflexivity|].
    simpl in H. apply andb_true_iff in H as [Hc H].
    destruct c; try discriminate. simpl. now rewrite IH. }
  rewrite E, H. reflexivity.
Qed.

(** A column of integers is of the dtype int64 already: the conversion
    returns it. *)
Lemma attempts_to_int_of_integers col :
  forallb is_int col = true -> attempts_to_int col = Some col.
Proof.
  intros H. unfold attempts_to_int.
  rewrite (date_column_of_integers _ H), (to_numeric_of_integers _ H).
  induction col as [|c col IH]; [reflexivity|].
  simpl in H. apply andb_true_iff in H as [Hc H].
  destruct c; try discriminate. simpl. now rewrite (IH H).
Qed.

Lemma attempts_to_int_zeros n :
  attempts_to_int (repeat (CInt 0) n) = Some (repeat (CInt 0) n).
Proof. apply attempts_to_int_of_integers. induction n; [reflexivity|exact IHn]. Qed.

Lemma coercion_default K n :
  coercion K (repeat (default_value K) n) = repeat (default_value K) n.
Proof.
  unfold coercion, default_value.
  destruct (mem K _).
  - unfold or_keep. now rewrite to_datetime_nat.
  - destruct (String.eqb K "Attempts"); [|reflexivity].
    unfold or_keep. now rewrite attempts_to_int_zeros.
Qed.

Lemma pick_standardized T K :
  NoDup (map PyStr.lower (labels T)) -> In K APP_COLUMNS ->
  pick K (columns (coerce_dtypes (ensure_all (rename (rename_label (labels T)) T)))) =
  [(K, expected_column T K)].
Proof.
  intros Hnd HK.
  rewrite pick_coerce_dtypes, pick_ensure_all by assumption.
  unfold rename at 1. cbn [columns]. rewrite pick_rename.
  cbn [nrows rename].
  rewrite (filter_ext_in _
             (fun lc => negb (String.eqb K "LastCallDateTime") &&
                        String.eqb (PyStr.lower (fst lc)) (PyStr.lower K))).
  2:{ intros lc Hlc. apply rename_label_eqb; auto.
      unfold labels. now apply in_map. }
  unfold expected_column, source.
  destruct (String.eqb K "LastCallDateTime") eqn:EK.
  - rewrite filter_none by reflexivity. cbn [map].
    now rewrite coercion_default.
  - cbn [negb andb].
    rewrite (filter_unique (fun lc => PyStr.lower (fst lc)))
      by (unfold labels in Hnd; now rewrite map_map in Hnd).
    destruct (find _ (columns T)) as [[l s]|] eqn:Hf; cbn [map option_map fst snd].
    + apply find_some in Hf as [Hin E]. cbn [fst] in E.
      assert (Hl : rename_label (labels T) l = K).
      { apply String.eqb_eq. rewrite rename_label_eqb; auto.
        - now rewrite EK, E.
        - unfold labels. now apply (in_map fst _ (l, s)). }
      now rewrite Hl.
    + now rewrite coercion_default.
Qed.

(** For a table whose labels differ after lower-casing, the normalized
    table has exactly the twelve application columns, in order, each
    filled from its source column or with its default. *)
Lemma frame_eq a b : nrows a = nrows b -> columns a = columns b -> a = b.
Proof. destruct a, b; simpl; congruence. Qed.

Lemma standardize_unfold T :
  _standardize_columns T =
  reorder APP_COLUMNS
    (coerce_dtypes (ensure_all (rename (rename_label (labels T)) T))).
Proof. reflexivity. Qed.

Lemma nrows_reorder order df : nrows (reorder order df) = nrows df.
Proof. reflexivity. Qed.

Lemma nrows_rename f df : nrows (rename f df) = nrows df.
Proof. reflexivity. Qed.

Lemma columns_reorder order df :
  columns (reorder order df) = flat_map (fun c => pick c (columns df)) order.
Proof. reflexivity. Qed.

Lemma nrows_standardize T : nrows (_standardize_columns T) = nrows T.
Proof.
  rewrite standardize_unfold, nrows_reorder, nrows_coerce_dtypes, nrows_ensure_all.
  apply nrows_rename.
Qed.

Lemma standardize_columns_spec T :
  NoDup (map PyStr.lower (labels T)) ->
  _standardize_columns T =
  mkFrame (nrows T) (map (fun K => (K, expected_column T K)) APP_COLUMNS).
Proof.
  intros Hnd. apply frame_eq.
  - now rewrite nrows_standardize.
  - rewrite standardize_unfold, columns_reorder. 
    change (columns (mkFrame (nrows T) (map (fun K => (K, expected_column T K)) APP_COLUMNS)))
      with (map (fun K => (K, expected_column T K)) APP_COLUMNS).
    rewrite <- flat_map_single. apply flat_map_ext_on.
    intros K HK. apply pick_standardized; assumption.
Qed.
End WithPandas.
(** *** The coercions are idempotent *)

Lemma traverse_idem {A} (f : A -> option A) l l' :
  (forall a b, f a = Some b -> f b = Some b) ->
  traverse f l = Some l' -> traverse f l' = Some l'.
Proof.
  intros Hf. revert l'. induction l as [|a l IH]; simpl; intros l' H.
  - now injection H as <-.
  - destruct (f a) as [b|] eqn:Ha; [|discriminate].
    destruct (traverse f l) as [bs|]; [|discriminate].
    injection H as <-. simpl. now rewrite (Hf _ _ Ha), (IH bs).
Qed.

Lemma traverse_nth {A B} (f : A -> option B) l l' i da db :
  traverse f l = Some l' -> (i < length l)%nat ->
  f (nth i l da) = Some (nth i l' db).
Proof.
  revert l' i. induction l as [|a l IH]; simpl; intros l' i H Hi; [lia|].
  destruct (f a) as [b|] eqn:Ha; [|discriminate].
  destruct (traverse f l) as [bs|]; [|discriminate].
  injection H as <-. destruct i; simpl; [assumption|].
  apply IH; [reflexivity|lia].
Qed.

Lemma traverse_total {A B} (f : A -> option B) l :
  Forall (fun a => f a <> None) l -> exists l', traverse f l = Some l'.
Proof.
  induction 1 as [|a l Ha _ [l' IH]]; simpl; [eauto|].
  destruct (f a); [|contradiction]. rewrite IH. eauto.
Qed.

Section WithPandas.
Context {pandas : Pandas}.

Lemma to_numeric_cell_kind c :
  (exists z, to_numeric_cell c = CInt z) \/ (exists f, to_numeric_cell c = CFloat f).
Proof.
  destruct c; simpl; eauto.
  destruct (parse_number s) as [n|] eqn:Hp; eauto.
  apply parse_number_kind in Hp as [[z ->]|(f & -> & _)]; eauto.
Qed.

Lemma traverse_integers (l l' : list cell) :
  traverse (fun c => astype_int_cell (fillna0 c)) l = Some l' ->
  forallb is_int l' = true.
Proof.
  revert l'. induction l as [|c l IH]; simpl; intros l' H.
  - now injection H as <-.
  - destruct (astype_int_cell (fillna0 c)) as [c'|] eqn:Hc; [|discriminate].
    destruct (traverse _ l) as [cs|]; [|discriminate].
    injection H as <-. simpl. rewrite (IH cs eq_refl), andb_true_r.
    unfold fillna0 in Hc. destruct (isna c); [now injection Hc as <-|].
    destruct c as [s | z | [| neg | q] | | | t]; simpl in Hc; try discriminate;
      now injection Hc as <-.
Qed.

Lemma integers_Forall2 {A} (l : list A) (l' : list cell) :
  Forall2 (fun _ c' => exists z, c' = CInt z) l l' -> forallb is_int l' = true.
Proof. induction 1 as [|a c' l l' [z ->] _ IH]; [reflexivity|exact IH]. Qed.

(** Whatever the conversion returns is a column of integers. *)
Lemma attempts_to_int_integers col col' :
  attempts_to_int col = Some col' -> forallb is_int col' = true.
Proof.
  unfold attempts_to_int. destruct (date_column col) eqn:Hd.
  - intros [= <-]. apply (integers_Forall2 col), dates_to_int_integers.
    destruct col; [discriminate|exact Hd].
  - apply traverse_integers.
Qed.

Lemma attempts_to_int_idem col col' :
  attempts_to_int col = Some col' -> attempts_to_int col' = Some col'.
Proof. intros H. apply attempts_to_int_of_integers, (attempts_to_int_integers _ _ H). Qed.

Lemma traverse_length {A B} (f : A -> option B) l l' :
  traverse f l = Some l' -> length l' = length l.
Proof.
  revert l'. induction l as [|a l IH]; simpl; intros l' H.
  - now injection H as <-.
  - destruct (f a); [|discriminate]. destruct (traverse f l) as [bs|]; [|discriminate].
    injection H as <-. simpl. now rewrite (IH bs).
Qed.

Lemma to_numeric_length col : length (to_numeric col) = length col.
Proof.
  unfold to_numeric. destruct (forallb _ _); now rewrite ?length_map.
Qed.

Lemma attempts_to_int_length col col' :
  attempts_to_int col = Some col' -> length col' = length col.
Proof.
  unfold attempts_to_int. destruct (date_column col) eqn:Hd.
  - intros [= <-]. symmetry. apply (Forall2_length (dates_to_int_integers col ltac:(destruct col; [discriminate|exact Hd]))).
  - intros H. apply traverse_length in H. now rewrite to_numeric_length in H.
Qed.

(** The value of a numeric column at a position. *)
Lemma to_numeric_nth col i :
  nth i (to_numeric col) CNone =
  if (i <? length col)%nat
  then (if forallb is_int (map to_numeric_cell col)
        then to_numeric_cell (nth i col CNone)
        else to_float (to_numeric_cell (nth i col CNone)))
  else CNone.
Proof.
  unfold to_numeric.
  destruct (Nat.ltb_spec i (length col)) as [Hi|Hi].
  - destruct (forallb _ _).
    + rewrite (nth_indep _ CNone (to_numeric_cell CNone)) by (now rewrite length_map).
      apply map_nth.
    + rewrite map_map.
      rewrite (nth_indep _ CNone (to_float (to_numeric_cell CNone))) by (now rewrite length_map).
      apply (map_nth (fun c => to_float (to_numeric_cell c))).
  - destruct (forallb _ _); apply nth_overflow; rewrite ?length_map; exact Hi.
Qed.

(** The conversion raises on an infinite value only. *)
Lemma attempts_to_int_total col :
  forallb (fun c => negb (reads_infinite c)) col = true ->
  exists col', attempts_to_int col = Some col'.
Proof.
  intros Hfin. unfold attempts_to_int. destruct (date_column col); [eauto|].
  apply traverse_total. rewrite forallb_forall in Hfin.
  unfold to_numeric.
  assert (Hcell : forall c, In c col ->
            astype_int_cell (fillna0 (to_numeric_cell c)) <> None /\
            astype_int_cell (fillna0 (to_float (to_numeric_cell c))) <> None).
  { intros c Hc. specialize (Hfin c Hc). apply negb_true_iff in Hfin.
    unfold reads_infinite in Hfin.
    destruct (to_numeric_cell_kind c) as [[z ->]|[f Hf]]; [split; discriminate|].
    rewrite Hf in *. destruct f; try discriminate; split; discriminate. }
  destruct (forallb is_int _).
  - apply Forall_map, Forall_forall. intros c Hc. apply (Hcell c Hc).
  - rewrite map_map. apply Forall_map, Forall_forall. intros c Hc. apply (Hcell c Hc).
Qed.

(** A whole number of at most 53 bits is a double, and the cast gives it
    back. *)
Lemma round_half_even_one n : Float64.round_half_even n 1 = n.
Proof.
  unfold Float64.round_half_even. rewrite Z.mod_1_r, Z.div_1_r. reflexivity.
Qed.

Lemma nearest_pos_whole (n : Z) :
  (0 < n <= 2 ^ 53)%Z ->
  exists k, (0 < k)%Z /\ Float64.nearest_pos n 1 = Qmake (n * k) (Z.to_pos k).
Proof.
  intros Hn. unfold Float64.nearest_pos.
  assert (HL : (Float64.ilog2 n 1 <= 53)%Z).
  { unfold Float64.ilog2. change (Z.log2 1) with 0%Z. rewrite Z.sub_0_r.
    pose proof (Z.log2_nonneg n) as H0. pose proof (Z.log2_le_mono n (2 ^ 53) ltac:(lia)) as H1.
    rewrite Z.log2_pow2 in H1 by lia.
    destruct (0 <=? Z.log2 n)%Z; [destruct (_ <=? _)%Z|destruct (_ <=? _)%Z]; lia. }
  destruct (Z.leb_spec 0 (Float64.ilog2 n 1 - 52)) as [He|He].
  - assert (E : (Float64.ilog2 n 1 = 52 \/ Float64.ilog2 n 1 = 53)%Z) by lia.
    exists 1%Z. split; [lia|]. destruct E as [E|E]; rewrite E.
    + change (1 * 2 ^ (52 - 52))%Z with 1%Z.
      rewrite round_half_even_one. change (2 ^ (52 - 52))%Z with 1%Z.
      unfold inject_Z. now rewrite !Z.mul_1_r.
    + pose proof (Float64Facts.ilog2_lower n 1 ltac:(lia) ltac:(lia)) as [Hhi _].
      cbv zeta in Hhi. rewrite E in Hhi. specialize (Hhi ltac:(lia)).
      assert (n = 2 ^ 53)%Z by lia. subst n. reflexivity.
  - exists (2 ^ (- (Float64.ilog2 n 1 - 52)))%Z. split.
    + apply Z.pow_pos_nonneg; lia.
    + now rewrite round_half_even_one.
Qed.

Lemma float_to_int64_whole (z : Z) :
  (Z.abs z <= 2 ^ 53)%Z -> float_to_int64 (Float64.of_Z z) = z.
Proof.
  intros Hz. unfold Float64.of_Z, Float64.nearest, inject_Z. cbn [Qnum Qden].
  assert (Hcast : forall n k, (0 < k)%Z -> (Z.abs n <= 2 ^ 53)%Z ->
                    float_to_int64 (Qmake (n * k) (Z.to_pos k)) = n).
  { intros n k Hk Hn. unfold float_to_int64. cbn [Qnum Qden].
    rewrite Z2Pos.id by exact Hk. rewrite Z.quot_mul by lia.
    unfold int64, INT64_MIN.
    destruct (Z.leb_spec (- 2 ^ 63) n); [|lia].
    destruct (Z.ltb_spec n (2 ^ 63)); [reflexivity|lia]. }
  destruct z as [|p|p].
  - reflexivity.
  - destruct (nearest_pos_whole (Zpos p) ltac:(lia)) as (k & Hk & ->).
    apply Hcast; assumption.
  - change (- Z.neg p)%Z with (Zpos p).
    destruct (nearest_pos_whole (Zpos p) ltac:(lia)) as (k & Hk & ->).
    unfold Qopp. cbn [Qnum Qden].
    rewrite <- Z.mul_opp_l. apply Hcast; [assumption|lia].
Qed.

(** Where the column holds a whole number of at most 53 bits, the
    converted column holds the same number, whatever the other cells. *)
Lemma attempts_to_int_keeps col col' i z :
  attempts_to_int col = Some col' ->
  nth i col CNone = CInt z -> (Z.abs z <= 2 ^ 53)%Z ->
  nth i col' CNone = CInt z.
Proof.
  intros H Hc Hz.
  assert (Hi : (i < length col)%nat).
  { destruct (Nat.lt_ge_cases i (length col)) as [|Hge]; [assumption|].
    rewrite nth_overflow in Hc by exact Hge. discriminate. }
  unfold attempts_to_int in H. destruct (date_column col) eqn:Hd.
  - exfalso. assert (Hall : forallb is_date col = true)
      by (destruct col; [discriminate|exact Hd]).
    rewrite forallb_forall in Hall.
    specialize (Hall _ (nth_In col CNone Hi)). rewrite Hc in Hall. discriminate.
  - assert (Hi' : (i < length (to_numeric col))%nat) by (now rewrite to_numeric_length).
    pose proof (traverse_nth _ _ _ i CNone CNone H Hi') as Hn. cbv beta in Hn.
    rewrite to_numeric_nth in Hn.
    apply Nat.ltb_lt in Hi. rewrite Hi, Hc in Hn. cbn [to_numeric_cell] in Hn.
    destruct (forallb is_int _); cbn [to_float fillna0 isna astype_int_cell] in Hn.
    + now injection Hn as <-.
    + rewrite (float_to_int64_whole z Hz) in Hn. now injection Hn as <-.
Qed.

Lemma or_keep_idem conv s :
  (forall a b, conv a = Some b -> conv b = Some b) ->
  or_keep conv (or_keep conv s) = or_keep conv s.
Proof.
  intros H. unfold or_keep. destruct (conv s) as [s'|] eqn:E.
  - now rewrite (H _ _ E).
  - now rewrite E.
Qed.

Lemma coercion_idem K s : coercion K (coercion K s) = coercion K s.
Proof.
  unfold coercion. destruct (mem K _).
  - apply or_keep_idem, to_datetime_idem.
  - destruct (String.eqb K "Attempts"); [|reflexivity].
    apply or_keep_idem, attempts_to_int_idem.
Qed.

Lemma coercion_expected T K : coercion K (expected_column T K) = expected_column T K.
Proof.
  unfold expected_column. destruct (source T K).
  - apply coercion_idem.
  - apply coercion_default.
Qed.

Lemma source_standardized n (e : string -> list cell) K :
  In K APP_COLUMNS ->
  source (mkFrame n (map (fun K => (K, e K)) APP_COLUMNS)) K =
  if String.eqb K "LastCallDateTime" then None else Some (e K).
Proof.
  intros H. repeat (destruct H as [<-|H]; [reflexivity|]). destruct H.
Qed.

Lemma app_columns_distinct : NoDup (map PyStr.lower APP_COLUMNS).
Proof.
  repeat (constructor; [simpl; intuition discriminate|]). constructor.
Qed.

(** Normalizing twice is normalizing once, for a table whose labels
    differ after lower-casing. *)
Lemma standardize_idempotent T :
  NoDup (map PyStr.lower (labels T)) ->
  _standardize_columns (_standardize_columns T) = _standardize_columns T.
Proof.
  intros Hnd. rewrite (standardize_columns_spec T Hnd).
  rewrite standardize_columns_spec.
  2:{ unfold labels. cbn [columns]. rewrite (map_map _ fst). cbn [fst].
      rewrite map_id. apply app_columns_distinct. }
  cbn [nrows]. f_equal. apply map_ext_in. intros K HK. f_equal.
  unfold expected_column at 1. rewrite source_standardized by assumption.
  cbn [nrows].
  destruct (String.eqb K "LastCallDateTime") eqn:E.
  - apply String.eqb_eq in E. subst K. reflexivity.
  - apply coercion_expected.
Qed.

End WithPandas.

(** *** Records of a normalized table *)

Lemma nth_rows df i : (i < nrows df)%nat -> nth i (rows df) [] = row_at df i.
Proof.
  intros Hi. unfold rows.
  rewrite (nth_indep _ [] (row_at df 0)) by (rewrite length_map, length_seq; exact Hi).
  rewrite map_nth, seq_nth by exact Hi. reflexivity.
Qed.

Lemma attempts_row_at n (e : string -> list cell) i :
  attempts (row_at (mkFrame n (map (fun K => (K, e K)) APP_COLUMNS)) i) =
  nth i (e "Attempts") CNone.
Proof. reflexivity. Qed.

Section WithPandas.
Context {pandas : Pandas}.

Lemma expected_attempts T :
  expected_column T "Attempts" = or_keep attempts_to_int (attempts_source T).
Proof.
  unfold expected_column, attempts_source. destruct (source T "Attempts").
  - reflexivity.
  - symmetry. apply (coercion_default "Attempts").
Qed.

Lemma attempts_source_length T :
  well_formed T -> length (attempts_source T) = nrows T.
Proof.
  intros Hwf. unfold attempts_source, source. cbn [String.eqb Ascii.eqb Bool.eqb].
  destruct (find _ (columns T)) as [[l s]|] eqn:Hf; cbn [option_map snd].
  - apply find_some in Hf as [Hin _].
    unfold well_formed in Hwf. rewrite Forall_forall in Hwf. apply (Hwf _ Hin).
  - apply repeat_length.
Qed.

(** C4.  Normalization does not raise a negative count to 0.  For a
    well-formed table whose labels differ after lower-casing and whose
    attempts column holds no infinite value, a record whose source value
    is a whole number (of at most 53 bits, so that it is a double as well)
    has that number as its attempts after normalization, whatever its
    sign and whatever the other cells of the column hold. *)
Theorem C4_negative_attempts_survive T i z :
  well_formed T ->
  NoDup (map PyStr.lower (labels T)) ->
  (i < nrows T)%nat ->
  forallb (fun c => negb (reads_infinite c)) (attempts_source T) = true ->
  nth i (attempts_source T) CNone = CInt z ->
  (Z.abs z <= 2 ^ 53)%Z ->
  attempts (nth i (rows (_standardize_columns T)) []) = CInt z.
Proof.
  intros Hwf Hnd Hi Hfin Hc Hz.
  rewrite nth_rows by (now rewrite nrows_standardize).
  rewrite (standardize_columns_spec T Hnd), attempts_row_at, expected_attempts.
  destruct (attempts_to_int_total _ Hfin) as [col' Hcol'].
  unfold or_keep. rewrite Hcol'.
  exact (attempts_to_int_keeps _ _ i z Hcol' Hc Hz).
Qed.

(** C5.  Whatever the table holds under a label that lower-cases to
    [lastcalldatetime], the [LastCallDateTime] column of the normalized
    table is the synthesized column of absent timestamps: the rename step
    turns the label into [LastcallDateTime], which is no application
    column, so the values are dropped instead of being placed in their
    canonical column. *)
Theorem C5_last_call_values_dropped T :
  NoDup (map PyStr.lower (labels T)) ->
  labels (_standardize_columns T) = APP_COLUMNS /\
  select "LastCallDateTime" (_standardize_columns T) = [repeat CNaT (nrows T)].
Proof.
  intros Hnd. rewrite (standardize_columns_spec T Hnd). split; reflexivity.
Qed.

End WithPandas.

(** *** Concrete tables, normalized with the reference conversions *)

Import Examples.
#[local] Existing Instance Sample.pandas.

Lemma NoDup_by_eqb (l : list string) : distinct l = true -> NoDup l.
Proof.
  induction l as [|x l IH]; intros H; constructor.
  - apply andb_true_iff in H as [H _]. apply negb_true_iff in H.
    intros Hin. assert (E : existsb (String.eqb x) l = true).
    { apply existsb_exists. exists x. split; [assumption|apply String.eqb_refl]. }
    congruence.
  - apply IH. now apply andb_true_iff in H as [_ H].
Defined.

Lemma table_attempts_well_formed : well_formed table_attempts.
Proof. repeat constructor. Defined.

(** The first record of [table_attempts] has -3 as its attempts, and
    normalization stores -3. *)
Lemma C4_negative_attempts_survive_witness :
  attempts (nth 0 (rows (_standardize_columns table_attempts)) []) = CInt (-3).
Proof.
  refine (C4_negative_attempts_survive table_attempts 0 (-3) _ _ _ _ _ _).
  - exact table_attempts_well_formed.
  - apply NoDup_by_eqb. reflexivity.
  - simpl. lia.
  - reflexivity.
  - reflexivity.
  - simpl. lia.
Defined.

(** The three records of [table_attempts] after normalization: the
    negative count is kept, the text is read as 0 and the float is
    truncated. *)
Lemma attempts_of_table_attempts :
  select "Attempts" (_standardize_columns table_attempts) = [[CInt (-3); CInt 0; CInt 2]].
Proof. vm_compute. reflexivity. Qed.

(** A table with a filled [LastCallDateTime] column: the normalized table
    has [NaT] in its place. *)
Lemma C5_last_call_values_dropped_witness :
  select "LastCallDateTime" table_last_call =
    [[CTime (mkTimestamp 1741098600000000000 None)]] /\
  select "LastCallDateTime" (_standardize_columns table_last_call) =
    [[CNaT]].
Proof.
  split; [reflexivity|].
  refine (proj2 (C5_last_call_values_dropped table_last_call _)).
  apply NoDup_by_eqb. reflexivity.
Defined.

(** C1.  Normalizing, exporting and normalizing again does not give back
    the normalized table for a table that holds both a [LastCallDateTime]
    and a [lastcalldatetime] column: the first pass keeps the timestamps of
    the former, the second pass renames that column away and puts absent
    timestamps in its place. *)
Theorem C1_round_trip_loses_last_call :
  select "LastCallDateTime" (_standardize_columns table_two_last_call) =
    [[CTime (mkTimestamp 1741098600000000000 None)]] /\
  select "LastCallDateTime"
    (_standardize_columns
       (export_import (_standardize_columns table_two_last_call))) =
    [[CNaT]] /\
  _standardize_columns
     (export_import (_standardize_columns table_two_last_call)) <>
  _standardize_columns table_two_last_call.
Proof.
  split; [|split]; try (vm_compute; reflexivity).
  vm_compute. discriminate.
Qed.

End NormalizerFacts.

(* ------------------------------------------------------------------ *)
(** ** Facts about strings *)

Module StrFacts.
Import PyStr.

#[local] Open Scope string_scope.

Lemma append_empty_r s : s ++ "" = s.
Proof. induction s; simpl; congruence. Qed.

Lemma append_assoc a b c : (a ++ b) ++ c = a ++ b ++ c.
Proof. induction a; simpl; congruence. Qed.

Lemma length_append a b : String.length (a ++ b) = (String.length a + String.length b)%nat.
Proof. induction a; simpl; congruence. Qed.

Lemma startswith_app_cases p s t :
  startswith p (s ++ t) = true ->
  startswith p s = true \/ exists rest, p = s ++ rest.
Proof.
  revert s. induction p as [|a p IH]; intros s H; [now left|].
  destruct s as [|b s]; [right; now exists (String a p)|].
  simpl in *. apply andb_true_iff in H as [Hab H].
  rewrite Hab. apply Ascii.eqb_eq in Hab. subst b.
  destruct (IH _ H) as [Hs|[rest ->]]; [now left|right; now exists rest].
Qed.

Lemma has_char_append c a b : has_char c (a ++ b) = has_char c a || has_char c b.
Proof. induction a as [|x a IH]; simpl; [reflexivity|]. now rewrite IH, orb_assoc. Qed.

Lemma has_char_last c m : has_char c (m ++ String c "") = true.
Proof.
  rewrite has_char_append. simpl. rewrite Ascii.eqb_refl. now rewrite orb_true_r.
Qed.

(** Cutting at the first occurrence of [sep] a text that starts with a
    part [m ++ c] in which [sep] does not occur and whose last character
    [c] is no character of [sep]: the occurrence lies in what follows. *)
Lemma before_append sep m c tail :
  contains sep (m ++ String c "") = false ->
  has_char c sep = false ->
  before sep ((m ++ String c "") ++ tail) = (m ++ String c "") ++ before sep tail.
Proof.
  intros Hfree Hc.
  assert (Hstart : forall u, startswith sep (u ++ String c "") = false ->
                             startswith sep ((u ++ String c "") ++ tail) = false).
  { intros u Hu. destruct (startswith sep ((u ++ String c "") ++ tail)) eqn:E; [|reflexivity].
    apply startswith_app_cases in E as [E|[rest ->]]; [congruence|].
    rewrite has_char_append, has_char_last in Hc. discriminate. }
  induction m as [|b m IH].
  - simpl in *. apply orb_false_iff in Hfree as [Hs _].
    change (String c tail) with (("" ++ String c "") ++ tail).
    now rewrite (Hstart "" Hs).
  - simpl in Hfree. apply orb_false_iff in Hfree as [Hs Hfree].
    change ((String b m ++ String c "") ++ tail)
      with (String b ((m ++ String c "") ++ tail)).
    cbn [before].
    change (String b ((m ++ String c "") ++ tail))
      with ((String b m ++ String c "") ++ tail).
    rewrite (Hstart (String b m) Hs).
    now rewrite IH.
Qed.

Lemma join_cons sep a ls : ls <> [] -> join sep (a :: ls) = a ++ sep ++ join sep ls.
Proof. destruct ls; [congruence|reflexivity]. Qed.

Lemma join_app sep l1 l2 :
  l1 <> [] -> l2 <> [] ->
  join sep (l1 ++ l2)%list = join sep l1 ++ sep ++ join sep l2.
Proof.
  intros H1 H2. induction l1 as [|a l1 IH]; [congruence|].
  destruct l1 as [|b l1].
  - simpl app. now rewrite join_cons.
  - change ((a :: b :: l1) ++ l2)%list with (a :: ((b :: l1) ++ l2)%list).
    rewrite join_cons by discriminate. rewrite IH by discriminate.
    rewrite (join_cons sep a (b :: l1)) by discriminate.
    now rewrite !append_assoc.
Qed.

Lemma join_concat sep (bodies : list (list string)) :
  Forall (fun b => b <> []) bodies ->
  join sep (map (join sep) bodies) = join sep (List.concat bodies).
Proof.
  induction 1 as [|b bs Hb Hbs IH]; [reflexivity|].
  destruct bs as [|b' bs].
  - simpl. now rewrite app_nil_r.
  - cbn [map List.concat] in *. rewrite join_cons by discriminate.
    rewrite IH. rewrite (join_app sep b (b' ++ List.concat bs)%list); [reflexivity|assumption|].
    inversion Hbs as [|? ? Hb' _]; subst. destruct b'; [congruence|discriminate].
Qed.

End StrFacts.

(* ------------------------------------------------------------------ *)
(** ** The calendar *)

Module ClockFacts.
Import Frame Clock.

(** Known dates: the epoch was a Thursday, 2000 had a 29th of February,
    and the meeting of the examples is on a Tuesday afternoon. *)
Lemma calendar_examples :
  day_name (naive 1970 1 1 0 0 0) = "Thursday" /\
  str_timestamp (mkTimestamp (ts_value (naive 2000 2 28 23 59 59) + NS_PER_SECOND) None) =
    "2000-02-29 00:00:00" /\
  str_timestamp (mkTimestamp (ts_value (naive 1970 1 1 0 0 0) - 1) None) =
    "1969-12-31 23:59:59.999999999" /\
  day_name (naive 2025 3 4 14 30 0) = "Tuesday" /\
  long_date (naive 2025 3 4 14 30 0) = "March 04, 2025" /\
  PyStr.lstrip_zero (clock12 (naive 2025 3 4 14 30 0)) = "2:30 PM" /\
  ics_stamp (ts_value (naive 2025 3 4 14 30 0)) = "20250304T143000Z".
Proof. repeat split; vm_compute; reflexivity. Qed.

End ClockFacts.

(* ------------------------------------------------------------------ *)
(** ** The template renderer *)

Module TemplateFacts.
Import Frame Py Template.

Section WithRuntime.
Context {pandas : Pandas} {python : Python}.

(** Each template is substituted on its own, and a failed substitution
    leaves the template as it was written. *)
Lemma render_text_name_no_meeting r n subject body :
  row_get "Name" (CStr "") r = CStr n ->
  isna (row_get "MeetingDateTime" CNone r) = true ->
  exists first,
    _first_name (CStr n) = Ok first /\
    _render_template r subject body =
    let mapping := bindings_without_meeting n first (row_get "Company" (CStr "") r) in
    Ok (try_except (format subject mapping) subject,
        try_except (format body mapping) body).
Proof.
  intros Hn Hm. unfold _render_template. rewrite Hn.
  assert (Hf : exists first, _first_name (CStr n) = Ok first).
  { unfold _first_name. destruct (truthy (CStr n)); eauto. }
  destruct Hf as [first Hf]. exists first. split; [assumption|].
  rewrite Hf. unfold _fmt_date, _fmt_time, fmt_with. rewrite Hm. reflexivity.
Qed.

Lemma format_unknown_placeholder n first company :
  format "Hi {unknown_field}" (bindings_without_meeting n first company) = Raised KeyError.
Proof. reflexivity. Qed.

Lemma format_first_name n first company :
  format "Hi {first_name}" (bindings_without_meeting n first company) = Ok ("Hi " ++ first)%string.
Proof.
  unfold format. simpl. now rewrite StrFacts.append_empty_r.
Qed.

(** The two renderings the specification gives as examples. *)
Lemma render_jane_doe :
  _render_template [("Name", CStr "Jane Doe")] "Hi {first_name}" "Hi {unknown_field}" =
  Ok ("Hi Jane", "Hi {unknown_field}").
Proof. reflexivity. Qed.

(** C6.  Rendering does raise: for a record whose name is the missing
    value [nan] (an empty Name cell of an imported sheet), [_first_name]
    calls [.strip()] on a float, outside the two [try] blocks, and the
    [AttributeError] reaches the caller whatever the templates are. *)
Theorem C6_render_raises_on_missing_name (rest : row) (subject body : string) :
  _render_template (("Name", CFloat FNaN) :: rest) subject body = Raised AttributeError.
Proof. reflexivity. Qed.

End WithRuntime.

(** The failing record as the program meets it: a sheet with an empty
    Name cell is imported, normalization leaves the [nan] where it is, and
    rendering the record raises. *)
Lemma render_after_import_raises :
  @_render_template Sample.pandas Sample.python
    (nth 1 (rows (@Normalizer._standardize_columns Sample.pandas Examples.table_blank_name)) [])
    "Hi {first_name}" "See you, {first_name}" =
  Raised AttributeError.
Proof. vm_compute. reflexivity. Qed.

End TemplateFacts.

(* ------------------------------------------------------------------ *)
(** ** The calendar invite encoder *)

Module InviteFacts.
Import Frame Py Invite.

#[local] Open Scope string_scope.

Section WithRuntime.
Context {pandas : Pandas} {python : Python}.

Lemma document_not_empty ls : PyStr.join CRLF ls ++ CRLF <> "".
Proof. destruct (PyStr.join CRLF ls); discriminate. Qed.

Lemma ics_absent r cfg uid now :
  isna (meeting r) = true -> _ics_event_bytes r cfg uid now = Ok "".
Proof.
  unfold meeting, _ics_event_bytes, ics_lines. intros H. now rewrite H.
Qed.

Lemma ics_zone_failure r cfg uid now t e :
  meeting r = CTime t -> start_utc (tzname cfg) t = Raised e ->
  _ics_event_bytes r cfg uid now = Raised e.
Proof.
  unfold meeting, _ics_event_bytes, ics_lines. intros H Hs.
  rewrite H. cbn [isna]. now rewrite Hs.
Qed.

Lemma ics_description_failure r cfg uid now t start e :
  meeting r = CTime t -> start_utc (tzname cfg) t = Ok start ->
  description_of r cfg = Raised e ->
  _ics_event_bytes r cfg uid now = Raised e.
Proof.
  unfold meeting, description_of, _ics_event_bytes, ics_lines. intros H Hs Hd.
  rewrite H. cbn [isna]. rewrite Hs. cbn [bind]. now rewrite Hd.
Qed.

Lemma ics_document r cfg uid now t start description :
  meeting r = CTime t -> start_utc (tzname cfg) t = Ok start ->
  description_of r cfg = Ok description ->
  exists lines,
    _ics_event_bytes r cfg uid now = Ok (PyStr.join CRLF lines ++ CRLF) /\
    nth 8 lines "" = "DTSTART:" ++ Clock.ics_stamp start /\
    nth 9 lines "" =
      "DTEND:" ++
      Clock.ics_stamp (start + duration_min cfg * 60 * Clock.NS_PER_SECOND)%Z.
Proof.
  unfold meeting, description_of, _ics_event_bytes, ics_lines. intros H Hs Hd.
  rewrite H. cbn [isna]. rewrite Hs. cbn [bind]. rewrite Hd. cbn [bind].
  destruct (String.eqb (PyStr.strip (Template.str_cell (row_get "Email" (CStr "") r))) "");
    eexists; (split; [reflexivity|split; reflexivity]).
Qed.

Lemma ics_not_a_timestamp r cfg uid now :
  isna (meeting r) = false -> (forall t, meeting r <> CTime t) ->
  _ics_event_bytes r cfg uid now = Raised AttributeError.
Proof.
  unfold meeting, _ics_event_bytes, ics_lines. intros H Ht.
  rewrite H. destruct (row_get "MeetingDateTime" CNaT r); try reflexivity.
  now destruct (Ht t).
Qed.

(** C2.  The encoder returns the empty result exactly when the record has
    no meeting timestamp.  For a record with a meeting timestamp the start
    of the event is the wall-clock time read in the given zone when the
    timestamp is naive and the timestamp itself when it carries a zone;
    whenever the zone resolves and the description can be substituted a
    document is produced, whose DTSTART is the UTC start and whose DTEND is
    [duration_min] minutes later.  A naive 2025-03-04 14:30 in a zone that
    is five hours behind UTC at that time, with a duration of 30 minutes,
    gives 20250304T193000Z and 20250304T200000Z. *)
Theorem C2_invite_times r cfg uid now :
  (_ics_event_bytes r cfg uid now = Ok "" <-> isna (meeting r) = true) /\
  (forall t, meeting r = CTime t ->
     (ts_offset t = None ->
      forall zone, zone_info (tzname cfg) = Some zone ->
        start_utc (tzname cfg) t =
        Ok (ts_value t - zone (ts_value t / Clock.NS_PER_SECOND) * Clock.NS_PER_SECOND)%Z) /\
     (forall off, ts_offset t = Some off -> start_utc (tzname cfg) t = Ok (ts_value t)) /\
     (forall start description,
        start_utc (tzname cfg) t = Ok start ->
        description_of r cfg = Ok description ->
        exists lines,
          _ics_event_bytes r cfg uid now = Ok (PyStr.join CRLF lines ++ CRLF) /\
          nth 8 lines "" = "DTSTART:" ++ Clock.ics_stamp start /\
          nth 9 lines "" =
            "DTEND:" ++
            Clock.ics_stamp (start + duration_min cfg * 60 * Clock.NS_PER_SECOND)%Z)) /\
  (forall zone,
     zone_info "America/New_York" = Some zone ->
     zone (ts_value (Clock.naive 2025 3 4 14 30 0) / Clock.NS_PER_SECOND)%Z = (-5 * 3600)%Z ->
     exists start,
       start_utc "America/New_York" (Clock.naive 2025 3 4 14 30 0) = Ok start /\
       Clock.ics_stamp start = "20250304T193000Z" /\
       Clock.ics_stamp (start + 30 * 60 * Clock.NS_PER_SECOND)%Z = "20250304T200000Z").
Proof.
  split; [|split].
  - split.
    + intros H. destruct (isna (meeting r)) eqn:Hna; [reflexivity|exfalso].
      destruct (meeting r) as [s | z | f | | | t] eqn:Hm;
        try (rewrite ics_not_a_timestamp in H;
             [discriminate
             |rewrite Hm; exact Hna
             |intros t' Ht'; rewrite Hm in Ht'; discriminate]).
      destruct (start_utc (tzname cfg) t) as [start|e] eqn:Hs.
      * destruct (description_of r cfg) as [description|e] eqn:Hd.
        -- destruct (ics_document r cfg uid now t start description Hm Hs Hd)
             as (lines & Hdoc & _).
           rewrite Hdoc in H. injection H as H. now apply document_not_empty in H.
        -- rewrite (ics_description_failure r cfg uid now t start e Hm Hs Hd) in H.
           discriminate.
      * rewrite (ics_zone_failure r cfg uid now t e Hm Hs) in H. discriminate.
    + apply ics_absent.
  - intros t Hm. split; [|split].
    + intros Hnaive zone Hz. unfold start_utc. now rewrite Hnaive, Hz.
    + intros off Hoff. unfold start_utc. now rewrite Hoff.
    + intros start description. now apply ics_document.
  - intros zone Hz Hoff. eexists. split.
    + unfold start_utc. cbn [ts_offset Clock.naive]. rewrite Hz. reflexivity.
    + cbn [ts_value Clock.naive] in *. rewrite Hoff. split; vm_compute; reflexivity.
Qed.

(** C7.  A failure of the substitution into the description template is
    not caught: it leaves [_ics_event_bytes] as the exception that
    [str.format] raised. *)
Theorem C7_description_failure_propagates r cfg uid now t start e :
  meeting r = CTime t ->
  start_utc (tzname cfg) t = Ok start ->
  description_of r cfg = Raised e ->
  _ics_event_bytes r cfg uid now = Raised e.
Proof. apply ics_description_failure. Qed.

(** C9 (as amended).  For a record whose meeting timestamp is naive, a
    zone name that cannot be resolved makes the encoder raise. *)
Theorem C9_unknown_zone_raises_for_naive r cfg uid now t :
  meeting r = CTime t ->
  ts_offset t = None ->
  zone_info (tzname cfg) = None ->
  _ics_event_bytes r cfg uid now = Raised ZoneInfoNotFoundError.
Proof.
  intros Hm Hnaive Hz. apply (ics_zone_failure r cfg uid now t); [assumption|].
  unfold start_utc. now rewrite Hnaive, Hz.
Qed.

End WithRuntime.

(** *** The bulk document *)

Lemma cut_begin x :
  PyStr.after "BEGIN:VEVENT"
    ((PyStr.join CRLF calendar_header ++ CRLF) ++ "BEGIN:VEVENT" ++ x) = Some x.
Proof. reflexivity. Qed.

Lemma inner_text_shape inner :
  exists m, CRLF ++ PyStr.join CRLF inner ++ CRLF = m ++ LF.
Proof.
  exists (CRLF ++ PyStr.join CRLF inner ++ String (ascii_of_nat 13) "").
  unfold CRLF, LF. now rewrite !StrFacts.append_assoc.
Qed.

(** Cutting the event out of its document by the markers gives back the
    event's lines, when no marker occurs inside the event. *)
Lemma vevent_block_document inner :
  inner <> [] ->
  marker_free ("BEGIN:VEVENT" :: inner ++ ["END:VEVENT"])%list = true ->
  vevent_block
    (PyStr.join CRLF
       (calendar_header ++ "BEGIN:VEVENT" :: inner ++ ["END:VEVENT"; "END:VCALENDAR"])%list
     ++ CRLF) =
  Some (PyStr.join CRLF ("BEGIN:VEVENT" :: inner ++ ["END:VEVENT"])%list).
Proof.
  intros Hne Hfree.
  unfold marker_free, inner_text in Hfree. cbn [tl] in Hfree.
  rewrite removelast_last in Hfree.
  cbn [forallb markers] in Hfree.
  apply andb_true_iff in Hfree as [Hbv Hfree].
  apply andb_true_iff in Hfree as [Hev Hfree].
  apply andb_true_iff in Hfree as [Hec _].
  apply negb_true_iff in Hbv, Hev, Hec.
  destruct (inner_text_shape inner) as [m Hm].
  rewrite Hm in Hbv, Hev, Hec.
  set (M := CRLF ++ PyStr.join CRLF inner ++ CRLF) in *.
  assert (Hdoc :
    PyStr.join CRLF
      (calendar_header ++ "BEGIN:VEVENT" :: inner ++ ["END:VEVENT"; "END:VCALENDAR"])%list
    ++ CRLF =
    (PyStr.join CRLF calendar_header ++ CRLF) ++ "BEGIN:VEVENT" ++
    M ++ "END:VEVENT" ++ CRLF ++ "END:VCALENDAR" ++ CRLF).
  { rewrite StrFacts.join_app by (try discriminate; destruct inner; discriminate).
    rewrite StrFacts.join_cons by (destruct inner; discriminate).
    rewrite StrFacts.join_app by (assumption || discriminate).
    unfold M. cbn [PyStr.join]. now rewrite !StrFacts.append_assoc. }
  assert (Hbody :
    PyStr.join CRLF ("BEGIN:VEVENT" :: inner ++ ["END:VEVENT"])%list =
    "BEGIN:VEVENT" ++ M ++ "END:VEVENT").
  { rewrite StrFacts.join_cons by (destruct inner; discriminate).
    rewrite StrFacts.join_app by (assumption || discriminate).
    unfold M. cbn [PyStr.join]. now rewrite !StrFacts.append_assoc. }
  rewrite Hdoc, Hbody. unfold vevent_block, PyStr.second_piece.
  rewrite cut_begin. cbn [option_map].
  rewrite Hm. unfold LF.
  rewrite (StrFacts.before_append "BEGIN:VEVENT" m _ _ Hbv eq_refl).
  change (PyStr.before "BEGIN:VEVENT" ("END:VEVENT" ++ CRLF ++ "END:VCALENDAR" ++ CRLF))
    with ("END:VEVENT" ++ CRLF ++ "END:VCALENDAR" ++ CRLF).
  rewrite (StrFacts.before_append "END:VCALENDAR" m _ _ Hec eq_refl).
  change (PyStr.before "END:VCALENDAR" ("END:VEVENT" ++ CRLF ++ "END:VCALENDAR" ++ CRLF))
    with ("END:VEVENT" ++ CRLF).
  rewrite (StrFacts.before_append "END:VEVENT" m _ _ Hev eq_refl).
  change (PyStr.before "END:VEVENT" ("END:VEVENT" ++ CRLF)) with "".
  now rewrite StrFacts.append_empty_r.
Qed.

Lemma event_body_shape inner :
  event_body
    (calendar_header ++ "BEGIN:VEVENT" :: inner ++ ["END:VEVENT"; "END:VCALENDAR"])%list =
  ("BEGIN:VEVENT" :: inner ++ ["END:VEVENT"])%list.
Proof.
  unfold event_body. rewrite removelast_app by discriminate.
  change ("BEGIN:VEVENT" :: inner ++ ["END:VEVENT"; "END:VCALENDAR"])%list
    with (("BEGIN:VEVENT" :: inner) ++ ["END:VEVENT"; "END:VCALENDAR"])%list.
  rewrite removelast_app by discriminate. reflexivity.
Qed.

Section Bulk.
Context {pandas : Pandas} {python : Python}.

Lemma ics_lines_shape r cfg uid now lines :
  ics_lines r cfg uid now = Ok (Some lines) ->
  isna (meeting r) = false /\
  exists inner,
    inner <> [] /\
    lines =
    (calendar_header ++ "BEGIN:VEVENT" :: inner ++ ["END:VEVENT"; "END:VCALENDAR"])%list.
Proof.
  unfold ics_lines, meeting.
  destruct (isna (row_get "MeetingDateTime" CNaT r)); [discriminate|].
  destruct (row_get "MeetingDateTime" CNaT r); try discriminate.
  destruct (start_utc (tzname cfg) t); [|discriminate]. cbn [bind].
  destruct (Template.format _ _); [|discriminate]. cbn [bind].
  destruct (String.eqb _ ""); intros [= <-]; (split; [reflexivity|]);
    match goal with
    | |- exists inner, _ /\ ?l = _ =>
        exists (skipn 6 (removelast (removelast l)))
    end; (split; [discriminate|reflexivity]).
Qed.

Lemma ics_lines_none r cfg uid now :
  ics_lines r cfg uid now = Ok None -> isna (meeting r) = true.
Proof.
  unfold ics_lines, meeting.
  destruct (isna (row_get "MeetingDateTime" CNaT r)); [reflexivity|].
  destruct (row_get "MeetingDateTime" CNaT r); try discriminate.
  destruct (start_utc (tzname cfg) t); [|discriminate]. cbn [bind].
  destruct (Template.format _ _); discriminate.
Qed.

Lemma collect_events_bodies cfg uid_of now_of records :
  forall i bodies,
    collect_bodies records cfg uid_of now_of i = Ok bodies ->
    Forall (fun b => marker_free b = true) bodies ->
    exists events,
      collect_events records cfg uid_of now_of i = Ok events /\
      blocks_of events = map (PyStr.join CRLF) bodies /\
      length events = length bodies /\
      Forall (fun b => b <> []) bodies.
Proof.
  induction records as [|r rest IH]; intros i bodies Hb Hfree.
  - injection Hb as <-. exists []. repeat split; constructor.
  - cbn [collect_bodies collect_events] in *. unfold _ics_event_bytes.
    destruct (ics_lines r cfg (uid_of i) (now_of i)) as [[ls|]|e] eqn:Hl;
      cbn [bind] in *; [| |discriminate].
    + destruct (collect_bodies rest cfg uid_of now_of (S i)) as [bodies'|e] eqn:Hrest;
        cbn [bind] in Hb; [|discriminate].
      injection Hb as <-. inversion Hfree as [|? ? Hfree1 Hfree']; subst.
      destruct (IH _ _ Hrest Hfree') as (events & -> & Hblocks & Hlen & Hne).
      cbn [bind].
      destruct (String.eqb (PyStr.join CRLF ls ++ CRLF) "") eqn:E.
      { apply String.eqb_eq in E. now apply document_not_empty in E. }
      apply ics_lines_shape in Hl as (_ & inner & Hinner & ->).
      rewrite event_body_shape in *.
      eexists. split; [reflexivity|]. cbn [blocks_of map length].
      rewrite vevent_block_document by assumption.
      repeat split; [now rewrite Hblocks|now rewrite Hlen|].
      constructor; [discriminate|assumption].
    + destruct (collect_bodies rest cfg uid_of now_of (S i)) as [bodies'|e] eqn:Hrest;
        cbn [bind] in Hb; [|discriminate].
      injection Hb as <-.
      destruct (IH _ _ Hrest Hfree) as (events & -> & Hblocks & Hlen & Hne).
      cbn [bind String.eqb]. eexists. split; [reflexivity|]. auto.
Qed.

Lemma collect_bodies_count cfg uid_of now_of records :
  forall i bodies,
    collect_bodies records cfg uid_of now_of i = Ok bodies ->
    length bodies = length (filter (fun r => negb (isna (meeting r))) records).
Proof.
  induction records as [|r rest IH]; intros i bodies Hb.
  - now injection Hb as <-.
  - cbn [collect_bodies filter] in *.
    destruct (ics_lines r cfg (uid_of i) (now_of i)) as [[ls|]|e] eqn:Hl;
      cbn [bind] in *; [| |discriminate];
      (destruct (collect_bodies rest cfg uid_of now_of (S i)) as [bodies'|e'] eqn:Hrest;
       cbn [bind] in Hb; [|discriminate]);
      injection Hb as <-.
    + apply ics_lines_shape in Hl as [-> _]. simpl. f_equal. eauto.
    + apply ics_lines_none in Hl as ->. simpl. eauto.
Qed.

(** C8 (as amended).  When every record of the collection can be encoded
    and no marker occurs inside an event, the bulk document is the
    composition of the events: one header, the VEVENT of every record that
    has a meeting timestamp, in order, one footer.  There is one VEVENT
    for each such record; when there is none, no document is produced. *)
Theorem C8_bulk_is_composition records cfg uid_of now_of bodies :
  collect_bodies records cfg uid_of now_of 0 = Ok bodies ->
  Forall (fun b => marker_free b = true) bodies ->
  bulk_bytes records cfg uid_of now_of =
    Ok match bodies with
       | [] => None
       | _ => Some (compose_calendar bodies)
       end /\
  length bodies = length (filter (fun r => negb (isna (meeting r))) records).
Proof.
  intros Hb Hfree. split; [|now apply (collect_bodies_count cfg uid_of now_of records 0)].
  destruct (collect_events_bodies cfg uid_of now_of records 0 bodies Hb Hfree)
    as (events & Hev & Hblocks & Hlen & Hne).
  unfold bulk_bytes. rewrite Hev. cbn [bind]. f_equal.
  destruct events as [|e events], bodies as [|b bodies]; try discriminate; [reflexivity|].
  f_equal. unfold compose_calendar. f_equal. rewrite Hblocks.
  assert (Hend : forall l : list string, (l ++ ["END:VCALENDAR"])%list <> [])
    by (intros [|]; discriminate).
  assert (Hcat : List.concat (b :: bodies) <> []).
  { inversion Hne as [|? ? Hb0 _]; subst. destruct b; [congruence|discriminate]. }
  rewrite (StrFacts.join_app CRLF calendar_header
             (map (PyStr.join CRLF) (b :: bodies) ++ ["END:VCALENDAR"])%list)
    by (discriminate || apply Hend).
  rewrite (StrFacts.join_app CRLF calendar_header
             (List.concat (b :: bodies) ++ ["END:VCALENDAR"])%list)
    by (discriminate || apply Hend).
  rewrite (StrFacts.join_app CRLF (map (PyStr.join CRLF) (b :: bodies)))
    by discriminate.
  rewrite (StrFacts.join_app CRLF (List.concat (b :: bodies)))
    by (assumption || discriminate).
  rewrite (StrFacts.join_concat CRLF (b :: bodies) Hne). reflexivity.
Qed.

End Bulk.

(** *** Concrete records, encoded with the reference runtime *)

Import Examples.
#[local] Existing Instance Sample.pandas.
#[local] Existing Instance Sample.python.

(** The scenario of the specification: Ana Lopez of Acme, 2025-03-04
    14:30 in New York, 30 minutes. *)
Lemma C2_invite_times_witness :
  exists lines,
    _ics_event_bytes ana (sidebar "America/New_York" default_description) "uid" 0 =
      Ok (PyStr.join CRLF lines ++ CRLF) /\
    nth 8 lines "" = "DTSTART:20250304T193000Z" /\
    nth 9 lines "" = "DTEND:20250304T200000Z".
Proof.
  destruct (C2_invite_times ana (sidebar "America/New_York" default_description) "uid" 0)
    as (_ & Hdoc & _).
  destruct (Hdoc (Clock.naive 2025 3 4 14 30 0) eq_refl) as (_ & _ & Hlines).
  exact (Hlines _ _ eq_refl eq_refl).
Defined.

(** A description template with a placeholder the encoder does not bind. *)
Lemma C7_description_failure_propagates_witness :
  _ics_event_bytes ana (sidebar "America/New_York" "Hi {first_name}") "uid" 0 =
  Raised KeyError.
Proof.
  refine (C7_description_failure_propagates ana _ "uid" 0 _ _ KeyError _ _ _);
    reflexivity.
Defined.

(** The same record with a zone name that is in no database. *)
Lemma C9_unknown_zone_raises_for_naive_witness :
  _ics_event_bytes ana (sidebar "Mars/Phobos" default_description) "uid" 0 =
  Raised ZoneInfoNotFoundError.
Proof.
  refine (C9_unknown_zone_raises_for_naive ana _ "uid" 0 _ _ _ _); reflexivity.
Defined.

(** C9 as stated fails: for a timestamp that carries a zone the zone name
    is never looked up, and an invite is produced. *)
Lemma C9_zone_name_unused_with_zone :
  ~ (forall r cfg uid now t,
       meeting r = CTime t -> zone_info (tzname cfg) = None ->
       exists e, _ics_event_bytes r cfg uid now = Raised e).
Proof.
  intros H.
  destruct (H ana_with_zone (sidebar "Mars/Phobos" default_description) "uid" 0%Z _
              eq_refl eq_refl) as [e He].
  vm_compute in He. discriminate.
Qed.

(** Three records, the second without a meeting: the bulk document is
    the composition of the two events. *)
Lemma C8_bulk_is_composition_witness :
  bulk_bytes [ana; bo; ana] new_york (fun _ => "uid") (fun _ => 0%Z) =
  bulk_structured [ana; bo; ana] new_york (fun _ => "uid") (fun _ => 0%Z).
Proof.
  pose (bodies :=
          match collect_bodies [ana; bo; ana] new_york (fun _ => "uid") (fun _ => 0%Z) 0 with
          | Ok bodies => bodies
          | Raised _ => []
          end).
  assert (Hbodies :
            collect_bodies [ana; bo; ana] new_york (fun _ => "uid") (fun _ => 0%Z) 0 =
            Ok bodies) by (vm_compute; reflexivity).
  assert (Hfree : Forall (fun b => marker_free b = true) bodies)
    by (vm_compute; repeat constructor).
  destruct (C8_bulk_is_composition _ _ _ _ bodies Hbodies Hfree) as [Hdoc _].
  unfold bulk_structured. rewrite Hbodies. exact Hdoc.
Defined.

(** C8 as stated fails twice.  For a collection without any meeting no
    document is produced at all; and when a marker occurs in a record's
    text, the event that is cut out of the document ends at that marker,
    so that the bulk document is not the composition of the events. *)
Lemma C8_bulk_differs_from_composition :
  bulk_bytes [bo] new_york (fun _ => "uid") (fun _ => 0%Z) = Ok None /\
  bulk_structured [bo] new_york (fun _ => "uid") (fun _ => 0%Z) =
    Ok (Some (compose_calendar [])) /\
  bulk_bytes [ana_with_marker] new_york (fun _ => "uid") (fun _ => 0%Z) <>
  bulk_structured [ana_with_marker] new_york (fun _ => "uid") (fun _ => 0%Z).
Proof.
  split; [reflexivity|split; [reflexivity|]].
  intros H.
  apply (f_equal (fun r => match r with
                           | Ok (Some doc) => String.length doc
                           | _ => 0%nat
                           end)) in H.
  vm_compute in H. discriminate.
Qed.

End InviteFacts.

(* ------------------------------------------------------------------ *)
(** ** The analytics aggregator *)

Module AnalyticsFacts.
Import Frame Py Analytics.

(** *** Sorting *)

Lemma precedes_ranks a b : precedes a b = true <-> ranks_before a b.
Proof.
  unfold precedes, ranks_before.
  rewrite orb_true_iff, andb_true_iff, Z.ltb_lt, Z.eqb_eq, Nat.leb_le. tauto.
Qed.

Lemma ranks_total a b : precedes a b = false -> ranks_before b a.
Proof.
  unfold precedes, ranks_before. intros H.
  apply orb_false_iff in H as [H1 H2]. apply Z.ltb_ge in H1.
  apply andb_false_iff in H2 as [H2|H2].
  - apply Z.eqb_neq in H2. left. lia.
  - apply Nat.leb_gt in H2.
    destruct (Z.eq_dec (yes_rate a) (yes_rate b)); [right|left]; lia.
Qed.

Lemma ranks_trans a b c : ranks_before a b -> ranks_before b c -> ranks_before a c.
Proof. unfold ranks_before. intros [H1|[H1 H1']] [H2|[H2 H2']]; (left; lia) || (right; lia). Qed.

Lemma insert_row_perm a l : Permutation (a :: l) (insert_row a l).
Proof.
  induction l as [|b l IH]; simpl; [reflexivity|].
  destruct (precedes a b); [reflexivity|].
  rewrite perm_swap. now constructor.
Qed.

Lemma sort_rows_perm l : Permutation l (sort_rows l).
Proof.
  induction l as [|a l IH]; simpl; [constructor|].
  rewrite <- insert_row_perm. now constructor.
Qed.

Lemma insert_row_sorted a l :
  StronglySorted ranks_before l -> StronglySorted ranks_before (insert_row a l).
Proof.
  induction 1 as [|b l Hs IH Hb]; simpl.
  - repeat constructor.
  - destruct (precedes a b) eqn:E.
    + constructor; [now constructor|].
      apply precedes_ranks in E. constructor; [assumption|].
      eapply Forall_impl; [|exact Hb]. intros c. now apply ranks_trans.
    + constructor; [assumption|].
      eapply Permutation_Forall; [apply insert_row_perm|].
      constructor; [now apply ranks_total|assumption].
Qed.

Lemma sort_rows_sorted l : StronglySorted ranks_before (sort_rows l).
Proof.
  induction l as [|a l IH]; simpl; [constructor|]. now apply insert_row_sorted.
Qed.

Lemma firstn_sorted {A} (R : A -> A -> Prop) k l :
  StronglySorted R l -> StronglySorted R (firstn k l).
Proof.
  intros H. revert k. induction H as [|a l Hs IH Ha]; intros [|k]; simpl; try constructor.
  - apply IH.
  - rewrite Forall_forall in *. intros x Hx. apply Ha.
    rewrite <- (firstn_skipn k l). apply in_or_app. now left.
Qed.

Lemma firstn_subset {A} k (l : list A) x : In x (firstn k l) -> In x l.
Proof.
  intros H. rewrite <- (firstn_skipn k l). apply in_or_app. now left.
Qed.

(** *** Groups *)

Lemma insert_key_In k x keys : In k (insert_key x keys) <-> k = x \/ In k keys.
Proof.
  induction keys as [|y keys IH]; simpl; [intuition|].
  destruct (String.eqb x y) eqn:E.
  - apply String.eqb_eq in E. subst. simpl. intuition.
  - destruct (String.ltb x y); simpl; [intuition|].
    rewrite IH. intuition.
Qed.

Lemma sorted_keys_In k l : In k (sorted_keys l) <-> In k l.
Proof.
  induction l as [|x l IH]; simpl; [tauto|].
  rewrite insert_key_In, IH. intuition.
Qed.

Section Groups.
Context {A : Type} (key_of : A -> string) (att is_yes : A -> bool) (rows : list A).

#[local] Abbreviation group_of := (Analytics.group_of key_of att is_yes rows).

Lemma groups_map :
  map (summarize att is_yes) (group_by key_of rows) =
  map group_of (sorted_keys (map key_of rows)).
Proof. unfold group_by. now rewrite map_map. Qed.

Lemma rated_groups_In x :
  In x (rated_groups key_of att is_yes rows) ->
  exists k,
    In k (map key_of rows) /\
    x = with_rate (group_of k) /\
    (0 < attempted (group_of k))%nat.
Proof.
  unfold rated_groups. rewrite groups_map, in_map_iff.
  intros (g & <- & Hg). apply filter_In in Hg as [Hg Hpos].
  apply in_map_iff in Hg as (k & <- & Hk).
  apply (proj1 (sorted_keys_In _ _)) in Hk.
  apply Nat.ltb_lt in Hpos. exists k. auto.
Qed.

Lemma find_rated (ks : list string) d :
  find (fun x => String.eqb (key (of_group x)) d)
       (map with_rate (filter (fun g => (0 <? attempted g)%nat) (map group_of ks))) =
  if existsb (String.eqb d) ks && (0 <? attempted (group_of d))%nat
  then Some (with_rate (group_of d)) else None.
Proof.
  induction ks as [|k ks IH]; [reflexivity|]. cbn [map filter existsb].
  destruct (String.eqb d k) eqn:Edk.
  - apply String.eqb_eq in Edk. subst k. cbn [orb andb].
    destruct (0 <? attempted (group_of d))%nat eqn:Hpos.
    + cbn [map find with_rate of_group group_of summarize key fst].
      now rewrite String.eqb_refl.
    + rewrite IH, ?Hpos. now rewrite andb_false_r.
  - cbn [orb]. destruct (0 <? attempted (group_of k))%nat; [|exact IH].
    cbn [map find with_rate of_group group_of summarize key fst].
    rewrite String.eqb_sym, Edk. exact IH.
Qed.

Lemma attempted_needs_key d :
  (0 <? attempted (group_of d))%nat = true ->
  existsb (String.eqb d) (sorted_keys (map key_of rows)) = true.
Proof.
  intros H. apply Nat.ltb_lt in H. cbn in H. unfold count in H.
  destruct (filter att (filter (fun r => String.eqb (key_of r) d) rows)) as [|r l] eqn:E;
    [simpl in H; lia|].
  assert (Hr : In r (filter (fun r => String.eqb (key_of r) d) rows)).
  { eapply (proj1 (filter_In att r _)). rewrite E. now left. }
  apply filter_In in Hr as [Hr Hk]. apply String.eqb_eq in Hk.
  apply existsb_exists. exists d. split; [|apply String.eqb_refl].
  apply sorted_keys_In. rewrite <- Hk. now apply in_map.
Qed.

(** Re-indexing the rated groups by [order] lists, in that order, the keys
    whose group has an attempt. *)
Lemma reindex_keys order :
  map (fun x => key (of_group x))
      (reindex order (rated_groups key_of att is_yes rows)) =
  filter (fun d => (0 <? attempted (group_of d))%nat) order.
Proof.
  unfold reindex, rated_groups. rewrite groups_map.
  induction order as [|d order IH]; [reflexivity|].
  cbn [flat_map filter]. rewrite map_app, IH, find_rated.
  destruct (0 <? attempted (group_of d))%nat eqn:Hpos.
  - rewrite (attempted_needs_key d Hpos). reflexivity.
  - now rewrite andb_false_r.
Qed.

Lemma reindex_In order x :
  In x (reindex order (rated_groups key_of att is_yes rows)) ->
  In x (rated_groups key_of att is_yes rows).
Proof.
  unfold reindex. intros H. apply in_flat_map in H as (d & _ & H).
  destruct (find _ _) as [y|] eqn:Hf; [|destruct H].
  destruct H as [<-|[]]. now apply find_some in Hf.
Qed.

End Groups.

Lemma rated_groups_complete {A} (key_of : A -> string) (att is_yes : A -> bool) rows k :
  In k (map key_of rows) ->
  (0 < attempted (group_of key_of att is_yes rows k))%nat ->
  In (with_rate (group_of key_of att is_yes rows k)) (rated_groups key_of att is_yes rows).
Proof.
  intros Hk Hpos. unfold rated_groups. rewrite groups_map.
  apply in_map, filter_In. split.
  - apply in_map. now apply sorted_keys_In.
  - now apply Nat.ltb_lt.
Qed.

(** *** Temporal analytics *)

Lemma dropna_In l a t : In (a, t) (dropna l) <-> In (a, CTime t) l.
Proof.
  induction l as [|[a' c] l IH]; simpl; [tauto|].
  destruct c; simpl; rewrite IH; intuition congruence.
Qed.

Lemma combine_pointwise {A B C} (P : B -> C -> Prop) (f : A -> B) l l' a c :
  Forall2 P (map f l) l' -> In (a, c) (combine l l') -> In a l /\ P (f a) c.
Proof.
  revert l'. induction l as [|x l IH]; intros l' H Hin; [destruct Hin|].
  inversion H as [|? c0 ? l0 Hp Hrest]; subst. simpl in Hin.
  destruct Hin as [[= <- <-]|Hin].
  - split; [now left|assumption].
  - destruct (IH _ Hrest Hin). split; [now right|assumption].
Qed.

Lemma combine_covers {A B C} (P : B -> C -> Prop) (f : A -> B) l l' a :
  Forall2 P (map f l) l' -> In a l -> exists c, In (a, c) (combine l l') /\ P (f a) c.
Proof.
  revert l'. induction l as [|x l IH]; intros l' H Hin; [destruct Hin|].
  inversion H as [|? c0 ? l0 Hp Hrest]; subst. simpl.
  destruct Hin as [<-|Hin].
  - exists c0. split; [now left|assumption].
  - destruct (IH _ Hrest Hin) as (c & Hc & Hpc). exists c. split; [now right|assumption].
Qed.

(** *** The grouped rate table and the weekday table *)

Section WithRuntime.
Context {pandas : Pandas} {python : Python}.

(** C3 (as amended).  The grouped rate table is the first [top_n] rows (15
    by default) of the groups that have an attempt, ordered by the rate
    rounded to one decimal, highest first, and among equal rounded rates by
    the number of attempts, highest first.  Every row aggregates the
    records of one key; its rate is the float64 value of
    yes / attempted * 100 rounded to one decimal by numpy.  In tenths it is
    within one half of 1000 * yes / attempted, but for the error of the
    float64 operations, which is below yes / attempted * 2 ^ -39. *)
Theorem C3_rate_table dfA group_col top_n :
  let groups := rated_groups (group_key group_col) Attempted IsYes dfA in
  let tbl := rate_table dfA group_col top_n in
  (exists full,
     Permutation groups full /\ StronglySorted ranks_before full /\
     tbl = firstn top_n full) /\
  (forall k,
     In k (map (group_key group_col) dfA) ->
     (0 < count Attempted (filter (fun a => String.eqb (group_key group_col a) k) dfA))%nat ->
     exists x, In x groups /\ key (of_group x) = k) /\
  StronglySorted ranks_before tbl /\
  (length tbl <= top_n)%nat /\
  rate_table_default dfA group_col = rate_table dfA group_col 15 /\
  Forall
    (fun x =>
       exists k,
         In k (map (group_key group_col) dfA) /\
         let members := filter (fun a => String.eqb (group_key group_col a) k) dfA in
         of_group x =
           mkGroup k (length members) (count Attempted members) (count IsYes members) /\
         (0 < attempted (of_group x))%nat /\
         yes_rate x =
           Float64.rate_tenths (yes (of_group x)) (attempted (of_group x)) /\
         (549755813888 *
          (2 * Z.abs (yes_rate x * Z.of_nat (attempted (of_group x))
                      - 1000 * Z.of_nat (yes (of_group x)))
           - Z.of_nat (attempted (of_group x)))
          <= Z.of_nat (yes (of_group x)))%Z)
    tbl.
Proof.
  intros groups tbl. repeat split.
  - exists (sort_rows groups). repeat split.
    + apply sort_rows_perm.
    + apply sort_rows_sorted.
  - intros k Hk Hpos. eexists. split.
    + apply (rated_groups_complete _ _ _ _ k Hk Hpos).
    + reflexivity.
  - apply firstn_sorted, sort_rows_sorted.
  - apply firstn_le_length.
  - apply Forall_forall. intros x Hx.
    apply firstn_subset in Hx.
    apply (Permutation_in _ (Permutation_sym (sort_rows_perm _))) in Hx.
    apply rated_groups_In in Hx as (k & Hk & -> & Hpos).
    exists k. repeat split; try assumption.
    cbn [of_group with_rate yes_rate].
    apply Float64Facts.rate_tenths_error. exact Hpos.
Qed.

(** C10.  The touch timestamp of a record is the first present value among
    LastCallDateTime, CallbackDateTime and MeetingDateTime; a record takes
    part in the temporal analytics only if it has one, and every record
    whose touch value is a timestamp does; and the weekday table lists, in
    the order Monday to Sunday, exactly the weekdays on which a record that
    takes part was attempted. *)
Theorem C10_touch_and_weekdays :
  (forall r,
     let last_call := row_get "LastCallDateTime" CNaT r in
     let callback := row_get "CallbackDateTime" CNaT r in
     let meeting := row_get "MeetingDateTime" CNaT r in
     _touch_datetime r =
     if negb (isna last_call) then last_call
     else if negb (isna callback) then callback
     else if negb (isna meeting) then meeting
     else CNaT) /\
  (forall dfA valid,
     dfA_valid dfA = Ok valid ->
     (forall a t, In (a, t) valid ->
                  In a dfA /\ isna (_touch_datetime (cells a)) = false) /\
     (forall a t, In a dfA -> _touch_datetime (cells a) = CTime t -> In (a, t) valid) /\
     exists shown,
       weekday_table dfA = Ok shown /\
       match shown with
       | None => valid = []
       | Some tbl =>
           valid <> [] /\
           map (fun x => key (of_group x)) tbl =
           filter
             (fun d =>
                (0 <? count (fun v => Attempted (fst v))
                            (filter (fun v => String.eqb (Clock.day_name (snd v)) d) valid))%nat)
             Clock.weekday_order /\
           Forall (fun x => (0 < attempted (of_group x))%nat) tbl
       end).
Proof.
  split; [reflexivity|].
  intros dfA valid Hvalid. unfold weekday_table. rewrite Hvalid. cbn [bind].
  unfold dfA_valid in Hvalid.
  destruct (to_datetime (map (fun a => _touch_datetime (cells a)) dfA))
    as [touch|] eqn:Htouch; [|discriminate].
  injection Hvalid as <-. apply to_datetime_pointwise in Htouch.
  split; [|split].
  - intros a t Hin. apply dropna_In in Hin.
    destruct (combine_pointwise _ _ _ _ _ _ Htouch Hin) as (Ha & Hna & _ & _).
    split; [assumption|].
    destruct (isna (_touch_datetime (cells a))); [|reflexivity].
    specialize (Hna eq_refl). discriminate.
  - intros a t Ha Ht.
    destruct (combine_covers _ _ _ _ _ Htouch Ha) as (c & Hc & _ & Htime & _).
    apply dropna_In. now rewrite <- (Htime t Ht).
  - eexists. split; [reflexivity|].
    destruct (dropna (combine dfA touch)) as [|v valid] eqn:Hv; [reflexivity|].
    split; [discriminate|]. split.
    + rewrite reindex_keys. reflexivity.
    + apply Forall_forall. intros x Hx. apply reindex_In in Hx.
      now apply rated_groups_In in Hx as (k & _ & -> & Hpos).
Qed.

End WithRuntime.

(** *** Concrete record sets *)

Import Examples.
#[local] Existing Instance Sample.pandas.
#[local] Existing Instance Sample.python.

(** C3 as stated fails: the rate of one yes in three attempts is shown as
    33.3, which is not 100 / 3. *)
Lemma C3_rate_is_rounded :
  ~ (forall dfA group_col top_n x,
       In x (rate_table dfA group_col top_n) ->
       (yes_rate x * Z.of_nat (attempted (of_group x)) =
        1000 * Z.of_nat (yes (of_group x)))%Z).
Proof.
  intros H.
  specialize (H one_of_three "Company" 15%nat
                (mkRateRow (mkGroup "Acme" 3 3 1) 333) (or_introl eq_refl)).
  vm_compute in H. discriminate.
Qed.

(** Of the three records the third has no touch timestamp; the other two
    were touched on a Tuesday and on a Friday. *)
Lemma C10_touch_and_weekdays_witness :
  exists tbl,
    weekday_table one_of_three = Ok (Some tbl) /\
    map (fun x => key (of_group x)) tbl = ["Tuesday"; "Friday"].
Proof.
  pose (valid :=
          match dfA_valid one_of_three with
          | Ok valid => valid
          | Raised _ => []
          end).
  assert (Hvalid : dfA_valid one_of_three = Ok valid) by (vm_compute; reflexivity).
  destruct (proj2 C10_touch_and_weekdays one_of_three valid Hvalid)
    as (_ & _ & shown & Hshown & Hkeys).
  destruct shown as [tbl|]; [|discriminate Hkeys].
  exists tbl. split; [exact Hshown|].
  destruct Hkeys as (_ & Hkeys & _). exact Hkeys.
Defined.

End AnalyticsFacts.

(* ------------------------------------------------------------------ *)
(** ** More on the schema normalizer *)

Module NormalizerMore.
Import Frame Normalizer FrameFacts NormalizerFacts Terms.

Section WithPandas.
Context {pandas : Pandas}.

Lemma app_columns_nodup : NoDup APP_COLUMNS.
Proof. apply (NoDup_map_inv PyStr.lower), app_columns_distinct. Qed.

(** The columns of the coerced table that carry a schema label, for any
    table: the columns the rename step gives that label, a synthesized
    column when there is none. *)
Lemma pick_standardized_any T K :
  In K APP_COLUMNS ->
  pick K (columns (coerce_dtypes (ensure_all (rename (rename_label (labels T)) T)))) =
  match filter (fun lc => String.eqb (rename_label (labels T) (fst lc)) K) (columns T) with
  | [] => [(K, repeat (default_value K) (nrows T))]
  | [(l, s)] => [(K, coercion K s)]
  | many => map (fun lc => (K, snd lc)) many
  end.
Proof.
  intros HK.
  rewrite pick_coerce_dtypes, pick_ensure_all by assumption.
  unfold rename at 1. cbn [columns]. rewrite pick_rename. cbn [nrows rename].
  assert (Hmap : forall l : list (string * list cell),
             (forall lc, In lc l -> rename_label (labels T) (fst lc) = K) ->
             map (fun lc => (rename_label (labels T) (fst lc), snd lc)) l =
             map (fun lc => (K, snd lc)) l).
  { intros l Hl. apply map_ext_in. intros lc Hin. now rewrite Hl. }
  rewrite Hmap.
  2:{ intros lc Hin. apply filter_In in Hin as [_ E]. now apply String.eqb_eq. }
  destruct (filter _ (columns T)) as [|[l s] [|lc' rest]]; cbn [map fst snd].
  - now rewrite coercion_default.
  - reflexivity.
  - reflexivity.
Qed.

(** X1.  Whatever table with text for its column labels it is given,
    [_standardize_columns] returns a table with the same number of rows in
    which every label is one of the twelve application columns and every
    application column occurs. *)
Theorem X1_schema_for_every_table T :
  nrows (_standardize_columns T) = nrows T /\
  (forall l, In l (labels (_standardize_columns T)) -> In l APP_COLUMNS) /\
  (forall K, In K APP_COLUMNS -> has_column K (_standardize_columns T) = true).
Proof.
  split; [apply nrows_standardize|split].
  - intros l. rewrite standardize_unfold. apply labels_reorder.
  - intros K HK. rewrite has_column_pick, standardize_unfold.
    rewrite pick_reorder by (auto using app_columns_nodup).
    rewrite pick_standardized_any by assumption.
    destruct (filter _ (columns T)) as [|[l s] [|lc' rest]]; reflexivity.
Qed.

End WithPandas.

Lemma well_formed_rename f df : well_formed df -> well_formed (rename f df).
Proof.
  unfold well_formed, rename. cbn [columns nrows]. intros H.
  apply Forall_map. exact H.
Qed.

Lemma well_formed_ensure c v df : well_formed df -> well_formed (ensure c v df).
Proof.
  unfold ensure. destruct (has_column c df); [auto|].
  unfold well_formed, add_column. cbn [columns nrows]. intros H.
  apply Forall_app. split; [exact H|].
  constructor; [apply repeat_length|constructor].
Qed.

Lemma well_formed_ensure_all df : well_formed df -> well_formed (ensure_all df).
Proof.
  rewrite ensure_all_fold. generalize defaults. intros cvs. revert df.
  induction cvs as [|cv cvs IH]; intros df H; simpl; [exact H|].
  apply IH, well_formed_ensure, H.
Qed.

Lemma well_formed_coerce_column conv c df :
  (forall s s', conv s = Some s' -> length s' = length s) ->
  well_formed df -> well_formed (coerce_column conv c df).
Proof.
  intros Hconv Hwf. unfold coerce_column.
  destruct (select c df) as [|s [|]] eqn:Hsel; try exact Hwf.
  destruct (conv s) as [s'|] eqn:Hs; [|exact Hwf].
  assert (Hlen : length s = nrows df).
  { assert (Hin : In s (select c df)) by (rewrite Hsel; now left).
    unfold select in Hin. apply in_map_iff in Hin as (lc & <- & Hlc).
    apply filter_In in Hlc as [Hlc _].
    unfold well_formed in Hwf. rewrite Forall_forall in Hwf. now apply Hwf. }
  unfold well_formed, set_column in *. cbn [columns nrows].
  apply Forall_map. rewrite Forall_forall in *. intros lc Hlc.
  destruct (String.eqb (fst lc) c); cbn [snd]; [|now apply Hwf].
  rewrite (Hconv _ _ Hs). exact Hlen.
Qed.

Lemma well_formed_reorder order df : well_formed df -> well_formed (reorder order df).
Proof.
  unfold well_formed. rewrite columns_reorder, nrows_reorder, !Forall_forall.
  intros H lc Hlc. apply in_flat_map in Hlc as (c & _ & Hin).
  apply filter_In in Hin as [Hin _]. now apply H.
Qed.

Section WithPandas.
Context {pandas : Pandas}.

Lemma to_datetime_length s s' : to_datetime s = Some s' -> length s' = length s.
Proof.
  intros H. symmetry. eapply Forall2_length, to_datetime_pointwise, H.
Qed.

Lemma well_formed_coerce_dtypes df : well_formed df -> well_formed (coerce_dtypes df).
Proof.
  intros H. unfold coerce_dtypes. cbn [fold_left].
  apply well_formed_coerce_column; [intros s s'; apply NormalizerFacts.attempts_to_int_length|].
  repeat (apply well_formed_coerce_column; [exact to_datetime_length|]).
  exact H.
Qed.

(** Normalization keeps a table well formed: when every column of the
    input is as long as its index, so is every column of the result, the
    synthesized and the converted ones included. *)
Lemma standardize_well_formed T :
  well_formed T -> well_formed (_standardize_columns T).
Proof.
  intros H. rewrite standardize_unfold.
  apply well_formed_reorder, well_formed_coerce_dtypes, well_formed_ensure_all,
    well_formed_rename, H.
Qed.

(** X2.  For a table whose labels differ after lower-casing, normalizing
    a normalized table changes nothing. *)
Theorem X2_normalizing_twice T :
  NoDup (map PyStr.lower (labels T)) ->
  _standardize_columns (_standardize_columns T) = _standardize_columns T.
Proof. apply standardize_idempotent. Qed.

End WithPandas.

Lemma in_rows df r : In r (rows df) -> exists i, (i < nrows df)%nat /\ r = row_at df i.
Proof.
  unfold rows. intros H. apply in_map_iff in H as (i & <- & Hi).
  apply in_seq in Hi. exists i. split; [lia|reflexivity].
Qed.

Lemma row_get_schema n (e : string -> list cell) i K d :
  In K APP_COLUMNS ->
  row_get K d (row_at (mkFrame n (map (fun K => (K, e K)) APP_COLUMNS)) i) =
  nth i (e K) CNone.
Proof.
  intros H. repeat (destruct H as [<-|H]; [reflexivity|]). destruct H.
Qed.

Section WithPandas.
Context {pandas : Pandas}.

(** A record of a normalized table holds, under every application column,
    the cell of its row in the column the normalizer built. *)
Lemma row_get_standardized T r :
  NoDup (map PyStr.lower (labels T)) ->
  In r (rows (_standardize_columns T)) ->
  exists i, (i < nrows T)%nat /\
    forall K d, In K APP_COLUMNS -> row_get K d r = nth i (expected_column T K) CNone.
Proof.
  intros Hnd Hr. rewrite (standardize_columns_spec T Hnd) in Hr.
  apply in_rows in Hr as (i & Hi & ->). exists i. split; [exact Hi|].
  intros K d HK. now apply row_get_schema.
Qed.

Lemma nth_Forall {A} (P : A -> Prop) l i d : Forall P l -> P d -> P (nth i l d).
Proof.
  intros Hl Hd. destruct (nth_in_or_default i l d) as [Hin| ->]; [|exact Hd].
  rewrite Forall_forall in Hl. now apply Hl.
Qed.

Lemma converted_dates s s' :
  to_datetime s = Some s' -> Forall (fun c => c = CNaT \/ exists t, c = CTime t) s'.
Proof.
  intros Hs. pose proof (to_datetime_pointwise _ _ Hs) as H. clear Hs.
  induction H as [|c c' col col' (_ & _ & Hk) _ IH]; constructor; auto.
Qed.

Lemma converted_attempts s s' :
  attempts_to_int s = Some s' -> Forall (fun c => exists z, c = CInt z) s'.
Proof.
  intros H. apply NormalizerFacts.attempts_to_int_integers in H.
  apply Forall_forall. intros c Hc.
  rewrite forallb_forall in H. specialize (H c Hc).
  destruct c; try discriminate. eauto.
Qed.

End WithPandas.

Section WithPandas.
Context {pandas : Pandas}.

Lemma select_standardized T K :
  NoDup (map PyStr.lower (labels T)) -> In K APP_COLUMNS ->
  select K (_standardize_columns T) = [expected_column T K].
Proof.
  intros Hnd HK. rewrite select_pick, standardize_unfold.
  rewrite pick_reorder by (auto using app_columns_nodup).
  now rewrite pick_standardized.
Qed.

Lemma source_found T K l s :
  NoDup (map PyStr.lower (labels T)) ->
  K <> "LastCallDateTime" ->
  In (l, s) (columns T) -> PyStr.lower l = PyStr.lower K ->
  source T K = Some s.
Proof.
  intros Hnd HK Hin Hl. unfold source.
  destruct (String.eqb K "LastCallDateTime") eqn:E;
    [apply String.eqb_eq in E; contradiction|].
  destruct (find _ (columns T)) as [[l' s']|] eqn:Hf.
  - apply find_some in Hf as [Hin' E']. cbn [fst] in E'. apply String.eqb_eq in E'.
    unfold labels in Hnd. rewrite map_map in Hnd.
    assert (Heq : (l', s') = (l, s)).
    { apply (NoDup_map_inj (fun lc : string * list cell => PyStr.lower (fst lc))
               (columns T)); auto. cbn [fst]. congruence. }
    now injection Heq as _ ->.
  - exfalso. apply (find_none _ _ Hf) in Hin. cbn [fst] in Hin.
    rewrite Hl, String.eqb_refl in Hin. discriminate.
Qed.

Lemma source_missing T K :
  (forall l, In l (labels T) -> PyStr.lower l <> PyStr.lower K) ->
  source T K = None.
Proof.
  intros H. unfold source. destruct (String.eqb K "LastCallDateTime"); [reflexivity|].
  destruct (find _ (columns T)) as [[l s]|] eqn:Hf; [|reflexivity].
  apply find_some in Hf as [Hin E]. cbn [fst] in E. apply String.eqb_eq in E.
  exfalso. apply (H l); [|exact E]. unfold labels. now apply (in_map fst _ (l, s)).
Qed.

(** X3.  The eight text columns are copied, not converted.  For a table
    whose labels differ after lower-casing, the column of the result with
    a text label holds the very cells of the input column that has this
    label in any casing: nothing is trimmed and a missing value stays
    missing.  Without such an input column it holds empty text. *)
Theorem X3_text_columns_copied T K :
  NoDup (map PyStr.lower (labels T)) ->
  In K text_columns ->
  (forall l s, In (l, s) (columns T) -> PyStr.lower l = PyStr.lower K ->
               select K (_standardize_columns T) = [s]) /\
  ((forall l, In l (labels T) -> PyStr.lower l <> PyStr.lower K) ->
   select K (_standardize_columns T) = [repeat (CStr "") (nrows T)]).
Proof.
  intros Hnd HK.
  assert (HA : In K APP_COLUMNS).
  { repeat (destruct HK as [<-|HK]; [simpl; tauto|]). destruct HK. }
  assert (HL : K <> "LastCallDateTime").
  { repeat (destruct HK as [<-|HK]; [discriminate|]). destruct HK. }
  assert (Hc : forall s, coercion K s = s).
  { intros s. repeat (destruct HK as [<-|HK]; [reflexivity|]). destruct HK. }
  assert (Hd : default_value K = CStr "").
  { repeat (destruct HK as [<-|HK]; [reflexivity|]). destruct HK. }
  rewrite select_standardized by assumption. unfold expected_column. split.
  - intros l s Hin Hl. now rewrite (source_found T K l s), Hc.
  - intros Hno. now rewrite source_missing, Hd.
Qed.

Lemma empty_table_normalized T :
  well_formed T -> nrows T = 0%nat ->
  NoDup (map PyStr.lower (labels T)) ->
  _standardize_columns T = mkFrame 0 (map (fun K => (K, [])) APP_COLUMNS).
Proof.
  intros Hwf Hn Hnd. rewrite (standardize_columns_spec T Hnd), Hn.
  f_equal. apply map_ext_in. intros K HK. f_equal.
  unfold expected_column. rewrite Hn.
  destruct (source T K) as [s|] eqn:Hs; [|reflexivity].
  assert (s = []) as ->.
  { unfold source in Hs. destruct (String.eqb K "LastCallDateTime"); [discriminate|].
    destruct (find _ (columns T)) as [[l s']|] eqn:Hf; [|discriminate].
    injection Hs as <-. apply find_some in Hf as [Hin _].
    unfold well_formed in Hwf. rewrite Forall_forall in Hwf.
    specialize (Hwf _ Hin). cbn [snd] in Hwf. rewrite Hn in Hwf.
    now apply length_zero_iff_nil. }
  apply (coercion_default K 0).
Qed.

(** X4.  A table without rows is normalized to the empty table with the
    twelve application columns. *)
Theorem X4_empty_table T :
  well_formed T -> nrows T = 0%nat ->
  NoDup (map PyStr.lower (labels T)) ->
  _standardize_columns T = mkFrame 0 (map (fun K => (K, [])) APP_COLUMNS).
Proof. apply empty_table_normalized. Qed.

(** X5.  The two date columns that are filled from the input are
    converted under [try ... except: pass].  When the conversion of the
    column raises, the column is kept as it was imported; when it returns,
    the result holds timestamps and [NaT] only, one for each cell. *)
Theorem X5_date_conversion_or_kept T K l s :
  NoDup (map PyStr.lower (labels T)) ->
  In K ["MeetingDateTime"; "CallbackDateTime"] ->
  In (l, s) (columns T) -> PyStr.lower l = PyStr.lower K ->
  (to_datetime s = None -> select K (_standardize_columns T) = [s]) /\
  (forall s', to_datetime s = Some s' ->
     select K (_standardize_columns T) = [s'] /\
     length s' = length s /\
     Forall (fun c => c = CNaT \/ exists t, c = CTime t) s').
Proof.
  intros Hnd HK Hin Hl.
  assert (HA : In K APP_COLUMNS).
  { repeat (destruct HK as [<-|HK]; [simpl; tauto|]). destruct HK. }
  assert (HL : K <> "LastCallDateTime").
  { repeat (destruct HK as [<-|HK]; [discriminate|]). destruct HK. }
  assert (Hc : coercion K s = or_keep to_datetime s).
  { repeat (destruct HK as [<-|HK]; [reflexivity|]). destruct HK. }
  rewrite select_standardized by assumption. unfold expected_column.
  rewrite (source_found T K l s), Hc by assumption. unfold or_keep. split.
  - now intros ->.
  - intros s' Hs. rewrite Hs. split; [reflexivity|]. split.
    + now apply to_datetime_length.
    + exact (converted_dates _ _ Hs).
Qed.

End WithPandas.

Lemma find_map_fst {A B} (p : A -> bool) (l : list (A * B)) :
  find p (map fst l) = option_map fst (find (fun ab => p (fst ab)) l).
Proof.
  induction l as [|[a b] l IH]; simpl; [reflexivity|].
  destruct (p a); [reflexivity|exact IH].
Qed.

Section WithPandas.
Context {pandas : Pandas}.

(** X6.  Several spellings of one column.  When the labels of the table
    differ from one another, none of them is spelled exactly like the
    application column [K] and several lower-case to the name of [K], the
    column of the result is filled from the last of them in column order;
    the others are dropped. *)
Theorem X6_last_spelling_wins T K l s :
  NoDup (labels T) ->
  In K APP_COLUMNS -> K <> "LastCallDateTime" ->
  ~ In K (labels T) ->
  find (fun lc => String.eqb (PyStr.lower (fst lc)) (PyStr.lower K)) (rev (columns T))
    = Some (l, s) ->
  select K (_standardize_columns T) = [coercion K s].
Proof.
  intros Hnd HK HL Hno Hlast.
  rewrite select_pick, standardize_unfold.
  rewrite pick_reorder by (auto using app_columns_nodup).
  rewrite pick_standardized_any by assumption.
  assert (Hkeep : dict_get (PyStr.lower K) (cols_lower (labels T)) = Some l).
  { rewrite cols_lower_get. unfold labels. rewrite <- map_rev, find_map_fst.
    now rewrite Hlast. }
  pose proof (find_some _ _ Hlast) as [Hin Hl]. cbn [fst] in Hl.
  apply String.eqb_eq in Hl. apply in_rev in Hin.
  rewrite (filter_ext_in _ (fun lc => String.eqb (fst lc) l)).
  - rewrite (filter_unique fst) by exact Hnd.
    destruct (find _ (columns T)) as [[l' s']|] eqn:Hf.
    + apply find_some in Hf as [Hin' E]. cbn [fst] in E. apply String.eqb_eq in E.
      subst l'.
      assert (Heq : (l, s') = (l, s)) by (apply (NoDup_map_inj fst (columns T)); auto).
      injection Heq as ->. reflexivity.
    + exfalso. apply (find_none _ _ Hf) in Hin. cbn [fst] in Hin.
      rewrite String.eqb_refl in Hin. discriminate.
  - intros [c sc] Hc. cbn [fst].
    assert (HcK : c <> K).
    { intros ->. apply Hno. unfold labels. now apply (in_map fst _ (K, sc)). }
    rewrite rename_label_spec.
    destruct (mem (PyStr.lower c) recognized && kept (labels T) c) eqn:E.
    + apply andb_true_iff in E as [Hrec Hk]. apply mem_In in Hrec.
      rewrite canonical_eqb_app by assumption.
      replace (negb (String.eqb K "LastCallDateTime")) with true
        by (symmetry; apply negb_true_iff, String.eqb_neq, HL).
      cbn [andb]. unfold kept in Hk.
      destruct (String.eqb (PyStr.lower c) (PyStr.lower K)) eqn:Ec.
      * apply String.eqb_eq in Ec. rewrite Ec, Hkeep in Hk.
        apply String.eqb_eq in Hk. subst c. symmetry. apply String.eqb_refl.
      * symmetry. apply String.eqb_neq. intros ->.
        rewrite Hl, String.eqb_refl in Ec. discriminate.
    + assert (Hne : String.eqb c K = false) by now apply String.eqb_neq.
      rewrite Hne. symmetry. apply String.eqb_neq. intros ->.
      apply andb_false_iff in E as [E|E].
      * rewrite Hl in E.
        assert (mem (PyStr.lower K) recognized = true)
          by (apply mem_In, lower_app_recognized, HK).
        congruence.
      * unfold kept in E. rewrite Hl, Hkeep, String.eqb_refl in E. discriminate.
Qed.

End WithPandas.

(** *** The properties at concrete tables *)

Import Examples Cases.
#[local] Existing Instance Sample.pandas.

Lemma X2_normalizing_twice_witness :
  _standardize_columns (_standardize_columns table_attempts) =
  _standardize_columns table_attempts.
Proof. apply X2_normalizing_twice. apply NoDup_by_eqb. reflexivity. Defined.

(** The names of [table_sheet] come out as they went in, untrimmed and
    with the missing one still missing; there are no notes. *)
Lemma X3_text_columns_copied_witness :
  select "Name" (_standardize_columns table_sheet) = [[CStr " Ana Lopez "; CFloat FNaN]] /\
  select "Notes" (_standardize_columns table_sheet) = [[CStr ""; CStr ""]].
Proof.
  split.
  - refine (proj1 (X3_text_columns_copied table_sheet "Name" _ _)
                     "NAME" [CStr " Ana Lopez "; CFloat FNaN] _ _).
    + apply NoDup_by_eqb. reflexivity.
    + simpl. tauto.
    + simpl. tauto.
    + reflexivity.
  - refine (proj2 (X3_text_columns_copied table_sheet "Notes" _ _) _).
    + apply NoDup_by_eqb. reflexivity.
    + simpl. tauto.
    + intros l [<-|[<-|[]]]; discriminate.
Defined.

Lemma initial_frame_well_formed : well_formed Overview.initial_frame.
Proof. repeat constructor. Defined.

(** The table a session starts from. *)
Lemma X4_empty_table_witness :
  _standardize_columns Overview.initial_frame =
  mkFrame 0 (map (fun K => (K, [])) APP_COLUMNS).
Proof.
  apply X4_empty_table.
  - exact initial_frame_well_formed.
  - reflexivity.
  - apply NoDup_by_eqb. reflexivity.
Defined.

(** The meeting given as text is read as no timestamp by the reference
    conversion. *)
Lemma X5_date_conversion_or_kept_witness :
  select "MeetingDateTime" (_standardize_columns table_sheet) =
  [[CTime (Clock.naive 2025 3 4 14 30 0); CNaT]].
Proof.
  refine (proj1 (proj2 (X5_date_conversion_or_kept table_sheet "MeetingDateTime"
                          "meetingdatetime"
                          [CTime (Clock.naive 2025 3 4 14 30 0); CStr "next week"]
                          _ _ _ _) _ eq_refl)).
  - apply NoDup_by_eqb. reflexivity.
  - simpl. tauto.
  - simpl. tauto.
  - reflexivity.
Defined.

Lemma X6_last_spelling_wins_witness :
  select "Name" (_standardize_columns table_two_names) = [[CStr "second"]].
Proof.
  refine (X6_last_spelling_wins table_two_names "Name" "NAME" [CStr "second"] _ _ _ _ _).
  - apply NoDup_by_eqb. reflexivity.
  - simpl. tauto.
  - discriminate.
  - simpl. intros [H|[H|[]]]; discriminate.
  - reflexivity.
Defined.

End NormalizerMore.

(* ------------------------------------------------------------------ *)
(** ** More on the template renderer *)

Module TemplateMore.
Import Frame Py Template StrFacts Emails.

#[local] Open Scope string_scope.


Lemma before_prefix sep s : PyStr.startswith (PyStr.before sep s) s = true.
Proof.
  induction s as [|c s IH]; [reflexivity|].
  cbn [PyStr.before]. destruct (PyStr.startswith sep (String c s)); [reflexivity|].
  cbn [PyStr.startswith]. now rewrite Ascii.eqb_refl, IH.
Qed.

Lemma before_space_free s : PyStr.has_char " " (PyStr.before " " s) = false.
Proof.
  induction s as [|c s IH]; [reflexivity|].
  cbn [PyStr.before PyStr.startswith].
  destruct (Ascii.eqb " " c) eqn:E; cbn [andb]; [reflexivity|].
  cbn [PyStr.has_char]. now rewrite Ascii.eqb_sym, E, IH.
Qed.

Lemma lstrip_head s :
  PyStr.lstrip s = "" \/
  exists c r, PyStr.lstrip s = String c r /\ PyStr.is_space c = false.
Proof.
  induction s as [|c s IH]; [now left|].
  cbn [PyStr.lstrip]. destruct (PyStr.is_space c) eqn:E; [exact IH|].
  right. now exists c, s.
Qed.

Lemma rstrip_head c r :
  PyStr.is_space c = false -> exists r', PyStr.rstrip (String c r) = String c r'.
Proof.
  intros E. cbn [PyStr.rstrip]. destruct (PyStr.rstrip r).
  - rewrite E. now exists "".
  - now eexists.
Qed.

Lemma strip_head s :
  PyStr.strip s = "" \/
  exists c r, PyStr.strip s = String c r /\ PyStr.is_space c = false.
Proof.
  unfold PyStr.strip. destruct (lstrip_head s) as [->|(c & r & -> & E)].
  - now left.
  - right. destruct (rstrip_head c r E) as [r' ->]. now exists c, r'.
Qed.

Section WithRuntime.
Context {pandas : Pandas} {python : Python}.

Lemma first_name_text s :
  _first_name (CStr s) =
  Ok (if String.eqb (PyStr.strip s) "" then "" else PyStr.before " " (PyStr.strip s)).
Proof.
  unfold _first_name, truthy. destruct (String.eqb s "") eqn:E; [|reflexivity].
  apply String.eqb_eq in E. now subst s.
Qed.

(** X7.  [_first_name] of a name that is text returns a prefix of the
    trimmed name that holds no space, and returns the empty text only for
    a name that is blank. *)
Theorem X7_first_name_of_text s :
  exists f,
    _first_name (CStr s) = Ok f /\
    PyStr.startswith f (PyStr.strip s) = true /\
    PyStr.has_char " " f = false /\
    (f = "" <-> PyStr.strip s = "").
Proof.
  rewrite first_name_text. eexists. split; [reflexivity|].
  destruct (String.eqb (PyStr.strip s) "") eqn:E.
  - apply String.eqb_eq in E. rewrite E. repeat split; auto.
  - apply String.eqb_neq in E. split; [apply before_prefix|].
    split; [apply before_space_free|].
    split; [|intros; contradiction].
    destruct (strip_head s) as [|(c & r & Hs & Hc)]; [contradiction|].
    rewrite Hs. cbn [PyStr.before PyStr.startswith].
    destruct (Ascii.eqb " " c) eqn:Ec; [|discriminate].
    apply Ascii.eqb_eq in Ec. subst c. discriminate.
Qed.

Lemma render_returns r subject_tmpl body_tmpl :
  (row_get "Name" (CStr "") r = CNone \/ exists n, row_get "Name" (CStr "") r = CStr n) ->
  (isna (row_get "MeetingDateTime" CNone r) = true \/
   exists t, row_get "MeetingDateTime" CNone r = CTime t) ->
  exists subject body, _render_template r subject_tmpl body_tmpl = Ok (subject, body).
Proof.
  intros Hname Hmeet. unfold _render_template.
  assert (Hf : exists f, _first_name (row_get "Name" (CStr "") r) = Ok f).
  { destruct Hname as [->|[n ->]]; [now eexists|].
    rewrite first_name_text. now eexists. }
  destruct Hf as [f ->]. cbn [bind].
  assert (Hd : exists d, _fmt_date (row_get "MeetingDateTime" CNone r) = Ok d).
  { unfold _fmt_date, fmt_with. destruct Hmeet as [->|[t ->]]; now eexists. }
  assert (Ht : exists d, _fmt_time (row_get "MeetingDateTime" CNone r) = Ok d).
  { unfold _fmt_time, fmt_with. destruct Hmeet as [->|[t ->]]; now eexists. }
  destruct Hd as [d ->], Ht as [tm ->]. cbn [bind]. now eexists; eexists.
Qed.

(** X8.  For a record whose name is text or [None] and whose meeting is
    a timestamp or missing, [_render_template] returns, whatever the two
    templates are: a template that cannot be formatted is returned as it
    is and never makes the call raise. *)
Theorem X8_render_returns r subject_tmpl body_tmpl :
  (row_get "Name" (CStr "") r = CNone \/ exists n, row_get "Name" (CStr "") r = CStr n) ->
  (isna (row_get "MeetingDateTime" CNone r) = true \/
   exists t, row_get "MeetingDateTime" CNone r = CTime t) ->
  exists subject body, _render_template r subject_tmpl body_tmpl = Ok (subject, body).
Proof. apply render_returns. Qed.

End WithRuntime.

Section WithRuntime.
Context {pandas : Pandas} {python : Python}.

Lemma example_subject_formats (name first company mdt date time : string) c :
  format _example_template_subject
    [("name", CStr name); ("first_name", CStr first); ("company", c);
     ("meeting_datetime", CStr mdt); ("meeting_date", CStr date);
     ("meeting_time", CStr time)] =
  Ok ("Quick intro – " ++ name).
Proof.
  unfold format. cbn. rewrite append_empty_r. reflexivity.
Qed.

Lemma example_body_formats (name first company mdt date time : string) c :
  format _example_template_body
    [("name", CStr name); ("first_name", CStr first); ("company", c);
     ("meeting_datetime", CStr mdt); ("meeting_date", CStr date);
     ("meeting_time", CStr time)] =
  Ok ("Hi " ++ first ++ "," ++ NL ++ NL ++
      "Great speaking with you. Confirming our meeting on " ++ date ++ " at " ++ time ++
      "." ++ NL ++ NL ++
      "If that time changes, just reply to this email." ++ NL ++ NL ++
      "Best," ++ NL ++ "Your Name").
Proof.
  unfold format. cbn. reflexivity.
Qed.

End WithRuntime.

Section WithRuntime.
Context {pandas : Pandas} {python : Python}.


(** X9.  With the two example templates, a record whose name is text
    and whose meeting is a timestamp or missing is rendered without
    falling back to the raw template: the subject ends with the name as it
    is stored, the body greets by the first name and quotes the date and
    the time of the meeting, both empty when there is no meeting. *)
Theorem X9_example_templates_render r n :
  row_get "Name" (CStr "") r = CStr n ->
  (isna (row_get "MeetingDateTime" CNone r) = true \/
   exists t, row_get "MeetingDateTime" CNone r = CTime t) ->
  let first := if String.eqb (PyStr.strip n) "" then "" else PyStr.before " " (PyStr.strip n) in
  let date := match row_get "MeetingDateTime" CNone r with
              | CTime t => Clock.long_date t
              | _ => ""
              end in
  let time := match row_get "MeetingDateTime" CNone r with
              | CTime t => PyStr.lstrip_zero (Clock.clock12 t)
              | _ => ""
              end in
  _render_template r _example_template_subject _example_template_body =
  Ok ("Quick intro – " ++ n,
      "Hi " ++ first ++ "," ++ NL ++ NL ++
      "Great speaking with you. Confirming our meeting on " ++ date ++ " at " ++ time ++
      "." ++ NL ++ NL ++
      "If that time changes, just reply to this email." ++ NL ++ NL ++
      "Best," ++ NL ++ "Your Name").
Proof.
  intros Hname Hmeet first date time. unfold _render_template.
  rewrite Hname, first_name_text. cbn [bind]. fold first.
  assert (Hd : _fmt_date (row_get "MeetingDateTime" CNone r) = Ok date).
  { unfold _fmt_date, fmt_with, date.
    destruct Hmeet as [H|[t ->]]; [rewrite H|reflexivity].
    now destruct (row_get "MeetingDateTime" CNone r) as [| |[| |]| | |]. }
  assert (Ht : _fmt_time (row_get "MeetingDateTime" CNone r) = Ok time).
  { unfold _fmt_time, fmt_with, time.
    destruct Hmeet as [H|[t ->]]; [rewrite H|reflexivity].
    now destruct (row_get "MeetingDateTime" CNone r) as [| |[| |]| | |]. }
  rewrite Hd, Ht. cbn [bind].
  now rewrite example_subject_formats, example_body_formats.
Qed.

End WithRuntime.

Lemma hour_range ns : (0 <= Clock.hour (Clock.fields_of_ns ns) < 24)%Z.
Proof.
  unfold Clock.fields_of_ns.
  destruct (Clock.civil_from_days _) as [[y m] d]. cbn [Clock.hour].
  pose proof (Z.mod_pos_bound (ns / Clock.NS_PER_SECOND) 86400 eq_refl) as H.
  split.
  - apply Z.div_pos; lia.
  - apply Z.div_lt_upper_bound; lia.
Qed.

Section WithRuntime.
Context {pandas : Pandas} {python : Python}.

(** X10.  [_fmt_time] of a timestamp prints the hour of the twelve-hour
    clock, which lies between 1 and 12, without a leading zero:
    [lstrip('0')] removes the zero the hour is padded with and nothing
    else. *)
Theorem X10_time_without_leading_zero t :
  let f := Clock.fields_of_ns (Clock.wall_ns t) in
  let h12 := (if (Clock.hour f mod 12 =? 0)%Z then 12 else Clock.hour f mod 12)%Z in
  (1 <= h12 <= 12)%Z /\
  _fmt_time (CTime t) =
  Ok (Clock.digits h12 ++ ":" ++ Clock.pad 2 (Clock.minute f) ++ " " ++
      (if (Clock.hour f <? 12)%Z then "AM" else "PM")).
Proof.
  intros f h12.
  assert (Hr : (1 <= h12 <= 12)%Z).
  { unfold h12. pose proof (Z.mod_pos_bound (Clock.hour f) 12 eq_refl).
    destruct (Z.eqb_spec (Clock.hour f mod 12) 0); lia. }
  split; [exact Hr|].
  unfold _fmt_time, fmt_with. cbn [isna]. f_equal.
  unfold Clock.clock12. fold f. fold h12.
  generalize (Clock.pad 2 (Clock.minute f) ++ " " ++
              (if (Clock.hour f <? 12)%Z then "AM" else "PM")).
  intros rest.
  assert (Hc : In h12 [1; 2; 3; 4; 5; 6; 7; 8; 9; 10; 11; 12]%Z).
  { simpl. lia. }
  clear Hr. generalize dependent h12. intros h12 Hc.
  repeat (destruct Hc as [<-|Hc]; [reflexivity|]). destruct Hc.
Qed.

End WithRuntime.

(** *** The properties at concrete records *)

Import Examples Cases.
#[local] Existing Instance Sample.pandas.
#[local] Existing Instance Sample.python.

(** Two templates that cannot be formatted. *)
Lemma X8_render_returns_witness :
  exists subject body, _render_template ana "Hi {first_name" "{}" = Ok (subject, body).
Proof.
  apply X8_render_returns.
  - right. now exists "Ana Lopez".
  - right. now eexists.
Defined.

Lemma X9_example_templates_render_witness :
  exists rendered,
    _render_template ana _example_template_subject _example_template_body = Ok rendered.
Proof.
  eexists. apply (X9_example_templates_render ana "Ana Lopez").
  - reflexivity.
  - right. now eexists.
Defined.

End TemplateMore.

(* ------------------------------------------------------------------ *)
(** ** More on the calendar invites *)

Module InviteMore.
Import Frame Py Invite StrFacts InviteFacts Terms.

#[local] Open Scope string_scope.

Lemma same_kind_emit s s' a b :
  same_kind a b -> same_kind (Template.emit s a) (Template.emit s' b).
Proof. destruct a, b; simpl; auto. Qed.

Lemma lookup_same_keys (kw kw' : list (string * string)) name :
  map fst kw = map fst kw' ->
  match Template.lookup name kw, Template.lookup name kw' with
  | Some _, Some _ | None, None => True
  | _, _ => False
  end.
Proof.
  revert kw'. induction kw as [|[k v] kw IH]; intros [|[k' v'] kw'] H; simpl in *;
    try discriminate; [exact I|].
  injection H as -> H. destruct (String.eqb k' name); [exact I|]. now apply IH.
Qed.

Lemma scan_open kw c rest :
  Template.scan kw Template.Text (String "{" (String c rest)) =
  if Ascii.eqb c "{" then Template.emit "{" (Template.scan kw Template.Text rest)
  else Template.scan kw (Template.Field "") (String c rest).
Proof.
  destruct (Ascii.eqb_spec c "{") as [->|Hne]; [reflexivity|].
  destruct c as [[] [] [] [] [] [] [] []]; try reflexivity. now elim Hne.
Qed.

Lemma scan_close kw c rest :
  Template.scan kw Template.Text (String "}" (String c rest)) =
  if Ascii.eqb c "}" then Template.emit "}" (Template.scan kw Template.Text rest)
  else Template.Failed ValueError.
Proof.
  destruct (Ascii.eqb_spec c "}") as [->|Hne]; [reflexivity|].
  destruct c as [[] [] [] [] [] [] [] []]; try reflexivity. now elim Hne.
Qed.

Lemma scan_same_kind kw kw' :
  map fst kw = map fst kw' ->
  forall n tmpl st, (String.length tmpl <= n)%nat ->
    same_kind (Template.scan kw st tmpl) (Template.scan kw' st tmpl).
Proof.
  intros Hk. induction n as [|n IH]; intros tmpl st Hlen.
  - destruct tmpl; [|simpl in Hlen; lia]. destruct st; simpl; auto.
  - destruct tmpl as [|c rest]; [destruct st; simpl; auto|].
    simpl in Hlen. apply le_S_n in Hlen.
    destruct st as [|name].
    + destruct (Ascii.eqb_spec c "{") as [->|Hopen].
      * destruct rest as [|c' rest']; [simpl; auto|].
        rewrite !scan_open. destruct (Ascii.eqb c' "{").
        -- apply same_kind_emit, IH. simpl in Hlen. lia.
        -- now apply IH.
      * destruct (Ascii.eqb_spec c "}") as [->|Hclose].
        -- destruct rest as [|c' rest']; [simpl; auto|].
           rewrite !scan_close. destruct (Ascii.eqb c' "}"); [|simpl; auto].
           apply same_kind_emit, IH. simpl in Hlen. lia.
        -- cbn [Template.scan].
           apply Ascii.eqb_neq in Hopen, Hclose. rewrite Hopen, Hclose.
           now apply same_kind_emit, IH.
    + cbn [Template.scan]. destruct (Ascii.eqb c "}").
      * destruct (Template.all_digits name); [simpl; auto|].
        pose proof (lookup_same_keys kw kw' name Hk) as Hl.
        destruct (Template.lookup name kw), (Template.lookup name kw');
          try contradiction; [|simpl; auto].
        now apply same_kind_emit, IH.
      * destruct (Template.special c); [simpl; auto|]. now apply IH.
Qed.

Section WithRuntime.
Context {pandas : Pandas} {python : Python}.

Lemma format_failure_by_names tmpl (kwargs kwargs' : list (string * cell)) e :
  map fst kwargs = map fst kwargs' ->
  plain_fields (map fst kwargs) tmpl = true ->
  Template.format tmpl kwargs = Raised e -> Template.format tmpl kwargs' = Raised e.
Proof.
  intros Hk Hplain. unfold Template.format, plain_fields in *.
  set (strs := fun kw : list (string * cell) =>
                 map (fun kv => (fst kv, Template.str_cell (snd kv))) kw).
  assert (Hfst : forall kw, map fst (strs kw) = map fst kw).
  { intros kw. unfold strs. rewrite map_map. reflexivity. }
  pose proof (scan_same_kind (strs kwargs) (strs kwargs')
                ltac:(now rewrite !Hfst)
                (String.length tmpl) tmpl Template.Text (Nat.le_refl _)) as H1.
  pose proof (scan_same_kind (map (fun k => (k, "")) (map fst kwargs)) (strs kwargs)
                ltac:(rewrite Hfst, map_map; apply map_id)
                (String.length tmpl) tmpl Template.Text (Nat.le_refl _)) as H2.
  fold (strs kwargs). fold (strs kwargs').
  destruct (Template.scan (map _ (map fst kwargs)) Template.Text tmpl);
    destruct (Template.scan (strs kwargs) Template.Text tmpl);
    destruct (Template.scan (strs kwargs') Template.Text tmpl);
    simpl in *; try contradiction; try discriminate; congruence.
Qed.

(** X11.  When the fields of the description template are plain names,
    whether the description of an invite can be formatted, and the
    exception when it cannot, is the same for every record: it depends on
    the template alone. *)
Theorem X11_description_failure_by_template r r' cfg e :
  plain_fields ["name"; "company"; "notes"] (desc_template cfg) = true ->
  description_of r cfg = Raised e -> description_of r' cfg = Raised e.
Proof.
  intros Hplain. unfold description_of.
  apply format_failure_by_names; [reflexivity|exact Hplain].
Qed.

End WithRuntime.

Lemma replace_lf_single_line new s :
  PyStr.has_char (ascii_of_nat 10) new = false ->
  PyStr.has_char (ascii_of_nat 10) (PyStr.replace LF new s) = false.
Proof.
  intros Hnew. unfold PyStr.replace.
  induction s as [|c s IH]; [reflexivity|].
  cbn [PyStr.replace_from LF PyStr.startswith String.length Nat.sub].
  destruct (Ascii.eqb (ascii_of_nat 10) c) eqn:E; cbn [andb].
  - rewrite has_char_append, Hnew. exact IH.
  - cbn [PyStr.has_char]. now rewrite Ascii.eqb_sym, E, IH.
Qed.

Section WithRuntime.
Context {pandas : Pandas} {python : Python}.

Lemma str_missing_not_blank c :
  isna c = true -> PyStr.strip (Template.str_cell c) = Template.str_cell c /\
                   Template.str_cell c <> "".
Proof.
  destruct c as [s | z | [| neg | q] | | | t]; try discriminate; intros _;
    split; try reflexivity; discriminate.
Qed.

(** X12.  An invite names an attendee exactly when the text of the
    record's email, trimmed, is not empty.  The text of a missing email is
    not empty ([nan], [None], [NaT]), so a record whose email is missing
    gets an attendee line with that text as its address. *)
Theorem X12_attendee_line r cfg uid now lines :
  ics_lines r cfg uid now = Ok (Some lines) ->
  let name := PyStr.strip (Template.str_cell (row_get "Name" (CStr "") r)) in
  let email := PyStr.strip (Template.str_cell (row_get "Email" (CStr "") r)) in
  existsb (PyStr.startswith "ATTENDEE") lines = negb (String.eqb email "") /\
  (email <> "" ->
   In ("ATTENDEE;CN=" ++ name ++ ";ROLE=REQ-PARTICIPANT:mailto:" ++ email) lines) /\
  (isna (row_get "Email" (CStr "") r) = true ->
   In ("ATTENDEE;CN=" ++ name ++ ";ROLE=REQ-PARTICIPANT:mailto:" ++
       Template.str_cell (row_get "Email" (CStr "") r)) lines).
Proof.
  intros H name email.
  assert (Hline : email <> "" ->
            In ("ATTENDEE;CN=" ++ name ++ ";ROLE=REQ-PARTICIPANT:mailto:" ++ email) lines).
  { intros Hne. revert H. unfold ics_lines.
    destruct (isna (row_get "MeetingDateTime" CNaT r)); [discriminate|].
    destruct (row_get "MeetingDateTime" CNaT r); try discriminate.
    destruct (start_utc (tzname cfg) t); [|discriminate]. cbn [bind].
    destruct (Template.format _ _); [|discriminate]. cbn [bind].
    fold email. fold name. destruct (String.eqb email "") eqn:E.
    - apply String.eqb_eq in E. contradiction.
    - intros [= <-]. do 14 right. left. reflexivity. }
  split; [|split; [exact Hline|]].
  - revert H. unfold ics_lines.
    destruct (isna (row_get "MeetingDateTime" CNaT r)); [discriminate|].
    destruct (row_get "MeetingDateTime" CNaT r); try discriminate.
    destruct (start_utc (tzname cfg) t); [|discriminate]. cbn [bind].
    destruct (Template.format _ _); [|discriminate]. cbn [bind].
    fold email. destruct (String.eqb email ""); intros [= <-]; reflexivity.
  - intros Hna. destruct (str_missing_not_blank _ Hna) as [Hstrip Hne].
    rewrite <- Hstrip. apply Hline. unfold email. now rewrite Hstrip.
Qed.

(** X13.  The DESCRIPTION of an invite is one line: every line feed of
    the formatted description is written as a backslash followed by
    [n]. *)
Theorem X13_description_on_one_line r cfg uid now lines :
  ics_lines r cfg uid now = Ok (Some lines) ->
  exists description,
    description_of r cfg = Ok description /\
    nth 11 lines "" = "DESCRIPTION:" ++ PyStr.replace LF "\n" description /\
    PyStr.has_char (ascii_of_nat 10) (nth 11 lines "") = false.
Proof.
  unfold ics_lines, description_of.
  destruct (isna (row_get "MeetingDateTime" CNaT r)); [discriminate|].
  destruct (row_get "MeetingDateTime" CNaT r); try discriminate.
  destruct (start_utc (tzname cfg) t); [|discriminate]. cbn [bind].
  destruct (Template.format _ _) as [d|]; [|discriminate]. cbn [bind].
  assert (Hd : PyStr.has_char (ascii_of_nat 10)
                 ("DESCRIPTION:" ++ PyStr.replace LF "\n" d) = false).
  { rewrite has_char_append. now rewrite replace_lf_single_line. }
  destruct (String.eqb _ ""); intros [= <-]; exists d;
    (split; [reflexivity|split; [reflexivity|exact Hd]]).
Qed.

Lemma yes_mask_meeting r : yes_mask r = true -> isna (meeting r) = false.
Proof.
  unfold yes_mask, meeting. intros H. apply andb_true_iff in H as [_ H].
  now apply negb_true_iff.
Qed.

Lemma ics_bytes_not_empty r cfg uid now doc :
  isna (meeting r) = false -> _ics_event_bytes r cfg uid now = Ok doc -> doc <> "".
Proof.
  unfold _ics_event_bytes. intros Hm.
  destruct (ics_lines r cfg uid now) as [[ls|]|e] eqn:Hl; cbn [bind]; intros [= <-].
  - apply document_not_empty.
  - apply ics_lines_none in Hl. congruence.
Qed.

Lemma collect_events_all cfg uid_of now_of records :
  Forall (fun r => isna (meeting r) = false) records ->
  forall i events,
    collect_events records cfg uid_of now_of i = Ok events ->
    length events = length records /\ Forall (fun e => e <> "") events.
Proof.
  induction 1 as [|r rest Hr _ IH]; intros i events H.
  - injection H as <-. split; [reflexivity|constructor].
  - cbn [collect_events] in H.
    destruct (_ics_event_bytes r cfg (uid_of i) (now_of i)) as [doc|] eqn:Hdoc;
      cbn [bind] in H; [|discriminate].
    destruct (collect_events rest cfg uid_of now_of (S i)) as [events'|] eqn:Hrest;
      cbn [bind] in H; [|discriminate].
    pose proof (ics_bytes_not_empty _ _ _ _ _ Hr Hdoc) as Hne.
    destruct (IH _ _ Hrest) as [Hlen Hall].
    destruct (String.eqb doc "") eqn:E; [now apply String.eqb_eq in E|].
    injection H as <-. split; [simpl; now rewrite Hlen|now constructor].
Qed.

(** X14.  Every record of [yes_df] gives an event: when the loop over
    [yes_df] returns, it has collected one non-empty document for each
    record, so the test [if ics_bytes] never skips one, and the bulk
    calendar is offered unless [yes_df] is empty. *)
Theorem X14_one_event_for_each_yes records cfg uid_of now_of events :
  collect_events (yes_df records) cfg uid_of now_of 0 = Ok events ->
  length events = length (yes_df records) /\
  Forall (fun e => e <> "") events /\
  (bulk_bytes (yes_df records) cfg uid_of now_of = Ok None <-> yes_df records = []).
Proof.
  intros H.
  assert (Hall : Forall (fun r => isna (meeting r) = false) (yes_df records)).
  { apply Forall_forall. intros r Hr. apply filter_In in Hr as [_ Hr].
    now apply yes_mask_meeting. }
  destruct (collect_events_all cfg uid_of now_of _ Hall _ _ H) as [Hlen Hne].
  split; [exact Hlen|split; [exact Hne|]].
  unfold bulk_bytes. rewrite H. cbn [bind]. split.
  - destruct events; [|discriminate]. intros _. now apply length_zero_iff_nil.
  - intros E. rewrite E in Hlen. apply length_zero_iff_nil in Hlen. now subst.
Qed.

Lemma ics_failure_any_uid r cfg uid now uid' now' e :
  _ics_event_bytes r cfg uid now = Raised e ->
  _ics_event_bytes r cfg uid' now' = Raised e.
Proof.
  unfold _ics_event_bytes, ics_lines.
  destruct (isna (row_get "MeetingDateTime" CNaT r)); [discriminate|].
  destruct (row_get "MeetingDateTime" CNaT r); try (intros H; exact H).
  destruct (start_utc (tzname cfg) t); [|intros H; exact H]. cbn [bind].
  destruct (Template.format _ _); [|intros H; exact H]. cbn [bind].
  destruct (String.eqb _ ""); discriminate.
Qed.

Lemma collect_events_fails cfg uid_of now_of r e records :
  In r records -> _ics_event_bytes r cfg "" 0%Z = Raised e ->
  forall i, exists e', collect_events records cfg uid_of now_of i = Raised e'.
Proof.
  intros Hin Hr. induction records as [|r0 rest IH]; [destruct Hin|].
  intros i. cbn [collect_events].
  destruct (_ics_event_bytes r0 cfg (uid_of i) (now_of i)) as [doc|e0] eqn:H0;
    cbn [bind]; [|now exists e0].
  destruct Hin as [->|Hin].
  - rewrite (ics_failure_any_uid _ _ _ _ (uid_of i) (now_of i) _ Hr) in H0. discriminate.
  - destruct (IH Hin (S i)) as [e' ->]. now exists e'.
Qed.

(** X15.  The bulk download is all or nothing: a single record on which
    [_ics_event_bytes] raises makes the whole loop raise, whatever the
    other records are.  Whether the encoder raises does not depend on the
    identifier it draws or on the clock. *)
Theorem X15_bulk_all_or_nothing records cfg uid_of now_of r uid now e :
  In r records ->
  _ics_event_bytes r cfg uid now = Raised e ->
  (forall uid' now', _ics_event_bytes r cfg uid' now' = Raised e) /\
  exists e', bulk_bytes records cfg uid_of now_of = Raised e'.
Proof.
  intros Hin Hr. split.
  - intros uid' now'. exact (ics_failure_any_uid _ _ _ _ uid' now' _ Hr).
  - unfold bulk_bytes.
    destruct (collect_events_fails cfg uid_of now_of r e records Hin
                (ics_failure_any_uid _ _ _ _ "" 0%Z _ Hr) 0%nat) as [e' ->].
    now exists e'.
Qed.

End WithRuntime.

Section WithRuntime.
Context {pandas : Pandas} {python : Python}.

Lemma start_utc_resolved tz t zone :
  zone_info tz = Some zone -> exists start, start_utc tz t = Ok start.
Proof.
  intros Hz. unfold start_utc. destruct (ts_offset t); [now eexists|].
  rewrite Hz. now eexists.
Qed.

(** X16.  The invites of a normalized table.  When the labels of the
    imported table differ after lower-casing and the conversion of its
    meeting column returned, the meeting of every record of the normalized
    table is a timestamp or missing, so that [_ics_event_bytes] has no
    value to stumble over: with a zone that resolves and a description
    that can be formatted it returns. *)
Theorem X16_invites_of_a_normalized_table T r cfg uid now zone description :
  NoDup (map PyStr.lower (labels T)) ->
  (forall s, Normalizer.source T "MeetingDateTime" = Some s -> to_datetime s <> None) ->
  In r (rows (Normalizer._standardize_columns T)) ->
  zone_info (tzname cfg) = Some zone ->
  description_of r cfg = Ok description ->
  (isna (meeting r) = true \/ exists t, meeting r = CTime t) /\
  exists doc, _ics_event_bytes r cfg uid now = Ok doc.
Proof.
  intros Hnd Hconv Hr Hzone Hdesc.
  assert (Hm : isna (meeting r) = true \/ exists t, meeting r = CTime t).
  { destruct (NormalizerMore.row_get_standardized T r Hnd Hr) as (i & _ & Hget).
    clear Hr. unfold meeting. rewrite Hget by (simpl; tauto).
    apply (NormalizerMore.nth_Forall
             (fun c => isna c = true \/ exists t, c = CTime t)); [|left; reflexivity].
    unfold Normalizer.expected_column.
    destruct (Normalizer.source T "MeetingDateTime") as [s|] eqn:Hs.
    - change (Normalizer.coercion "MeetingDateTime" s)
        with (Normalizer.or_keep to_datetime s).
      unfold Normalizer.or_keep. specialize (Hconv s eq_refl).
      destruct (to_datetime s) as [s'|] eqn:Hs'; [|contradiction].
      eapply Forall_impl; [|exact (NormalizerMore.converted_dates _ _ Hs')].
      intros c [->|[t ->]]; [left; reflexivity|right; exists t; reflexivity].
    - apply Forall_forall. intros c Hc. apply repeat_spec in Hc. subst c.
      left. reflexivity. }
  split; [exact Hm|].
  clear Hr. destruct Hm as [Hna|[t Ht]].
  - exists "". apply ics_absent, Hna.
  - destruct (start_utc_resolved (tzname cfg) t zone Hzone) as [start Hstart].
    destruct (ics_document r cfg uid now t start description Ht Hstart Hdesc)
      as (lines & Hdoc & _).
    eexists. exact Hdoc.
Qed.

End WithRuntime.

(** *** The properties at concrete records *)

Import Examples Cases.
#[local] Existing Instance Sample.pandas.
#[local] Existing Instance Sample.python.

(** A template that names a field the encoder does not bind. *)
Lemma X11_description_failure_by_template_witness :
  description_of bo (sidebar "America/New_York" "Hi {first_name}") = Raised KeyError.
Proof.
  apply (X11_description_failure_by_template ana bo); reflexivity.
Defined.

(** The invite of a record whose email is missing. *)
Lemma X12_attendee_line_witness :
  In "ATTENDEE;CN=Eve;ROLE=REQ-PARTICIPANT:mailto:nan"
     match ics_lines blank_status new_york "uid" 0 with
     | Ok (Some lines) => lines
     | _ => []
     end.
Proof.
  refine (proj2 (proj2 (X12_attendee_line blank_status new_york "uid" 0%Z _ _)) _).
  - vm_compute. reflexivity.
  - reflexivity.
Defined.

Lemma X13_description_on_one_line_witness :
  PyStr.has_char (ascii_of_nat 10)
    (nth 11 match ics_lines ana new_york "uid" 0 with
            | Ok (Some lines) => lines
            | _ => []
            end "") = false.
Proof.
  pose (lines := match ics_lines ana new_york "uid" 0 with
                 | Ok (Some lines) => lines
                 | _ => []
                 end).
  assert (H : ics_lines ana new_york "uid" 0 = Ok (Some lines))
    by (vm_compute; reflexivity).
  destruct (X13_description_on_one_line ana new_york "uid" 0%Z lines H)
    as (description & _ & _ & Hfree).
  exact Hfree.
Defined.

Lemma X14_one_event_for_each_yes_witness :
  length match collect_events (yes_df [ana; bo; ana]) new_york
                 (fun _ => "uid") (fun _ => 0%Z) 0 with
         | Ok events => events
         | Raised _ => []
         end = 2%nat.
Proof.
  refine (proj1 (X14_one_event_for_each_yes [ana; bo; ana] new_york
                   (fun _ => "uid") (fun _ => 0%Z) _ _)).
  vm_compute. reflexivity.
Defined.

(** One record whose meeting is text among records that can be encoded. *)
Lemma X15_bulk_all_or_nothing_witness :
  exists e, bulk_bytes [ana; cy; ana] new_york (fun _ => "uid") (fun _ => 0%Z) = Raised e.
Proof.
  refine (proj2 (X15_bulk_all_or_nothing [ana; cy; ana] new_york
                   (fun _ => "uid") (fun _ => 0%Z) cy "uid" 0%Z AttributeError _ _)).
  - simpl. tauto.
  - reflexivity.
Defined.

Lemma X16_invites_of_a_normalized_table_witness :
  exists doc,
    _ics_event_bytes (row_at (Normalizer._standardize_columns table_sheet) 0)
      (sidebar "UTC" "Call {name}") "uid" 0 = Ok doc.
Proof.
  refine (proj2 (X16_invites_of_a_normalized_table table_sheet _
                   (sidebar "UTC" "Call {name}") "uid" 0%Z (fun _ => 0%Z) "Call Ana Lopez"
                   _ _ _ _ _)).
  - apply NormalizerFacts.NoDup_by_eqb. reflexivity.
  - intros s Hs. vm_compute in Hs. injection Hs as <-. discriminate.
  - vm_compute. left. reflexivity.
  - reflexivity.
  - vm_compute. reflexivity.
Defined.

End InviteMore.

(* ------------------------------------------------------------------ *)
(** ** More on the analytics *)

Module AnalyticsMore.
Import Frame Py Analytics AnalyticsFacts Terms Overview.


(** *** The order of the group keys *)

Lemma ltb_lt a b : String.ltb a b = true <-> String_as_OT.lt a b.
Proof.
  rewrite <- String_as_OT.cmp_lt. unfold String.ltb, String_as_OT.cmp.
  destruct (String.compare a b); split; congruence.
Qed.

Lemma ltb_trans a b c :
  String.ltb a b = true -> String.ltb b c = true -> String.ltb a c = true.
Proof. rewrite !ltb_lt. apply String_as_OT.lt_trans. Qed.

Lemma ltb_irrefl a : String.ltb a a = false.
Proof.
  destruct (String.ltb a a) eqn:E; [|reflexivity].
  apply ltb_lt in E. apply String_as_OT.lt_not_eq in E. now elim E.
Qed.

Lemma ltb_connex a b :
  String.eqb a b = false -> String.ltb a b = false -> String.ltb b a = true.
Proof.
  unfold String.ltb. intros Hne Hlt. rewrite String.compare_antisym.
  destruct (String.compare a b) eqn:E; try reflexivity; try discriminate.
  apply String.compare_eq_iff in E. subst. now rewrite String.eqb_refl in Hne.
Qed.


Lemma insert_key_sorted k keys :
  StronglySorted ascending keys -> StronglySorted ascending (insert_key k keys).
Proof.
  induction 1 as [|x keys Hs IH Hx]; simpl; [repeat constructor|].
  destruct (String.eqb k x) eqn:E; [now constructor|].
  destruct (String.ltb k x) eqn:L.
  - constructor; [now constructor|]. constructor; [exact L|].
    rewrite Forall_forall in *. intros y Hy. eapply ltb_trans; [exact L|now apply Hx].
  - constructor; [exact IH|]. rewrite Forall_forall in *. intros y Hy.
    apply insert_key_In in Hy as [->|Hy]; [now apply ltb_connex|now apply Hx].
Qed.

Lemma sorted_keys_sorted l : StronglySorted ascending (sorted_keys l).
Proof.
  induction l as [|k l IH]; simpl; [constructor|]. now apply insert_key_sorted.
Qed.

Lemma sorted_NoDup keys : StronglySorted ascending keys -> NoDup keys.
Proof.
  induction 1 as [|x keys Hs IH Hx]; constructor; [|exact IH].
  intros Hin. rewrite Forall_forall in Hx. specialize (Hx _ Hin).
  unfold ascending in Hx. now rewrite ltb_irrefl in Hx.
Qed.

Lemma sorted_keys_NoDup l : NoDup (sorted_keys l).
Proof. apply sorted_NoDup, sorted_keys_sorted. Qed.

(** *** Counting by group *)

Lemma count_cons {A} (p : A -> bool) a l :
  count p (a :: l) = ((if p a then 1 else 0) + count p l)%nat.
Proof. unfold count. simpl. now destruct (p a). Qed.

Lemma count_le_length {A} (p : A -> bool) l : (count p l <= length l)%nat.
Proof. apply filter_length_le. Qed.

Lemma count_le {A} (p q : A -> bool) l :
  (forall a, In a l -> p a = true -> q a = true) -> (count p l <= count q l)%nat.
Proof.
  induction l as [|a l IH]; intros H; [apply Nat.le_refl|].
  rewrite !count_cons.
  assert (IH' : (count p l <= count q l)%nat) by (apply IH; intros; apply H; simpl; auto).
  destruct (p a) eqn:Ep; [rewrite (H a) by (simpl; auto)|destruct (q a)]; lia.
Qed.

Lemma list_sum_cons a l : list_sum (a :: l) = (a + list_sum l)%nat.
Proof. reflexivity. Qed.

Lemma list_sum_zeros {A} (l : list A) : list_sum (map (fun _ => 0%nat) l) = 0%nat.
Proof. induction l; [reflexivity|]. cbn [map]. now rewrite list_sum_cons, IHl. Qed.

Lemma sum_hit (keys : list string) k (v : nat) :
  NoDup keys -> In k keys ->
  list_sum (map (fun k' => if String.eqb k k' then v else 0%nat) keys) = v.
Proof.
  induction 1 as [|x keys Hx Hnd IH]; intros Hin; [destruct Hin|].
  cbn [map]. rewrite list_sum_cons. destruct (String.eqb_spec k x) as [->|Hne].
  - rewrite (map_ext_in _ (fun _ => 0%nat)).
    + rewrite list_sum_zeros. lia.
    + intros k' Hk'. destruct (String.eqb_spec x k'); [subst; contradiction|reflexivity].
  - destruct Hin as [->|Hin]; [contradiction|]. now rewrite IH.
Qed.

Lemma list_sum_map_add {A} (f g : A -> nat) l :
  list_sum (map (fun a => (f a + g a)%nat) l) = (list_sum (map f l) + list_sum (map g l))%nat.
Proof.
  induction l as [|a l IH]; [reflexivity|]. cbn [map]. rewrite !list_sum_cons, IH. lia.
Qed.

Lemma sum_by_key {A} (key_of : A -> string) (p : A -> bool) keys rows :
  NoDup keys -> (forall r, In r rows -> In (key_of r) keys) ->
  list_sum (map (fun k => count p (filter (fun r => String.eqb (key_of r) k) rows)) keys) =
  count p rows.
Proof.
  intros Hnd. induction rows as [|r rows IH]; intros Hcov.
  - cbn [filter]. apply list_sum_zeros.
  - rewrite (map_ext _
      (fun k => ((if String.eqb (key_of r) k then if p r then 1 else 0 else 0) +
                 count p (filter (fun r => String.eqb (key_of r) k) rows))%nat)).
    + rewrite list_sum_map_add, IH by (intros; apply Hcov; simpl; auto).
      rewrite sum_hit by (auto; apply Hcov; simpl; auto).
      now rewrite count_cons.
    + intros k. cbn [filter]. destruct (String.eqb (key_of r) k); [|reflexivity].
      apply count_cons.
Qed.

Lemma sum_filter_pos {A} (f : A -> nat) l :
  list_sum (map f (filter (fun g => (0 <? f g)%nat) l)) = list_sum (map f l).
Proof.
  induction l as [|a l IH]; [reflexivity|]. cbn [filter map].
  destruct (0 <? f a)%nat eqn:E; cbn [map]; rewrite !list_sum_cons, IH; [reflexivity|].
  apply Nat.ltb_ge in E. lia.
Qed.

Lemma sum_filter_le {A} (f : A -> nat) (p : A -> bool) l :
  (list_sum (map f (filter p l)) <= list_sum (map f l))%nat.
Proof.
  induction l as [|a l IH]; [apply Nat.le_refl|]. cbn [filter map].
  destruct (p a); cbn [map]; rewrite !list_sum_cons; lia.
Qed.

Lemma list_sum_perm l l' : Permutation l l' -> list_sum l = list_sum l'.
Proof.
  induction 1; try rewrite !list_sum_cons; try reflexivity; lia.
Qed.

Lemma list_sum_firstn k l : (list_sum (firstn k l) <= list_sum l)%nat.
Proof.
  revert k. induction l as [|a l IH]; intros [|k]; simpl; try lia.
  specialize (IH k). lia.
Qed.

Lemma firstn_short {A} k (l : list A) : (length (firstn k l) < k)%nat -> firstn k l = l.
Proof.
  intros H. apply firstn_all2. rewrite length_firstn in H. lia.
Qed.

Lemma NoDup_firstn {A} k (l : list A) : NoDup l -> NoDup (firstn k l).
Proof.
  intros H. rewrite <- (firstn_skipn k l) in H. now apply NoDup_app_remove_r in H.
Qed.

Section Groups.
Context {A : Type} (key_of : A -> string) (att is_yes : A -> bool) (rows : list A).

#[local] Abbreviation group_of := (Analytics.group_of key_of att is_yes rows).

Lemma rated_keys :
  map (fun x => key (of_group x)) (rated_groups key_of att is_yes rows) =
  filter (fun d => (0 <? attempted (group_of d))%nat) (sorted_keys (map key_of rows)).
Proof.
  unfold rated_groups. rewrite groups_map.
  induction (sorted_keys (map key_of rows)) as [|k ks IH]; [reflexivity|].
  cbn [map filter]. destruct (0 <? attempted (group_of k))%nat; [|exact IH].
  cbn [map]. now rewrite IH.
Qed.

Lemma rated_keys_NoDup :
  NoDup (map (fun x => key (of_group x)) (rated_groups key_of att is_yes rows)).
Proof. rewrite rated_keys. apply NoDup_filter, sorted_keys_NoDup. Qed.

Lemma rated_attempted_sum :
  list_sum (map (fun x => attempted (of_group x)) (rated_groups key_of att is_yes rows)) =
  count att rows.
Proof.
  unfold rated_groups. rewrite map_map. cbn [with_rate of_group].
  rewrite (sum_filter_pos attempted), groups_map, map_map.
  cbn [Analytics.group_of summarize attempted snd].
  apply sum_by_key; [apply sorted_keys_NoDup|].
  intros r Hr. apply sorted_keys_In. now apply in_map.
Qed.

Lemma rated_yes_sum :
  (list_sum (map (fun x => yes (of_group x)) (rated_groups key_of att is_yes rows)) <=
   count is_yes rows)%nat.
Proof.
  unfold rated_groups. rewrite map_map. cbn [with_rate of_group].
  etransitivity; [apply sum_filter_le|].
  rewrite groups_map, map_map. cbn [Analytics.group_of summarize yes snd].
  rewrite sum_by_key; [apply Nat.le_refl|apply sorted_keys_NoDup|].
  intros r Hr. apply sorted_keys_In. now apply in_map.
Qed.

End Groups.

Section WithRuntime.
Context {pandas : Pandas} {python : Python}.

(** X17.  No key occurs twice in a rate table: every company, or state,
    has at most one row. *)
Theorem X17_one_row_for_each_key dfA group_col top_n :
  NoDup (map (fun x => key (of_group x)) (rate_table dfA group_col top_n)).
Proof.
  unfold rate_table. rewrite <- firstn_map. apply NoDup_firstn.
  eapply Permutation_NoDup; [|apply (rated_keys_NoDup (group_key group_col) Attempted IsYes dfA)].
  apply Permutation_map, sort_rows_perm.
Qed.

(** X18.  A rate table agrees with the totals of the page.  The
    attempts of its rows add up to no more than the number of attempted
    records and the yes counts to no more than the number of yes records;
    when the table has fewer than [top_n] rows, nothing was cut off and
    every attempted record is counted in exactly one row. *)
Theorem X18_rate_table_and_totals dfA group_col top_n :
  let tbl := rate_table dfA group_col top_n in
  (list_sum (map (fun x => attempted (of_group x)) tbl) <= total_attempted dfA)%nat /\
  (list_sum (map (fun x => yes (of_group x)) tbl) <= total_yes dfA)%nat /\
  ((length tbl < top_n)%nat ->
   list_sum (map (fun x => attempted (of_group x)) tbl) = total_attempted dfA).
Proof.
  intros tbl. unfold tbl, rate_table, total_attempted, total_yes.
  set (groups := rated_groups (group_key group_col) Attempted IsYes dfA).
  assert (Ha : list_sum (map (fun x => attempted (of_group x)) (sort_rows groups)) =
               count Attempted dfA).
  { rewrite <- (rated_attempted_sum (group_key group_col) Attempted IsYes dfA).
    apply list_sum_perm, Permutation_map, Permutation_sym, sort_rows_perm. }
  assert (Hy : (list_sum (map (fun x => yes (of_group x)) (sort_rows groups)) <=
                count IsYes dfA)%nat).
  { etransitivity; [|apply (rated_yes_sum (group_key group_col) Attempted IsYes dfA)].
    apply Nat.eq_le_incl, list_sum_perm, Permutation_map, Permutation_sym, sort_rows_perm. }
  split; [|split].
  - rewrite <- Ha, <- firstn_map. apply list_sum_firstn.
  - etransitivity; [|exact Hy]. rewrite <- firstn_map. apply list_sum_firstn.
  - intros Hshort. now rewrite (firstn_short _ _ Hshort).
Qed.

End WithRuntime.

Lemma lower_yes_not_empty s : PyStr.lower s = "yes" -> (0 <? String.length s)%nat = true.
Proof. destruct s; [discriminate|reflexivity]. Qed.

Lemma rate_bounds (y a : nat) :
  (y <= a)%nat -> (0 < a)%nat ->
  (0 <= Float64.rate_tenths y a <= 1000)%Z.
Proof. intros Hya Ha. now apply Float64Facts.rate_tenths_range. Qed.

Section WithRuntime.
Context {pandas : Pandas} {python : Python}.

Lemma derive_yes_attempted r a :
  derive r = Ok a -> IsYes a = true -> Attempted a = true.
Proof.
  unfold derive. destruct (attempts_positive _) as [positive|]; [|discriminate].
  cbn [bind]. intros [= <-]. cbn [IsYes Attempted].
  destruct (astype_str _) as [s|]; cbn [lower_is_yes not_empty]; [|discriminate].
  intros Hyes.
  apply String.eqb_eq, lower_yes_not_empty in Hyes. rewrite Hyes. apply orb_true_r.
Qed.

Lemma build_dfA_Forall (P : arow -> Prop) records :
  (forall r a, derive r = Ok a -> P a) ->
  forall dfA, build_dfA records = Ok dfA -> Forall P dfA.
Proof.
  intros HP. induction records as [|r rest IH]; intros dfA H.
  - injection H as <-. constructor.
  - cbn [build_dfA] in H. destruct (derive r) as [a|] eqn:Ha; [|discriminate].
    cbn [bind] in H. destruct (build_dfA rest) as [dfA'|]; [|discriminate].
    injection H as <-. constructor; eauto.
Qed.

(** X19.  A yes is an attempt.  In the analytics frame built from any
    records, a record that counts as a yes counts as attempted; hence the
    total of yes is at most the total attempted, and in every row of a
    rate table the yes count is at most the attempted count, which is at
    most the size of the group, and the rate lies between 0 and 100 per
    cent. *)
Theorem X19_yes_within_attempted records dfA group_col top_n :
  build_dfA records = Ok dfA ->
  (Overview.total_yes dfA <= Overview.total_attempted dfA <= length dfA)%nat /\
  Forall (fun x =>
            (yes (of_group x) <= attempted (of_group x) <= n (of_group x))%nat /\
            (0 <= yes_rate x <= 1000)%Z)
         (rate_table dfA group_col top_n).
Proof.
  intros Hb.
  assert (Hall : Forall (fun a => IsYes a = true -> Attempted a = true) dfA).
  { apply (build_dfA_Forall _ records); [|exact Hb].
    intros r a. apply derive_yes_attempted. }
  rewrite Forall_forall in Hall.
  split.
  - unfold Overview.total_yes, Overview.total_attempted. split.
    + now apply count_le.
    + apply count_le_length.
  - apply Forall_forall. intros x Hx. unfold rate_table in Hx.
    apply firstn_subset in Hx.
    apply (Permutation_in _ (Permutation_sym (sort_rows_perm _))) in Hx.
    apply rated_groups_In in Hx as (k & _ & -> & Hpos).
    cbn [with_rate of_group yes_rate].
    assert (Hle : (yes (group_of (group_key group_col) Attempted IsYes dfA k) <=
                   attempted (group_of (group_key group_col) Attempted IsYes dfA k))%nat).
    { cbn [group_of summarize yes attempted snd]. apply count_le.
      intros a Ha. apply filter_In in Ha as [Ha _]. now apply Hall. }
    split; [split; [exact Hle|]|].
    + cbn [group_of summarize n attempted snd]. apply count_le_length.
    + now apply rate_bounds.
Qed.

Lemma row_get_missing K d d' r :
  isna (row_get K d r) = true -> isna d = false -> row_get K d' r = row_get K d r.
Proof.
  induction r as [|[k v] r IH]; simpl; intros H Hd; [congruence|].
  destruct (String.eqb k K); auto.
Qed.

(** X20.  A record whose status cell is missing is never a yes.  Whether
    it counts as attempted depends on what [astype(str)] does to a missing
    value: where it gives the text of the value ([nan], [None], [NaT]) the
    record counts as attempted whatever its attempts, because that text is
    not empty; where it keeps the value missing the record counts as
    attempted exactly when its attempts are above zero. *)
Theorem X20_missing_status r a :
  derive r = Ok a ->
  isna (row_get "Status" (CStr "") r) = true ->
  IsYes a = false /\
  (str_keeps_missing = false -> Attempted a = true) /\
  (str_keeps_missing = true ->
   attempts_positive (row_get "Attempts" CNone r) = Ok (Attempted a)).
Proof.
  intros Hd Hna.
  pose proof (row_get_missing "Status" (CStr "") CNone r Hna eq_refl) as Hs.
  revert Hd. unfold derive, astype_str.
  destruct (attempts_positive _) as [positive|]; [|discriminate].
  cbn [bind]. intros [= <-]. cbn [IsYes Attempted]. rewrite Hs, Hna. cbn [andb].
  destruct str_keeps_missing; cbn [lower_is_yes not_empty].
  - split; [reflexivity|]. split; [discriminate|].
    intros _. now rewrite orb_false_r.
  - destruct (row_get "Status" (CStr "") r) as [s | z | [| neg | q] | | | t];
      try discriminate; (split; [reflexivity|]); (split; [|discriminate]);
      intros _; apply orb_true_r.
Qed.

End WithRuntime.

Section WithRuntime.
Context {pandas : Pandas} {python : Python}.

Lemma build_dfA_total records :
  Forall (fun r => exists b, attempts_positive (row_get "Attempts" CNone r) = Ok b) records ->
  exists dfA, build_dfA records = Ok dfA /\ map cells dfA = records.
Proof.
  induction 1 as [|r rest [b Hb] _ (dfA & IH & Hcells)].
  - now exists [].
  - cbn [build_dfA]. unfold derive. rewrite Hb. cbn [bind]. rewrite IH. cbn [bind].
    eexists. split; [reflexivity|]. cbn [map cells]. now rewrite Hcells.
Qed.

(** X21.  The analytics of a normalized table.  When the labels of the
    imported table differ after lower-casing and no cell of its attempts
    column reads as an infinite number, building the analytics frame from
    the records of the normalized table does not raise: there is one
    analytics row for each record. *)
Theorem X21_analytics_of_a_normalized_table T :
  NoDup (map PyStr.lower (labels T)) ->
  forallb (fun c => negb (Normalizer.reads_infinite c)) (Normalizer.attempts_source T) = true ->
  exists dfA,
    build_dfA (rows (Normalizer._standardize_columns T)) = Ok dfA /\
    map cells dfA = rows (Normalizer._standardize_columns T) /\
    length dfA = nrows T.
Proof.
  intros Hnd Hfin.
  destruct (build_dfA_total (rows (Normalizer._standardize_columns T))) as (dfA & Hb & Hc).
  - apply Forall_forall. intros r Hr.
    destruct (NormalizerMore.row_get_standardized T r Hnd Hr) as (i & _ & Hget).
    clear Hr. rewrite Hget by (simpl; tauto).
    rewrite NormalizerFacts.expected_attempts.
    destruct (NormalizerFacts.attempts_to_int_total _ Hfin) as [col' Hcol'].
    unfold Normalizer.or_keep. rewrite Hcol'.
    apply (NormalizerMore.nth_Forall
             (fun c => exists b, attempts_positive c = Ok b));
      [|eexists; reflexivity].
    eapply Forall_impl; [|exact (NormalizerMore.converted_attempts _ _ Hcol')].
    intros c [z ->]. eexists; reflexivity.
  - exists dfA. split; [exact Hb|split; [exact Hc|]].
    rewrite <- (length_map cells), Hc. unfold rows.
    now rewrite length_map, length_seq, NormalizerFacts.nrows_standardize.
Qed.

End WithRuntime.

(** *** The hour table *)

Lemma insert_hour_In h x hours : In h (Overview.insert_hour x hours) <-> h = x \/ In h hours.
Proof.
  induction hours as [|y hours IH]; simpl; [intuition|].
  destruct (Z.eqb_spec x y) as [->|Hne]; [simpl; intuition|].
  destruct (x <? y)%Z; simpl; [intuition|].
  rewrite IH. intuition.
Qed.

Lemma sorted_hours_In h l : In h (Overview.sorted_hours l) <-> In h l.
Proof.
  induction l as [|x l IH]; simpl; [tauto|].
  rewrite insert_hour_In, IH. intuition.
Qed.

Lemma insert_hour_sorted h hours :
  StronglySorted Z.lt hours -> StronglySorted Z.lt (Overview.insert_hour h hours).
Proof.
  induction 1 as [|x hours Hs IH Hx]; simpl; [repeat constructor|].
  destruct (Z.eqb_spec h x) as [->|Hne]; [now constructor|].
  destruct (Z.ltb_spec h x) as [Hlt|Hge].
  - constructor; [now constructor|]. constructor; [exact Hlt|].
    rewrite Forall_forall in *. intros y Hy. specialize (Hx y Hy). lia.
  - constructor; [exact IH|]. rewrite Forall_forall in *. intros y Hy.
    apply insert_hour_In in Hy as [->|Hy]; [lia|now apply Hx].
Qed.

Lemma sorted_hours_sorted l : StronglySorted Z.lt (Overview.sorted_hours l).
Proof.
  induction l as [|h l IH]; simpl; [constructor|]. now apply insert_hour_sorted.
Qed.

Lemma sorted_filter {A} (R : A -> A -> Prop) (p : A -> bool) l :
  StronglySorted R l -> StronglySorted R (filter p l).
Proof.
  induction 1 as [|x l Hs IH Hx]; simpl; [constructor|].
  destruct (p x); [|exact IH]. constructor; [exact IH|].
  rewrite Forall_forall in *. intros y Hy. apply filter_In in Hy as [Hy _]. now apply Hx.
Qed.

Lemma sorted_within l a b :
  StronglySorted Z.lt l -> Forall (fun h => (a <= h < b)%Z) l ->
  (Z.of_nat (length l) <= Z.max 0 (b - a))%Z.
Proof.
  intros Hs. revert a. induction Hs as [|x l Hs IH Hx]; intros a Hall; [simpl; lia|].
  inversion Hall as [|? ? Hxa Hall']; subst.
  assert (Htail : Forall (fun h => (x + 1 <= h < b)%Z) l).
  { rewrite Forall_forall in *. intros y Hy. specialize (Hx y Hy). specialize (Hall' y Hy).
    lia. }
  specialize (IH (x + 1)%Z Htail). cbn [length]. lia.
Qed.

Lemma hour_table_hours valid :
  map Overview.Hour (Overview.hour_table valid) =
  filter (fun h => (0 <? Overview.hour_attempted (Overview.hour_group valid h))%nat)
         (Overview.sorted_hours (map (fun v => Overview.hour_of (snd v)) valid)).
Proof.
  unfold Overview.hour_table.
  induction (Overview.sorted_hours _) as [|h hs IH]; [reflexivity|].
  cbn [map filter]. destruct (0 <? _)%nat; [|exact IH].
  cbn [map]. now rewrite IH.
Qed.

(** X22.  The table of the yes rate by hour lists hours of the day in
    strictly ascending order: whole hours from 0 to 23, none twice, so at
    most 24 of them.  Every row stands for an hour in which a record was
    attempted and holds the counts of the records touched in that hour. *)
Theorem X22_hour_table valid :
  let tbl := Overview.hour_table valid in
  StronglySorted Z.lt (map Overview.Hour tbl) /\
  Forall (fun g =>
            (0 <= Overview.Hour g < 24)%Z /\
            (0 < Overview.hour_attempted g)%nat /\
            g = Overview.hour_group valid (Overview.Hour g))
         tbl /\
  (length tbl <= 24)%nat.
Proof.
  intros tbl.
  assert (Hs : StronglySorted Z.lt (map Overview.Hour tbl)).
  { unfold tbl. rewrite hour_table_hours. apply sorted_filter, sorted_hours_sorted. }
  assert (Hall : Forall (fun g =>
            (0 <= Overview.Hour g < 24)%Z /\
            (0 < Overview.hour_attempted g)%nat /\
            g = Overview.hour_group valid (Overview.Hour g)) tbl).
  { apply Forall_forall. intros g Hg. unfold tbl, Overview.hour_table in Hg.
    apply filter_In in Hg as [Hg Hpos]. apply Nat.ltb_lt in Hpos.
    apply in_map_iff in Hg as (h & <- & Hh).
    apply (proj1 (sorted_hours_In _ _)) in Hh.
    apply in_map_iff in Hh as (v & <- & _).
    split; [apply TemplateMore.hour_range|]. split; [exact Hpos|reflexivity]. }
  split; [exact Hs|split; [exact Hall|]].
  pose proof (sorted_within (map Overview.Hour tbl) 0 24 Hs) as Hlen.
  rewrite length_map in Hlen.
  assert (Hb : Forall (fun h => (0 <= h < 24)%Z) (map Overview.Hour tbl)).
  { apply Forall_map. eapply Forall_impl; [|exact Hall]. intros g H. apply H. }
  specialize (Hlen Hb). lia.
Qed.

Section WithRuntime.
Context {pandas : Pandas} {python : Python}.

(** X23.  After an import the touch time never is the time of the last
    call.  For a table whose labels differ after lower-casing, every
    record of the normalized table has no [LastCallDateTime], so that
    [_touch_datetime] gives its callback time, or else its meeting time,
    whatever the imported sheet held as the time of the last call. *)
Theorem X23_touch_after_import T r :
  NoDup (map PyStr.lower (labels T)) ->
  In r (rows (Normalizer._standardize_columns T)) ->
  isna (row_get "LastCallDateTime" CNaT r) = true /\
  _touch_datetime r =
    let callback := row_get "CallbackDateTime" CNaT r in
    let meeting := row_get "MeetingDateTime" CNaT r in
    if negb (isna callback) then callback
    else if negb (isna meeting) then meeting
    else CNaT.
Proof.
  intros Hnd Hr.
  destruct (NormalizerMore.row_get_standardized T r Hnd Hr) as (i & _ & Hget).
  clear Hr.
  assert (Hlast : isna (row_get "LastCallDateTime" CNaT r) = true).
  { rewrite Hget by (simpl; tauto).
    apply (NormalizerMore.nth_Forall (fun c => isna c = true)); [|reflexivity].
    change (Normalizer.expected_column T "LastCallDateTime")
      with (repeat CNaT (nrows T)).
    apply Forall_forall. intros c Hc. apply repeat_spec in Hc. subst c. reflexivity. }
  split; [exact Hlast|].
  unfold _touch_datetime. cbn [first_present]. rewrite Hlast. reflexivity.
Qed.

End WithRuntime.

(** *** The properties at concrete records *)

Import Examples Cases.
#[local] Existing Instance Sample.pandas.
#[local] Existing Instance Sample.python.

(** The exact rate of [A] is 28.75, which would be shown as 28.8 and put
    [A] first by its 80 attempts; the double is below 28.75 and shown as
    28.7, so that [B], with 28.8, comes first. *)
Lemma rate_table_close_rates :
  rate_table close_rates "Company" 2 =
  [mkRateRow (mkGroup "B" 73 73 21) 288; mkRateRow (mkGroup "A" 80 80 23) 287].
Proof. vm_compute. reflexivity. Qed.

Lemma X19_yes_within_attempted_witness :
  Forall (fun x =>
            (yes (of_group x) <= attempted (of_group x) <= n (of_group x))%nat /\
            (0 <= yes_rate x <= 1000)%Z)
         (rate_table match build_dfA calls with
                     | Ok dfA => dfA
                     | Raised _ => []
                     end "Company" 15).
Proof.
  refine (proj2 (X19_yes_within_attempted calls _ "Company" 15 _)).
  vm_compute. reflexivity.
Defined.

(** The status of [blank_status] is missing and its attempts are 0: with
    the reference conversions, which give a missing value its text, the
    record counts as attempted. *)
Lemma X20_missing_status_witness :
  Attempted match derive blank_status with
            | Ok a => a
            | Raised _ => mkARow [] false false
            end = true.
Proof.
  refine (proj1 (proj2 (X20_missing_status blank_status _ _ _)) _).
  - vm_compute. reflexivity.
  - reflexivity.
  - reflexivity.
Defined.

(** With conversions that keep the value missing it does not. *)
Lemma missing_status_kept_missing :
  @derive Sample.pandas_3 Sample.python blank_status = Ok (mkARow blank_status false false).
Proof. vm_compute. reflexivity. Qed.

(** The attempts of the one row of the table of [one_of_three] are all
    the attempts there are. *)
Lemma X18_rate_table_and_totals_witness :
  list_sum (map (fun x => attempted (of_group x)) (rate_table one_of_three "Company" 15)) =
  Overview.total_attempted one_of_three.
Proof.
  refine (proj2 (proj2 (X18_rate_table_and_totals one_of_three "Company" 15)) _).
  vm_compute. lia.
Defined.

Lemma X21_analytics_of_a_normalized_table_witness :
  exists dfA,
    build_dfA (rows (Normalizer._standardize_columns table_attempts)) = Ok dfA /\
    map cells dfA = rows (Normalizer._standardize_columns table_attempts) /\
    length dfA = 3%nat.
Proof.
  apply (X21_analytics_of_a_normalized_table table_attempts).
  - apply NormalizerFacts.NoDup_by_eqb. reflexivity.
  - reflexivity.
Defined.

(** The sheet of [table_last_call] gives the time of the last call; the
    normalized record has none. *)
Lemma X23_touch_after_import_witness :
  isna (row_get "LastCallDateTime" CNaT
          (row_at (Normalizer._standardize_columns table_last_call) 0)) = true.
Proof.
  refine (proj1 (X23_touch_after_import table_last_call _ _ _)).
  - apply NormalizerFacts.NoDup_by_eqb. reflexivity.
  - vm_compute. left. reflexivity.
Defined.

End AnalyticsMore.

(* ------------------------------------------------------------------ *)
(** ** The export of personalized emails *)

Module EmailsFacts.
Import Frame Py Emails.

#[local] Open Scope string_scope.

Section WithRuntime.
Context {pandas : Pandas} {python : Python}.

(** The loop gives the same result on the records that have an
    address. *)
Lemma emails_skip records subject_tmpl body_tmpl :
  personalized_emails records subject_tmpl body_tmpl =
  personalized_emails (filter (fun r => negb (String.eqb (address r) "")) records)
                      subject_tmpl body_tmpl.
Proof.
  induction records as [|r rest IH]; [reflexivity|].
  cbn [personalized_emails filter].
  destruct (String.eqb (address r) "") eqn:E; cbn [negb]; [exact IH|].
  cbn [personalized_emails]. rewrite E, IH. reflexivity.
Qed.

(** X24.  The export of personalized emails.  When every record that has
    an address is one the renderer accepts (its name is text or [None],
    its meeting a timestamp or missing), the loop returns one row for
    each record with an address, in the order of the table, with the
    trimmed address and the name as it is stored. *)
Theorem X24_one_email_for_each_address records subject_tmpl body_tmpl :
  Forall (fun r =>
            address r <> "" ->
            (row_get "Name" (CStr "") r = CNone \/
             exists n, row_get "Name" (CStr "") r = CStr n) /\
            (isna (row_get "MeetingDateTime" CNone r) = true \/
             exists t, row_get "MeetingDateTime" CNone r = CTime t))
         records ->
  exists out,
    personalized_emails records subject_tmpl body_tmpl = Ok out /\
    map Email out = filter (fun e => negb (String.eqb e "")) (map address records) /\
    map Name out =
      map (row_get "Name" (CStr ""))
          (filter (fun r => negb (String.eqb (address r) "")) records).
Proof.
  induction 1 as [|r rest Hr _ (out & IH & Hemail & Hname)].
  - exists []. repeat split.
  - cbn [personalized_emails map filter].
    destruct (String.eqb (address r) "") eqn:E; cbn [negb].
    + exists out. auto.
    + apply String.eqb_neq in E. destruct (Hr E) as [Hn Hm].
      destruct (TemplateMore.render_returns r subject_tmpl body_tmpl Hn Hm)
        as (subject & body & ->).
      cbn [bind]. rewrite IH. cbn [bind]. eexists. split; [reflexivity|].
      cbn [map Email Name]. now rewrite Hemail, Hname.
Qed.

(** X25.  Records without an address are skipped before anything is
    rendered, so that nothing they hold can make the export fail; a
    record with an address that cannot be rendered makes the whole export
    raise, whatever the other records are. *)
Theorem X25_export_all_or_nothing records subject_tmpl body_tmpl :
  personalized_emails records subject_tmpl body_tmpl =
  personalized_emails (filter (fun r => negb (String.eqb (address r) "")) records)
                      subject_tmpl body_tmpl /\
  (forall r e,
     In r records -> address r <> "" ->
     Template._render_template r subject_tmpl body_tmpl = Raised e ->
     exists e', personalized_emails records subject_tmpl body_tmpl = Raised e').
Proof.
  split; [apply emails_skip|].
  intros r e Hin Haddr Hr. induction records as [|r0 rest IH]; [destruct Hin|].
  cbn [personalized_emails].
  destruct (String.eqb (address r0) "") eqn:E.
  - destruct Hin as [->|Hin]; [apply String.eqb_eq in E; contradiction|]. auto.
  - destruct (Template._render_template r0 subject_tmpl body_tmpl) as [rendered|e0] eqn:H0;
      cbn [bind]; [|now exists e0].
    destruct Hin as [->|Hin]; [congruence|].
    destruct (IH Hin) as [e' ->]. now exists e'.
Qed.

End WithRuntime.

(** *** The properties at concrete records *)

Import Examples Cases.
#[local] Existing Instance Sample.pandas.
#[local] Existing Instance Sample.python.

(** [nameless] has no address and is skipped; the missing email of
    [blank_status] reads [nan] and gets a row. *)
Lemma X24_one_email_for_each_address_witness :
  exists out,
    personalized_emails [ana; nameless; blank_status] "Hi {first_name}" "{}" = Ok out /\
    map Email out = ["ana@acme.com"; "nan"] /\
    map Name out = [CStr "Ana Lopez"; CStr "Eve"].
Proof.
  apply (X24_one_email_for_each_address [ana; nameless; blank_status]).
  apply Forall_cons; [intros _; split; right; eexists; reflexivity|].
  apply Forall_cons; [intros H; exfalso; apply H; reflexivity|].
  apply Forall_cons; [intros _; split; right; eexists; reflexivity|].
  apply Forall_nil.
Defined.

Lemma X25_export_all_or_nothing_witness :
  exists e,
    personalized_emails [ana; nameless_with_address] "Hi {first_name}" "Hello" = Raised e.
Proof.
  refine (proj2 (X25_export_all_or_nothing [ana; nameless_with_address] _ _)
            nameless_with_address AttributeError _ _ _).
  - simpl. tauto.
  - discriminate.
  - reflexivity.
Defined.

End EmailsFacts.

(* ------------------------------------------------------------------ *)
(** ** The table editor *)

Module EditingFacts.
Import Frame Py Editing.

Lemma set_nth_same {A} i (l : list A) d : set_nth i (nth i l d) l = l.
Proof.
  revert i. induction l as [|x l IH]; intros [|i]; simpl; try reflexivity.
  now rewrite IH.
Qed.

Lemma put_cells_same index series :
  put_cells index (map (fun i => nth i series CNone) index) series = series.
Proof.
  unfold put_cells. induction index as [|i index IH]; [reflexivity|].
  cbn [map combine fold_left fst snd]. now rewrite set_nth_same.
Qed.

Lemma combine_map_r {A B} (g : A -> B) l : combine l (map g l) = map (fun x => (x, g x)) l.
Proof. induction l; simpl; congruence. Qed.

Lemma put_rows_same index df : put_rows index (take_rows index df) df = df.
Proof.
  apply NormalizerFacts.frame_eq; [reflexivity|].
  unfold put_rows, take_rows. cbn [columns].
  rewrite combine_map_r, map_map. cbn [fst snd].
  rewrite <- (map_id (columns df)) at 2. apply map_ext.
  intros [l s]. cbn [fst snd]. now rewrite put_cells_same.
Qed.

(** *** The view of a table that holds the filter columns *)

(** A record reads the first column that carries the label. *)
Lemma row_get_row_at col d df i :
  row_get col d (row_at df i) =
  match select col df with
  | [] => d
  | series :: _ => nth i series CNone
  end.
Proof.
  unfold row_at, select. induction (columns df) as [|[l s] cols IH]; [reflexivity|].
  cbn [map filter fst snd row_get]. destruct (String.eqb l col); [reflexivity|exact IH].
Qed.

Lemma filter_filter {A} (p q : A -> bool) l :
  filter q (filter p l) = filter (fun x => p x && q x) l.
Proof.
  induction l as [|x l IH]; [reflexivity|]. simpl.
  destruct (p x); simpl; [destruct (q x); now rewrite IH|exact IH].
Qed.

Lemma text_column_options col df :
  text_column col df = true ->
  exists series ts, select col df = [series] /\ texts series = Some ts.
Proof.
  unfold text_column. destruct (select col df) as [|series [|]]; try discriminate.
  destruct (texts series) as [ts|] eqn:E; [|discriminate].
  intros _. exists series, ts. split; [reflexivity|exact E].
Qed.

Section WithPandas.
Context {pandas : Pandas}.
Variable sorted_values : list cell -> result (list cell).
Variable filter_repeated : string -> list string -> DataFrame -> list nat -> result (list nat).
Variable assign_mismatched : DataFrame -> list nat -> DataFrame -> result DataFrame.

Lemma filter_rows_passes col selected df index :
  (length (select col df) =? 1)%nat = true ->
  filter_rows filter_repeated col selected df index =
  Ok (filter (fun i => passes col selected (row_at df i)) index).
Proof.
  intros Hone. unfold filter_rows, passes.
  destruct selected as [|s selected].
  - f_equal. induction index as [|i index IH]; [reflexivity|]. simpl. now rewrite <- IH.
  - destruct (select col df) as [|series [|]] eqn:Hsel; try discriminate.
    f_equal. apply filter_ext. intros i. now rewrite row_get_row_at, Hsel.
Qed.

Lemma text_column_once col df :
  text_column col df = true -> (length (select col df) =? 1)%nat = true.
Proof.
  intros H. destruct (text_column_options col df H) as (series & ts & -> & _). reflexivity.
Qed.

(** On a table that holds the filter columns the view is made of the
    records that pass the filters. *)
Lemma page_view_index session f :
  filterable session = true ->
  page_view sorted_values filter_repeated session f = Ok (view_index f session).
Proof.
  unfold filterable. intros H.
  apply andb_true_iff in H as [H Hstatus]. apply andb_true_iff in H as [Hstate Hcompany].
  unfold page_view, filter_options.
  destruct (text_column_options _ _ Hstate) as (s1 & t1 & E1 & E1').
  destruct (text_column_options _ _ Hcompany) as (s2 & t2 & E2 & E2').
  rewrite E1, E1', E2, E2'. cbn [bind].
  rewrite (filter_rows_passes "Status") by exact Hstatus. cbn [bind].
  rewrite (filter_rows_passes "State") by (now apply text_column_once). cbn [bind].
  rewrite (filter_rows_passes "Company") by (now apply text_column_once).
  rewrite !filter_filter. f_equal. apply filter_ext. intros i.
  unfold in_view. now rewrite andb_assoc.
Qed.

Lemma filterable_columns session : filterable session = true -> columns session <> [].
Proof.
  unfold filterable, text_column, select. intros H E. rewrite E in H. discriminate.
Qed.

(** X26.  An editor that is left untouched changes nothing.  On a table
    that holds the filter columns (state and company as columns of text,
    the status as one column), when some record passes the filters,
    writing the rows of the view back to their positions gives the table
    that was there. *)
Theorem X26_untouched_editor_keeps_table session f :
  filterable session = true ->
  view_index f session <> [] ->
  edit_table sorted_values filter_repeated assign_mismatched session f (fun view => view) =
  Ok session.
Proof.
  intros Hf Hrows. pose proof (filterable_columns session Hf) as Hcols.
  unfold edit_table. rewrite (page_view_index session f Hf). cbn [bind].
  unfold merge_edits.
  assert (Hne : empty (take_rows (view_index f session) session) = false).
  { unfold empty, take_rows. cbn [nrows columns]. rewrite length_map.
    destruct (view_index f session); [contradiction|].
    destruct (columns session); [contradiction|]. reflexivity. }
  rewrite Hne. cbn [negb].
  cbn [take_rows nrows columns]. rewrite length_map, !Nat.eqb_refl. cbn [andb].
  change (mkFrame (length (view_index f session))
            (map (fun lc => (fst lc, map (fun i => nth i (snd lc) CNone)
                                         (view_index f session)))
                 (columns session)))
    with (take_rows (view_index f session) session).
  now rewrite put_rows_same.
Qed.

(** X27.  On a table that holds the filter columns, when no record
    passes the filters the view is empty and the table of the session is
    replaced by the normalized content of the editor, whatever it held:
    with an editor that is left untouched, a table whose labels differ
    after lower-casing becomes the empty table with the twelve
    application columns. *)
Theorem X27_empty_view_replaces_table session f :
  filterable session = true ->
  view_index f session = [] ->
  (forall edit,
     edit_table sorted_values filter_repeated assign_mismatched session f edit =
     Ok (Normalizer._standardize_columns (edit (take_rows [] session)))) /\
  (NoDup (map PyStr.lower (labels session)) ->
   edit_table sorted_values filter_repeated assign_mismatched session f (fun view => view) =
   Ok (mkFrame 0 (map (fun K => (K, [])) Normalizer.APP_COLUMNS))).
Proof.
  intros Hf Hempty. unfold edit_table.
  rewrite (page_view_index session f Hf), Hempty. cbn [bind]. unfold merge_edits.
  change (empty (take_rows [] session)) with true. cbn [negb].
  split; [reflexivity|]. intros Hnd. f_equal.
  apply NormalizerMore.empty_table_normalized.
  - unfold well_formed, take_rows. cbn [columns nrows length].
    apply Forall_map, Forall_forall. reflexivity.
  - reflexivity.
  - unfold labels, take_rows. cbn [columns]. rewrite (map_map _ fst). exact Hnd.
Qed.

(** Without the state column the page raises before it shows the
    editor, whatever the filters. *)
Lemma page_needs_state session f edit :
  select "State" session = [] ->
  edit_table sorted_values filter_repeated assign_mismatched session f edit = Raised KeyError.
Proof. intros H. unfold edit_table, page_view, filter_options. now rewrite H. Qed.

End WithPandas.

(** *** Incrementing the attempts *)








Section Increment.
Variable astype_int : cell -> result Z.
Variable increment_repeated : DataFrame -> list nat -> result DataFrame.



End Increment.

(** *** The properties at a concrete table *)

Import Cases.
#[local] Existing Instance Sample.pandas.

Lemma X26_untouched_editor_keeps_table_witness :
  edit_table (fun _ => Raised TypeError) (fun _ _ _ _ => Raised ValueError)
    (fun _ _ _ => Raised ValueError) prospects only_yes (fun view => view) =
  Ok prospects.
Proof.
  apply X26_untouched_editor_keeps_table; [reflexivity|discriminate].
Defined.

(** Nobody has the status [No]: choosing it in the filter empties the
    table of the session. *)
Lemma X27_empty_view_replaces_table_witness :
  edit_table (fun _ => Raised TypeError) (fun _ _ _ _ => Raised ValueError)
    (fun _ _ _ => Raised ValueError) prospects only_no (fun view => view) =
  Ok (mkFrame 0 (map (fun K => (K, [])) Normalizer.APP_COLUMNS)).
Proof.
  refine (proj2 (X27_empty_view_replaces_table _ _ _ prospects only_no _ _) _).
  - reflexivity.
  - reflexivity.
  - apply NormalizerFacts.NoDup_by_eqb. reflexivity.
Defined.


End EditingFacts.
